(** * MSM USB DBM 1.5 driver (drivers/usb/dwc3/dbm-1_5.c)

    A shallow embedding of the driver's register primitives and of its
    eight entry points, with the properties of its specification.

    Modelling choices.
    - C integers are [Z]; the wrap-around of [u32] arithmetic is written
      out ([shl32], [not32]), and the [int] to [u8] conversion at a call
      is the explicit cast [u8].
    - The register window behind [dbm_data->base] is a map from byte
      offsets to words that returns on a read what was last written (an
      in-memory register file behind ioread32/iowrite32).
    - The global [dbm_data] and the window are threaded through every
      function as one [machine]; the machine also keeps the trace of what
      the call did, in program order: register reads and writes, stores
      into [ep_num_mapping], delays and [pr_err] messages ([pr_debug] is
      left out).
    - The bit masks of dbm.h are not part of the sources at hand: they are
      the fields of the class [dbm_h], and every theorem holds for every
      assignment of them (under the hypotheses it states). *)

From Stdlib Require Import ZArith List Bool Lia.
Import ListNotations.
Local Open Scope Z_scope.

(** ** Constants *)

(** errno values of the kernel. *)
Definition ENODEV : Z := 19.
Definition EINVAL : Z := 22.

(** USB DBM hardware registers. *)
Definition DBM_EP_CFG (n : Z) : Z := 0x00 + 4 * n.
Definition DBM_DATA_FIFO (n : Z) : Z := 0x280 + 4 * n.
Definition DBM_DATA_FIFO_SIZE (n : Z) : Z := 0x80 + 4 * n.
Definition DBM_DATA_FIFO_EN : Z := 0x26C.
Definition DBM_GEVNTADR : Z := 0x270.
Definition DBM_GEVNTSIZ : Z := 0x268.
Definition DBM_DBG_CNFG : Z := 0x208.
Definition DBM_PIPE_CFG : Z := 0x274.
Definition DBM_SOFT_RESET : Z := 0x20C.
Definition DBM_GEN_CFG : Z := 0x210.
Definition DBM_GEVNTADR_LSB : Z := 0x260.
Definition DBM_GEVNTADR_MSB : Z := 0x264.
Definition DBM_DATA_FIFO_LSB (n : Z) : Z := 0x100 + 8 * n.
Definition DBM_DATA_FIFO_MSB (n : Z) : Z := 0x104 + 8 * n.
Definition DBM_DATA_FIFO_ADDR_EN : Z := 0x200.
Definition DBM_DATA_FIFO_SIZE_EN : Z := 0x204.

Definition DBM_1_5_NUM_EP : Z := 8.

(** The register bit masks that dbm-1_5.c takes from dbm.h. *)
Class dbm_h : Set := Dbm_h {
  DBM_EN_EP : Z;
  USB3_EPNUM : Z;
  DBM_PRODUCER : Z;
  DBM_DISABLE_WB : Z;
  DBM_INT_RAM_ACC : Z;
  DBM_DATA_FIFO_SIZE_MASK : Z;
  DBM_GEVNTSIZ_MASK : Z;
  DBM_ENABLE_IOC_MASK : Z;
  DBM_SFT_RST_EPS_MASK : Z;
  DBM_SFT_RST_MASK : Z
}.

(** ** Machine words *)

Definition u8 (x : Z) : Z := x mod 2 ^ 8.
Definition u32 (x : Z) : Z := x mod 2 ^ 32.

(** [x << s] on u32.  For [s = 32] (the shift of an empty mask) C leaves
    the result undefined: a register-specified LSL on the 32-bit ARM
    target of this kernel gives 0, which is the value taken here, while a
    target that takes the count modulo 32 gives [x].  Statements about the
    bits a field write leaves are made for masks that have a set bit
    ([field_fits], or the slot's bit of a per-slot mask), where the count
    is below 32. *)
Definition shl32 (x s : Z) : Z := u32 (Z.shiftl x s).

(** [~x] on u32. *)
Definition not32 (x : Z) : Z := u32 (Z.lnot x).

Definition lower_32_bits (n : Z) : Z := u32 n.
Definition upper_32_bits (n : Z) : Z := u32 (Z.shiftr (Z.shiftr n 16) 16).

(** [find_first_bit(addr, size)]: the index of the lowest set bit among
    the first [size] bits, or [size] when none is set. *)
Fixpoint find_first_bit_from (word : Z) (i : Z) (n : nat) : Z :=
  match n with
  | O => i
  | S n' => if Z.testbit word i then i else find_first_bit_from word (i + 1) n'
  end.

Definition find_first_bit (word size : Z) : Z :=
  find_first_bit_from word 0 (Z.to_nat size).

(** ** The machine *)

Inductive message : Set :=
| MsgInvalidDbmEp   (* "Invalid DBM ep index" *)
| MsgInvalidUsbEp   (* "Invalid usb ep index" *)
| MsgLastEpOut      (* "last DBM EP can't be OUT EP" *)
| MsgInvalidSize.   (* "Invalid size. size = %d" *)

Inductive event : Set :=
| EvIoRead (offset : Z)
| EvIoWrite (offset val : Z)
| EvMapStore (idx val : Z)
| EvDelay (usec : Z)
| EvErr (m : message).

(** [regs] is the register window at [dbm_data->base]; [dbm_num_eps] and
    [ep_num_mapping] are the fields of [struct dbm_data]; [mem_fault]
    records that a store went outside [ep_num_mapping] (from there on the
    C program has no defined behaviour; the model leaves the table as it
    was). *)
Record machine : Type := Machine {
  regs : Z -> Z;
  dbm_num_eps : Z;
  ep_num_mapping : list Z;
  mem_fault : bool;
  trace : list event
}.

Definition io (A : Type) : Type := machine -> A * machine.

Definition ret {A : Type} (a : A) : io A := fun st => (a, st).

Definition bind {A B : Type} (m : io A) (k : A -> io B) : io B :=
  fun st => let (a, st') := m st in k a st'.

Declare Scope io_scope.
Delimit Scope io_scope with io.
Notation "x <- m ;; k" := (bind m (fun x => k))
  (at level 61, m at next level, right associativity) : io_scope.
Notation "m ;; k" := (bind m (fun _ => k))
  (at level 61, right associativity) : io_scope.
Local Open Scope io_scope.

Definition log (e : event) (st : machine) : machine :=
  Machine (regs st) (dbm_num_eps st) (ep_num_mapping st) (mem_fault st)
          (trace st ++ [e]).

Definition pr_err (m : message) : io unit := fun st => (tt, log (EvErr m) st).

Definition udelay (usec : Z) : io unit := fun st => (tt, log (EvDelay usec) st).

Definition ioread32 (offset : Z) : io Z :=
  fun st => (regs st offset, log (EvIoRead offset) st).

Definition iowrite32 (val offset : Z) : io unit :=
  fun st =>
    (tt, Machine (fun o => if o =? offset then val else regs st o)
                 (dbm_num_eps st) (ep_num_mapping st) (mem_fault st)
                 (trace st ++ [EvIoWrite offset val])).

(** [l[i] = v] on a list; out of range the list is returned as it is. *)
Fixpoint list_set (l : list Z) (i : nat) (v : Z) : list Z :=
  match l, i with
  | [], _ => []
  | _ :: t, O => v :: t
  | h :: t, S i' => h :: list_set t i' v
  end.

(** [dbm_data->ep_num_mapping[idx] = val].  The array has
    [DBM_1_5_NUM_EP] entries; a store at any other index is a memory
    fault. *)
Definition index_in_bounds (idx : Z) : bool :=
  (0 <=? idx) && (idx <? DBM_1_5_NUM_EP).

Definition store_ep_num_mapping (idx val : Z) : io unit :=
  fun st =>
    if index_in_bounds idx then
      (tt, Machine (regs st) (dbm_num_eps st)
                   (list_set (ep_num_mapping st) (Z.to_nat idx) val)
                   (mem_fault st) (trace st ++ [EvMapStore idx val]))
    else
      (tt, Machine (regs st) (dbm_num_eps st) (ep_num_mapping st) true
                   (trace st ++ [EvMapStore idx val])).

(** [dbm_data->ep_num_mapping[i]] *)
Definition load_ep_num_mapping (st : machine) (i : Z) : Z :=
  nth (Z.to_nat i) (ep_num_mapping st) 0.

(** ** Register primitives *)

Definition msm_dbm_write_reg_field (offset mask val : Z) : io unit :=
  let shift := find_first_bit mask 32 in
  tmp <- ioread32 offset ;;
  let tmp := Z.land tmp (not32 mask) in     (* clear written bits *)
  let val := Z.lor tmp (shl32 val shift) in
  iowrite32 val offset.

Definition msm_dbm_read_reg (offset : Z) : io Z :=
  val <- ioread32 offset ;;
  ret val.

Definition msm_dbm_write_reg (offset val : Z) : io unit :=
  iowrite32 val offset.

(** ** The driver *)

Section Driver.

Context {masks : dbm_h}.

(** Return DBM EP number according to usb endpoint number:
    the loop [for (i = ...; i < dbm_num_eps; i++)], with [n] iterations
    left. *)
Fixpoint find_matching_from (st : machine) (usb_ep : Z) (i : Z) (n : nat) : Z :=
  match n with
  | O => - ENODEV   (* Not found *)
  | S n' =>
      if load_ep_num_mapping st i =? usb_ep then i
      else find_matching_from st usb_ep (i + 1) n'
  end.

Definition msm_dbm_find_matching_dbm_ep (usb_ep : Z) : io Z :=
  fun st => (find_matching_from st usb_ep 0 (Z.to_nat (dbm_num_eps st)), st).

(** Reset the DBM registers upon initialization. *)
Definition soft_reset (reset : bool) : io Z :=
  msm_dbm_write_reg_field DBM_SOFT_RESET DBM_SFT_RST_MASK (Z.b2z reset) ;;
  ret 0.

(** Soft reset specific DBM ep. *)
Definition dbm_ep_soft_reset (dbm_ep : Z) (enter_reset : bool) : io Z :=
  fun st =>
    if dbm_ep >=? dbm_num_eps st then
      (pr_err MsgInvalidDbmEp ;;
       ret (- ENODEV)) st
    else
      ((if enter_reset then
          msm_dbm_write_reg_field DBM_SOFT_RESET
            (Z.land DBM_SFT_RST_EPS_MASK (Z.shiftl 1 dbm_ep)) 1
        else
          msm_dbm_write_reg_field DBM_SOFT_RESET
            (Z.land DBM_SFT_RST_EPS_MASK (Z.shiftl 1 dbm_ep)) 0) ;;
       ret 0) st.

(** Configure a USB DBM ep to work in BAM mode. *)
Definition ep_config (usb_ep bam_pipe : Z)
    (producer disable_wb internal_mem ioc : bool) : io Z :=
  dbm_ep <- msm_dbm_find_matching_dbm_ep usb_ep ;;
  if dbm_ep <? 0 then
    pr_err MsgInvalidUsbEp ;;
    ret (- ENODEV)
  else
  (* Due to HW issue, EP 7 can be set as IN EP only *)
  if (dbm_ep =? 7) && producer then
    pr_err MsgLastEpOut ;;
    ret (- ENODEV)
  else
    (* First, reset the dbm endpoint *)
    dbm_ep_soft_reset (u8 dbm_ep) false ;;
    (* Set ioc bit for dbm_ep if needed *)
    msm_dbm_write_reg_field DBM_DBG_CNFG
      (Z.land DBM_ENABLE_IOC_MASK (Z.shiftl 1 dbm_ep)) (if ioc then 1 else 0) ;;
    (* No internal memory support yet, we assume internal_mem == false *)
    let internal_mem := false in
    let ep_cfg :=
      Z.lor (Z.lor (if producer then DBM_PRODUCER else 0)
                   (if disable_wb then DBM_DISABLE_WB else 0))
            (if internal_mem then DBM_INT_RAM_ACC else 0) in
    msm_dbm_write_reg_field (DBM_EP_CFG dbm_ep)
      (Z.lor (Z.lor DBM_PRODUCER DBM_DISABLE_WB) DBM_INT_RAM_ACC)
      (Z.shiftr ep_cfg 8) ;;
    msm_dbm_write_reg_field (DBM_EP_CFG dbm_ep) USB3_EPNUM usb_ep ;;
    msm_dbm_write_reg_field (DBM_EP_CFG dbm_ep) DBM_EN_EP 1 ;;
    ret dbm_ep.

(** Configure a USB DBM ep to work in normal mode. *)
Definition ep_unconfig (usb_ep : Z) : io Z :=
  dbm_ep <- msm_dbm_find_matching_dbm_ep usb_ep ;;
  if dbm_ep <? 0 then
    pr_err MsgInvalidUsbEp ;;
    ret (- ENODEV)
  else
    store_ep_num_mapping dbm_ep 0 ;;
    data <- msm_dbm_read_reg (DBM_EP_CFG dbm_ep) ;;
    let data := Z.land data (not32 0x1) in
    msm_dbm_write_reg (DBM_EP_CFG dbm_ep) data ;;
    (* Reset the dbm endpoint *)
    dbm_ep_soft_reset (u8 dbm_ep) true ;;
    (* 10 usec delay is required before deasserting DBM endpoint reset *)
    udelay 10 ;;
    dbm_ep_soft_reset (u8 dbm_ep) false ;;
    ret 0.

(** Return number of configured DBM endpoints: the loop with [n]
    iterations left. *)
Fixpoint count_configured_from (st : machine) (i : Z) (n : nat) (count : Z) : Z :=
  match n with
  | O => count
  | S n' =>
      count_configured_from st (i + 1) n'
        (if load_ep_num_mapping st i =? 0 then count else count + 1)
  end.

Definition get_num_of_eps_configured : io Z :=
  fun st => (count_configured_from st 0 (Z.to_nat (dbm_num_eps st)) 0, st).

(** Configure the DBM with the USB3 core event buffer. *)
Definition event_buffer_config (addr_lo addr_hi size : Z) : io Z :=
  if size <? 0 then
    pr_err MsgInvalidSize ;;
    ret (- EINVAL)
  else
    msm_dbm_write_reg DBM_GEVNTADR_LSB addr_lo ;;
    msm_dbm_write_reg DBM_GEVNTADR_MSB addr_hi ;;
    msm_dbm_write_reg_field DBM_GEVNTSIZ DBM_GEVNTSIZ_MASK size ;;
    ret 0.

Definition data_fifo_config (dep_num addr size dst_pipe_idx : Z) : io Z :=
  let dbm_ep := dst_pipe_idx in
  let lo := lower_32_bits addr in
  let hi := upper_32_bits addr in
  store_ep_num_mapping dbm_ep dep_num ;;
  msm_dbm_write_reg (DBM_DATA_FIFO_LSB dbm_ep) lo ;;
  msm_dbm_write_reg (DBM_DATA_FIFO_MSB dbm_ep) hi ;;
  msm_dbm_write_reg_field (DBM_DATA_FIFO_SIZE dbm_ep)
    DBM_DATA_FIFO_SIZE_MASK size ;;
  ret 0.

Definition set_speed (speed : bool) : io unit :=
  msm_dbm_write_reg DBM_GEN_CFG (Z.b2z speed).

Definition enable : io unit :=
  msm_dbm_write_reg DBM_DATA_FIFO_ADDR_EN 0x000000FF ;;
  msm_dbm_write_reg DBM_DATA_FIFO_SIZE_EN 0x000000FF.

(** The device context after a successful [msm_dbm_probe]: [devm_kzalloc]
    zeroes [ep_num_mapping], [dbm_num_eps] is [DBM_1_5_NUM_EP], and
    [window] is what the mapped registers hold. *)
Definition msm_dbm_probe (window : Z -> Z) : machine :=
  Machine window DBM_1_5_NUM_EP (repeat 0 (Z.to_nat DBM_1_5_NUM_EP)) false [].

(** The operation table that [msm_dbm_probe] registers: a call of one of
    the eight entry points. *)
Inductive call : Set :=
| CallSoftReset (reset : bool)
| CallEpConfig (usb_ep bam_pipe : Z)
               (producer disable_wb internal_mem ioc : bool)
| CallEpUnconfig (usb_ep : Z)
| CallGetNumOfEpsConfigured
| CallEventBufferConfig (addr_lo addr_hi size : Z)
| CallDataFifoConfig (dep_num addr size dst_pipe_idx : Z)
| CallSetSpeed (speed : bool)
| CallEnable.

(** The value a call returns (0 for the two [void] entry points) and the
    machine it leaves. *)
Definition run_call (c : call) : io Z :=
  match c with
  | CallSoftReset reset => soft_reset reset
  | CallEpConfig usb_ep bam_pipe producer disable_wb internal_mem ioc =>
      ep_config usb_ep bam_pipe producer disable_wb internal_mem ioc
  | CallEpUnconfig usb_ep => ep_unconfig usb_ep
  | CallGetNumOfEpsConfigured => get_num_of_eps_configured
  | CallEventBufferConfig addr_lo addr_hi size =>
      event_buffer_config addr_lo addr_hi size
  | CallDataFifoConfig dep_num addr size dst_pipe_idx =>
      data_fifo_config dep_num addr size dst_pipe_idx
  | CallSetSpeed speed => set_speed speed ;; ret 0
  | CallEnable => enable ;; ret 0
  end.

Fixpoint run_calls (cs : list call) (st : machine) : machine :=
  match cs with
  | [] => st
  | c :: cs' => run_calls cs' (snd (run_call c st))
  end.

End Driver.

(** ** Observations on machines and traces *)

(** The register writes of a trace, in order: (offset, value). *)
Fixpoint writes_of (t : list event) : list (Z * Z) :=
  match t with
  | [] => []
  | EvIoWrite offset val :: t' => (offset, val) :: writes_of t'
  | _ :: t' => writes_of t'
  end.

(** The events a computation adds to the trace of [st]. *)
Definition events_of {A : Type} (m : io A) (st : machine) : list event :=
  skipn (length (trace st)) (trace (snd (m st))).

(** The position of the first event of [t] that satisfies [p]. *)
Fixpoint position (p : event -> bool) (t : list event) : option nat :=
  match t with
  | [] => None
  | e :: t' => if p e then Some O else option_map S (position p t')
  end.

Definition is_io_write (e : event) : bool :=
  match e with EvIoWrite _ _ => true | _ => false end.

Definition is_map_store (e : event) : bool :=
  match e with EvMapStore _ _ => true | _ => false end.

(** The word a masked field write leaves in a register that held [r]. *)
Definition field_word (r mask val : Z) : Z :=
  Z.lor (Z.land r (not32 mask)) (shl32 val (find_first_bit mask 32)).

(** [val] fits the field that [mask] selects: the mask has a lowest set
    bit among its 32 bits, and [val] shifted to that bit has no bit
    outside [mask]. *)
Definition field_fits (mask val : Z) : bool :=
  (find_first_bit mask 32 <? 32) &&
  (Z.land (shl32 val (find_first_bit mask 32)) (not32 mask) =? 0).

(** How often [v] occurs in the mapping table. *)
Fixpoint occurrences (v : Z) (l : list Z) : nat :=
  match l with
  | [] => O
  | x :: l' => if x =? v then S (occurrences v l') else occurrences v l'
  end.

(** A logical endpoint number appears in at most one slot. *)
Definition mapping_unique (l : list Z) : Prop :=
  forall v, v <> 0 -> (occurrences v l <= 1)%nat.

(** The number of register writes of a call that runs to its end. *)
Definition full_writes (c : call) : nat :=
  match c with
  | CallSoftReset _ => 1
  | CallEpConfig _ _ _ _ _ _ => 5
  | CallEpUnconfig _ => 3
  | CallGetNumOfEpsConfigured => 0
  | CallEventBufferConfig _ _ _ => 3
  | CallDataFifoConfig _ _ _ _ => 3
  | CallSetSpeed _ => 1
  | CallEnable => 2
  end%nat.

(** An assignment of the dbm.h masks to run the model on: a one-bit
    enable field at bit 0, the endpoint number in bits 1-5, the three
    flags in bits 8-10, 16-bit size fields, the per-slot IOC and reset
    bits in the low nibble and the global reset in bit 31. *)
Definition sample_dbm_h : dbm_h :=
  Dbm_h 0x00000001 0x0000003E 0x00000100 0x00000200 0x00000400
        0x0000ffff 0x0000ffff 0x0000000f 0x0000000F 0x80000000.

(** Sample devices: slot 7 bound to logical endpoint 5; slot 2 bound to
    logical endpoint 3; and the latter after [ep_config] of endpoint 3. *)
Definition bound_7_5 : machine :=
  snd (data_fifo_config (masks := sample_dbm_h) 5 0x80000000 2048 7
         (msm_dbm_probe (fun _ => 0))).

Definition bound_2_3 : machine :=
  snd (data_fifo_config (masks := sample_dbm_h) 3 0x100000000 4096 2
         (msm_dbm_probe (fun _ => 0))).

Definition configured_2_3 : machine :=
  snd (ep_config (masks := sample_dbm_h) 3 0 true false false true bound_2_3).

(** What [msm_dbm_probe] establishes and no entry point changes: the
    slot count, and the size of the table. *)
Definition device_ok (st : machine) : Prop :=
  dbm_num_eps st = DBM_1_5_NUM_EP /\
  length (ep_num_mapping st) = Z.to_nat DBM_1_5_NUM_EP.

(** Every register write of the trace comes before every store into the
    mapping table, and the other way round. *)
Definition writes_before_store (evs : list event) : Prop :=
  forall i j,
    (exists idx val, nth_error evs i = Some (EvMapStore idx val)) ->
    (exists offset val, nth_error evs j = Some (EvIoWrite offset val)) ->
    (j < i)%nat.

Definition store_before_writes (evs : list event) : Prop :=
  forall i j,
    (exists idx val, nth_error evs i = Some (EvMapStore idx val)) ->
    (exists offset val, nth_error evs j = Some (EvIoWrite offset val)) ->
    (i < j)%nat.

Section Observations.

Context {masks : dbm_h}.

(** The mask of the three flags and the word [ep_config] composes from
    them ([internal_mem] is forced to false). *)
Definition ep_cfg_flags_mask : Z :=
  Z.lor (Z.lor DBM_PRODUCER DBM_DISABLE_WB) DBM_INT_RAM_ACC.

Definition ep_cfg_of (producer disable_wb : bool) : Z :=
  Z.lor (Z.lor (if producer then DBM_PRODUCER else 0)
               (if disable_wb then DBM_DISABLE_WB else 0))
        (if false then DBM_INT_RAM_ACC else 0).

(** The three words a successful [ep_config] writes, one after the other,
    into a configuration register that held [r]. *)
Definition cfg_flags_word (r : Z) (producer disable_wb : bool) : Z :=
  field_word r ep_cfg_flags_mask (Z.shiftr (ep_cfg_of producer disable_wb) 8).

Definition cfg_epnum_word (r : Z) (producer disable_wb : bool) (usb_ep : Z) : Z :=
  field_word (cfg_flags_word r producer disable_wb) USB3_EPNUM usb_ep.

Definition cfg_enable_word (r : Z) (producer disable_wb : bool) (usb_ep : Z) : Z :=
  field_word (cfg_epnum_word r producer disable_wb usb_ep) DBM_EN_EP 1.

(** The events of an [ep_config] that goes through on slot [d]. *)
Definition ep_config_events (st : machine) (d usb_ep : Z)
    (producer disable_wb ioc : bool) : list event :=
  let cfg := DBM_EP_CFG d in
  [ EvIoRead DBM_SOFT_RESET;
    EvIoWrite DBM_SOFT_RESET
      (field_word (regs st DBM_SOFT_RESET)
                  (Z.land DBM_SFT_RST_EPS_MASK (Z.shiftl 1 d)) 0);
    EvIoRead DBM_DBG_CNFG;
    EvIoWrite DBM_DBG_CNFG
      (field_word (regs st DBM_DBG_CNFG)
                  (Z.land DBM_ENABLE_IOC_MASK (Z.shiftl 1 d))
                  (if ioc then 1 else 0));
    EvIoRead cfg;
    EvIoWrite cfg (cfg_flags_word (regs st cfg) producer disable_wb);
    EvIoRead cfg;
    EvIoWrite cfg (cfg_epnum_word (regs st cfg) producer disable_wb usb_ep);
    EvIoRead cfg;
    EvIoWrite cfg (cfg_enable_word (regs st cfg) producer disable_wb usb_ep) ].

(** The events of an [ep_unconfig] that goes through on slot [d]. *)
Definition ep_unconfig_events (st : machine) (d : Z) : list event :=
  let cfg := DBM_EP_CFG d in
  let rst := Z.land DBM_SFT_RST_EPS_MASK (Z.shiftl 1 d) in
  let asserted := field_word (regs st DBM_SOFT_RESET) rst 1 in
  [ EvMapStore d 0;
    EvIoRead cfg;
    EvIoWrite cfg (Z.land (regs st cfg) (not32 0x1));
    EvIoRead DBM_SOFT_RESET;
    EvIoWrite DBM_SOFT_RESET asserted;
    EvDelay 10;
    EvIoRead DBM_SOFT_RESET;
    EvIoWrite DBM_SOFT_RESET (field_word asserted rst 0) ].

(** The events of [data_fifo_config]. *)
Definition data_fifo_config_events (st : machine)
    (dep_num addr size dst_pipe_idx : Z) : list event :=
  [ EvMapStore dst_pipe_idx dep_num;
    EvIoWrite (DBM_DATA_FIFO_LSB dst_pipe_idx) (lower_32_bits addr);
    EvIoWrite (DBM_DATA_FIFO_MSB dst_pipe_idx) (upper_32_bits addr);
    EvIoRead (DBM_DATA_FIFO_SIZE dst_pipe_idx);
    EvIoWrite (DBM_DATA_FIFO_SIZE dst_pipe_idx)
      (field_word (regs st (DBM_DATA_FIFO_SIZE dst_pipe_idx))
                  DBM_DATA_FIFO_SIZE_MASK size) ].

(** A caller that binds a logical endpoint number only to a slot of the
    table, and only when no other slot holds that number. *)
Definition call_guard (st : machine) (c : call) : Prop :=
  match c with
  | CallDataFifoConfig dep_num _ _ dst_pipe_idx =>
      0 <= dst_pipe_idx < DBM_1_5_NUM_EP /\
      (dep_num = 0 \/
       occurrences dep_num
         (list_set (ep_num_mapping st) (Z.to_nat dst_pipe_idx) 0) = O)
  | _ => True
  end.

Fixpoint calls_guarded (cs : list call) (st : machine) : Prop :=
  match cs with
  | [] => True
  | c :: cs' => call_guard st c /\ calls_guarded cs' (snd (run_call c st))
  end.

(** How a call ends: it failed, and all it did was to print a message; or
    it returned a non-negative value and issued all of its register
    writes. *)
Inductive outcome (c : call) (st : machine) : Prop :=
| Failed (m : message) :
    fst (run_call c st) < 0 ->
    snd (run_call c st) = log (EvErr m) st ->
    outcome c st
| Completed (evs : list event) :
    0 <= fst (run_call c st) ->
    trace (snd (run_call c st)) = trace st ++ evs ->
    length (writes_of evs) = full_writes c ->
    outcome c st.

End Observations.

(** ** Machine words: bit-level facts *)

Lemma testbit_u32_low (x i : Z) :
  0 <= i < 32 -> Z.testbit (u32 x) i = Z.testbit x i.
Proof.
  intros Hi. unfold u32. apply Z.mod_pow2_bits_low. lia.
Qed.

Lemma testbit_not32 (x i : Z) :
  0 <= i < 32 -> Z.testbit (not32 x) i = negb (Z.testbit x i).
Proof.
  intros Hi. unfold not32. rewrite testbit_u32_low by assumption.
  apply Z.lnot_spec. lia.
Qed.

Lemma testbit_shl32 (x s i : Z) :
  0 <= i < 32 -> Z.testbit (shl32 x s) i = Z.testbit (Z.shiftl x s) i.
Proof.
  intros Hi. unfold shl32. now apply testbit_u32_low.
Qed.

Lemma testbit_field_word (r mask val i : Z) :
  0 <= i < 32 ->
  Z.testbit (field_word r mask val) i =
  (Z.testbit r i && negb (Z.testbit mask i))
  || Z.testbit (Z.shiftl val (find_first_bit mask 32)) i.
Proof.
  intros Hi. unfold field_word.
  now rewrite Z.lor_spec, Z.land_spec, testbit_not32, testbit_shl32.
Qed.

Lemma field_fits_outside (mask val i : Z) :
  field_fits mask val = true -> 0 <= i < 32 -> Z.testbit mask i = false ->
  Z.testbit (Z.shiftl val (find_first_bit mask 32)) i = false.
Proof.
  unfold field_fits. intros Hfit Hi Hm.
  apply andb_true_iff in Hfit. destruct Hfit as [_ Hfit].
  apply Z.eqb_eq in Hfit.
  assert (Hb : Z.testbit (Z.land (shl32 val (find_first_bit mask 32))
                                 (not32 mask)) i = false)
    by (rewrite Hfit; apply Z.bits_0).
  rewrite Z.land_spec, testbit_not32, testbit_shl32, Hm in Hb by assumption.
  now rewrite andb_true_r in Hb.
Qed.

Lemma field_word_twice (r mask v1 v2 : Z) :
  field_fits mask v1 = true ->
  field_word (field_word r mask v1) mask v2 = field_word r mask v2.
Proof.
  unfold field_fits, field_word. intros Hfit.
  apply andb_true_iff in Hfit. destruct Hfit as [_ Hfit].
  apply Z.eqb_eq in Hfit.
  rewrite Z.land_lor_distr_l, Hfit, Z.lor_0_r.
  now rewrite <- Z.land_assoc, Z.land_diag.
Qed.

(** The scan for the lowest set bit finds it. *)
Lemma find_first_bit_from_lowest (word s : Z) (n : nat) :
  forall i,
    i <= s < i + Z.of_nat n ->
    Z.testbit word s = true ->
    (forall j, i <= j < s -> Z.testbit word j = false) ->
    find_first_bit_from word i n = s.
Proof.
  induction n as [| n IH]; intros i Hs Hset Hbelow; [ lia | ].
  cbn [find_first_bit_from].
  destruct (Z.testbit word i) eqn:Hi.
  - destruct (Z.eq_dec i s) as [Heq | Hne]; [ exact Heq | ].
    rewrite Hbelow in Hi by lia. discriminate Hi.
  - assert (Hne : i <> s) by (intros ->; congruence).
    apply IH; [ lia | exact Hset | ].
    intros j Hj. apply Hbelow. lia.
Qed.

Lemma testbit_small (val w j : Z) :
  0 <= val < 2 ^ w -> 0 <= w <= j -> Z.testbit val j = false.
Proof.
  intros Hval Hj. rewrite <- (Z.mod_small val (2 ^ w)) by assumption.
  apply Z.mod_pow2_bits_high. lia.
Qed.

Lemma testbit_contiguous (s w i : Z) :
  0 <= s -> 0 <= w -> 0 <= i ->
  Z.testbit (Z.shiftl (Z.ones w) s) i = (s <=? i) && (i <? s + w).
Proof.
  intros Hs Hw Hi. rewrite Z.shiftl_spec by assumption.
  destruct (Z.leb_spec s i) as [Hle | Hlt].
  - destruct (Z.ltb_spec i (s + w)) as [Hin | Hout].
    + apply Z.ones_spec_low. lia.
    + apply Z.ones_spec_high. lia.
  - apply Z.testbit_neg_r. lia.
Qed.

(** The masks the driver is written for: a field of [w] bits at bit [s].
    Every value below [2 ^ w] fits it. *)
Lemma field_fits_contiguous (s w val : Z) :
  0 <= s -> 0 < w -> s + w <= 32 -> 0 <= val < 2 ^ w ->
  field_fits (Z.shiftl (Z.ones w) s) val = true.
Proof.
  intros Hs Hw Hsw Hval.
  assert (Hbase : find_first_bit (Z.shiftl (Z.ones w) s) 32 = s).
  { unfold find_first_bit. apply find_first_bit_from_lowest.
    - lia.
    - rewrite testbit_contiguous by lia. apply andb_true_iff. lia.
    - intros j Hj. rewrite testbit_contiguous by lia.
      apply andb_false_iff. left. lia. }
  unfold field_fits. rewrite Hbase. apply andb_true_iff. split; [ lia | ].
  apply Z.eqb_eq. apply Z.bits_inj'. intros i Hi.
  rewrite Z.land_spec, Z.bits_0.
  destruct (Z.lt_ge_cases i 32) as [Hlow | Hhigh].
  - rewrite testbit_shl32, testbit_not32, testbit_contiguous by lia.
    rewrite Z.shiftl_spec by lia.
    destruct (Z.leb_spec s i) as [Hle | Hlt].
    + destruct (Z.ltb_spec i (s + w)) as [Hin | Hout].
      * apply andb_false_r.
      * rewrite (testbit_small val w (i - s)) by lia. reflexivity.
    + rewrite Z.testbit_neg_r by lia. reflexivity.
  - unfold shl32, u32. rewrite Z.mod_pow2_bits_high by lia. reflexivity.
Qed.

(** The bits of a field write: inside the mask the value, outside it what
    was there, when the value fits. *)
Lemma field_word_bit_inside (r mask val i : Z) :
  0 <= i < 32 -> Z.testbit mask i = true ->
  Z.testbit (field_word r mask val) i =
  Z.testbit (Z.shiftl val (find_first_bit mask 32)) i.
Proof.
  intros Hi Hm. rewrite testbit_field_word, Hm by assumption.
  now rewrite andb_false_r.
Qed.

Lemma field_word_bit_outside (r mask val i : Z) :
  0 <= i < 32 -> field_fits mask val = true -> Z.testbit mask i = false ->
  Z.testbit (field_word r mask val) i = Z.testbit r i.
Proof.
  intros Hi Hfit Hm. rewrite testbit_field_word, Hm by assumption.
  rewrite (field_fits_outside mask val i Hfit Hi Hm).
  now rewrite andb_true_r, orb_false_r.
Qed.

Lemma disjoint_masks_bit (m1 m2 i : Z) :
  Z.land m1 m2 = 0 -> Z.testbit m1 i = true -> Z.testbit m2 i = false.
Proof.
  intros Hdis H1.
  assert (Hb : Z.testbit (Z.land m1 m2) i = false)
    by (rewrite Hdis; apply Z.bits_0).
  now rewrite Z.land_spec, H1 in Hb.
Qed.

(** ** What a register primitive leaves behind *)

Lemma write_reg_field_run (offset mask val : Z) (st : machine) :
  msm_dbm_write_reg_field offset mask val st =
  (tt, Machine (fun o => if o =? offset
                         then field_word (regs st offset) mask val
                         else regs st o)
               (dbm_num_eps st) (ep_num_mapping st) (mem_fault st)
               (trace st ++ [EvIoRead offset;
                             EvIoWrite offset
                               (field_word (regs st offset) mask val)])).
Proof.
  unfold msm_dbm_write_reg_field, bind, ioread32, iowrite32, log, field_word.
  cbn. now rewrite <- app_assoc.
Qed.

Lemma write_reg_field_same (offset mask val : Z) (st : machine) :
  regs (snd (msm_dbm_write_reg_field offset mask val st)) offset =
  field_word (regs st offset) mask val.
Proof.
  rewrite write_reg_field_run. cbn. now rewrite Z.eqb_refl.
Qed.

Lemma write_reg_field_other (offset mask val o : Z) (st : machine) :
  o <> offset ->
  regs (snd (msm_dbm_write_reg_field offset mask val st)) o = regs st o.
Proof.
  intros Ho. rewrite write_reg_field_run. cbn.
  apply Z.eqb_neq in Ho. now rewrite Ho.
Qed.

Lemma events_of_app {A : Type} (m : io A) (st : machine) (evs : list event) :
  trace (snd (m st)) = trace st ++ evs -> events_of m st = evs.
Proof.
  intros Ht. unfold events_of. rewrite Ht.
  rewrite skipn_app, skipn_all, Nat.sub_diag. reflexivity.
Qed.

(** ** Masked register field write *)

(** C5 (as amended): for every register content, mask and value that fits
    the field the mask selects (shifted to the mask's lowest set bit, the
    value has no bit outside the mask), the masked field write reads the
    register and writes back one word; each of its 32 bits outside the
    mask is the bit the register held, and each bit inside the mask is the
    bit of the value shifted left to the mask's lowest set bit. *)
Theorem write_reg_field_bits :
  forall (st : machine) (offset mask val : Z),
    field_fits mask val = true ->
    let r := regs st offset in
    let st' := snd (msm_dbm_write_reg_field offset mask val st) in
    events_of (msm_dbm_write_reg_field offset mask val) st =
      [EvIoRead offset; EvIoWrite offset (regs st' offset)] /\
    forall i, 0 <= i < 32 ->
      Z.testbit (regs st' offset) i =
      if Z.testbit mask i
      then Z.testbit (Z.shiftl val (find_first_bit mask 32)) i
      else Z.testbit r i.
Proof.
  intros st offset mask val Hfit r st'. subst r st'.
  rewrite write_reg_field_same. split.
  - apply events_of_app. now rewrite write_reg_field_run.
  - intros i Hi. rewrite testbit_field_word by assumption.
    destruct (Z.testbit mask i) eqn:Hm.
    + now rewrite andb_false_r.
    + rewrite (field_fits_outside mask val i Hfit Hi Hm).
      now rewrite andb_true_r, orb_false_r.
Qed.

Lemma write_reg_field_bits_witness :
  field_fits 0x3E 3 = true /\
  let st := msm_dbm_probe (fun _ => 0xFFFFFFFF) in
  let st' := snd (msm_dbm_write_reg_field 0x8 0x3E 3 st) in
  events_of (msm_dbm_write_reg_field 0x8 0x3E 3) st =
    [EvIoRead 0x8; EvIoWrite 0x8 (regs st' 0x8)] /\
  forall i, 0 <= i < 32 ->
    Z.testbit (regs st' 0x8) i =
    if Z.testbit 0x3E i
    then Z.testbit (Z.shiftl 3 (find_first_bit 0x3E 32)) i
    else Z.testbit (regs st 0x8) i.
Proof.
  split; [ reflexivity | ].
  exact (write_reg_field_bits (msm_dbm_probe (fun _ => 0xFFFFFFFF))
                              0x8 0x3E 3 eq_refl).
Defined.

(** C5 (as stated) fails: without a bound on the value, writing 2 into
    the one-bit field 0x1 of a register that holds 0 sets bit 1, which is
    outside the mask. *)
Lemma write_reg_field_bits_counterexample :
  ~ (forall (st : machine) (offset mask val : Z),
       let r := regs st offset in
       let st' := snd (msm_dbm_write_reg_field offset mask val st) in
       forall i, 0 <= i < 32 ->
         Z.testbit (regs st' offset) i =
         if Z.testbit mask i
         then Z.testbit (Z.shiftl val (find_first_bit mask 32)) i
         else Z.testbit r i).
Proof.
  intros H.
  specialize (H (msm_dbm_probe (fun _ => 0)) 0 0x1 2 1 ltac:(lia)).
  vm_compute in H. discriminate H.
Qed.

(** C6 (as amended): when the first value fits the field the mask selects
    (shifted to the mask's lowest set bit, it has no bit outside the
    mask), two successive masked field writes with the same mask leave
    every register as a single write of the second value does. *)
Theorem write_reg_field_overwrite :
  forall (st : machine) (offset mask v1 v2 : Z),
    field_fits mask v1 = true ->
    forall o,
      regs (snd (msm_dbm_write_reg_field offset mask v2
                   (snd (msm_dbm_write_reg_field offset mask v1 st)))) o =
      regs (snd (msm_dbm_write_reg_field offset mask v2 st)) o.
Proof.
  intros st offset mask v1 v2 Hfit o.
  destruct (Z.eq_dec o offset) as [-> | Hne].
  - rewrite !write_reg_field_same. now apply field_word_twice.
  - now rewrite !write_reg_field_other by assumption.
Qed.

Lemma write_reg_field_overwrite_witness :
  field_fits 0xffff 4096 = true /\
  forall o,
    regs (snd (msm_dbm_write_reg_field 0x268 0xffff 512
                 (snd (msm_dbm_write_reg_field 0x268 0xffff 4096
                         (msm_dbm_probe (fun _ => 0xABCD1234)))))) o =
    regs (snd (msm_dbm_write_reg_field 0x268 0xffff 512
                 (msm_dbm_probe (fun _ => 0xABCD1234)))) o.
Proof.
  split; [ reflexivity | ].
  exact (write_reg_field_overwrite (msm_dbm_probe (fun _ => 0xABCD1234))
                                   0x268 0xffff 4096 512 eq_refl).
Defined.

(** C6 (as stated) fails: in a register that holds 0, writing 2 and then
    0 into the one-bit field 0x1 leaves 2, a single write of 0 leaves 0. *)
Lemma write_reg_field_overwrite_counterexample :
  ~ (forall (st : machine) (offset mask v1 v2 : Z),
       regs (snd (msm_dbm_write_reg_field offset mask v2
                    (snd (msm_dbm_write_reg_field offset mask v1 st)))) offset =
       regs (snd (msm_dbm_write_reg_field offset mask v2 st)) offset).
Proof.
  intros H.
  specialize (H (msm_dbm_probe (fun _ => 0)) 0 0x1 2 0).
  vm_compute in H. discriminate H.
Qed.

(** ** Running the monad *)

Lemma bind_eq {A B : Type} (m : io A) (k : A -> io B) (st : machine) :
  bind m k st = k (fst (m st)) (snd (m st)).
Proof.
  unfold bind. now destruct (m st).
Qed.

Lemma u8_small (x : Z) : 0 <= x < 2 ^ 8 -> u8 x = x.
Proof. intros Hx. unfold u8. now apply Z.mod_small. Qed.

Lemma u8_le (x : Z) : 0 <= x -> 0 <= u8 x <= x.
Proof.
  intros Hx. unfold u8. split.
  - apply Z.mod_pos_bound. lia.
  - apply Z.mod_le; lia.
Qed.

(** ** Endpoint slot lookup *)

(** The scan returns either the not-found code, and then no scanned entry
    matches, or the first scanned index whose entry matches. *)
Lemma find_matching_from_spec (st : machine) (usb_ep : Z) (n : nat) :
  forall i, 0 <= i ->
    let r := find_matching_from st usb_ep i n in
    (r = - ENODEV /\
     forall j, i <= j < i + Z.of_nat n -> load_ep_num_mapping st j <> usb_ep)
    \/
    (i <= r < i + Z.of_nat n /\
     load_ep_num_mapping st r = usb_ep /\
     forall j, i <= j < r -> load_ep_num_mapping st j <> usb_ep).
Proof.
  induction n as [| n IH]; intros i Hi; cbn [find_matching_from].
  - left. split; [ reflexivity | ]. intros j Hj. lia.
  - destruct (load_ep_num_mapping st i =? usb_ep) eqn:Heq.
    + right. apply Z.eqb_eq in Heq. repeat split; solve [ lia | exact Heq ].
    + apply Z.eqb_neq in Heq.
      destruct (IH (i + 1) ltac:(lia)) as [[Hr Hall] | [Hr [Hload Hall]]].
      * left. split; [ exact Hr | ]. intros j Hj.
        destruct (Z.eq_dec j i) as [-> | Hne]; [ exact Heq | apply Hall; lia ].
      * right. split; [ lia | ]. split; [ exact Hload | ]. intros j Hj.
        destruct (Z.eq_dec j i) as [-> | Hne]; [ exact Heq | apply Hall; lia ].
Qed.

(** What a lookup that did not fail returned. *)
Lemma find_matching_found (st : machine) (usb_ep : Z) :
  let r := fst (msm_dbm_find_matching_dbm_ep usb_ep st) in
  0 <= r ->
  r < dbm_num_eps st /\
  load_ep_num_mapping st r = usb_ep /\
  forall j, 0 <= j < r -> load_ep_num_mapping st j <> usb_ep.
Proof.
  cbn. intros Hr.
  destruct (find_matching_from_spec st usb_ep (Z.to_nat (dbm_num_eps st)) 0
              ltac:(lia)) as [[Hnf _] | [Hrange Hrest]].
  - unfold ENODEV in Hnf. lia.
  - split; [ lia | exact Hrest ].
Qed.

(** A lookup fails only with the not-found code, and only when no slot
    holds the number. *)
Lemma find_matching_not_found (st : machine) (usb_ep : Z) :
  let r := fst (msm_dbm_find_matching_dbm_ep usb_ep st) in
  r < 0 ->
  r = - ENODEV /\
  forall j, 0 <= j < dbm_num_eps st -> load_ep_num_mapping st j <> usb_ep.
Proof.
  cbn. intros Hr.
  destruct (find_matching_from_spec st usb_ep (Z.to_nat (dbm_num_eps st)) 0
              ltac:(lia)) as [[Hnf Hall] | [Hrange _]].
  - split; [ exact Hnf | ]. intros j Hj. apply Hall. lia.
  - lia.
Qed.

(** The first slot that holds the number is what the lookup returns. *)
Lemma find_matching_first (st : machine) (usb_ep s : Z) :
  0 <= s < dbm_num_eps st ->
  load_ep_num_mapping st s = usb_ep ->
  (forall j, 0 <= j < s -> load_ep_num_mapping st j <> usb_ep) ->
  fst (msm_dbm_find_matching_dbm_ep usb_ep st) = s.
Proof.
  cbn. intros Hs Hload Hbefore.
  destruct (find_matching_from_spec st usb_ep (Z.to_nat (dbm_num_eps st)) 0
              ltac:(lia)) as [[_ Hall] | [Hrange [Hl Hb]]].
  - exfalso. apply (Hall s); [ lia | exact Hload ].
  - destruct (Z.lt_trichotomy (find_matching_from st usb_ep 0
                                 (Z.to_nat (dbm_num_eps st))) s)
      as [Hlt | [Heq | Hgt]].
    + exfalso. apply (Hbefore _ (conj (proj1 Hrange) Hlt)). exact Hl.
    + exact Heq.
    + exfalso. apply (Hb s); [ lia | exact Hload ].
Qed.

(** ** Running the entry points *)

Section Runs.

Context {masks : dbm_h}.

Lemma dbm_ep_soft_reset_run (dbm_ep : Z) (enter_reset : bool) (st : machine) :
  dbm_ep < dbm_num_eps st ->
  dbm_ep_soft_reset dbm_ep enter_reset st =
  (0, snd (msm_dbm_write_reg_field DBM_SOFT_RESET
             (Z.land DBM_SFT_RST_EPS_MASK (Z.shiftl 1 dbm_ep))
             (Z.b2z enter_reset) st)).
Proof.
  intros Hlt. unfold dbm_ep_soft_reset.
  destruct (dbm_ep >=? dbm_num_eps st) eqn:Hge; [ lia | ].
  rewrite bind_eq. now destruct enter_reset.
Qed.

Lemma ep_config_not_found (usb_ep bam_pipe : Z)
    (producer disable_wb internal_mem ioc : bool) (st : machine) :
  fst (msm_dbm_find_matching_dbm_ep usb_ep st) < 0 ->
  ep_config usb_ep bam_pipe producer disable_wb internal_mem ioc st =
  (- ENODEV, log (EvErr MsgInvalidUsbEp) st).
Proof.
  intros Hneg. unfold ep_config. rewrite bind_eq.
  apply Z.ltb_lt in Hneg. rewrite Hneg. reflexivity.
Qed.

Lemma ep_config_last_ep (usb_ep bam_pipe : Z)
    (disable_wb internal_mem ioc : bool) (st : machine) :
  fst (msm_dbm_find_matching_dbm_ep usb_ep st) = 7 ->
  ep_config usb_ep bam_pipe true disable_wb internal_mem ioc st =
  (- ENODEV, log (EvErr MsgLastEpOut) st).
Proof.
  intros H7. unfold ep_config. rewrite bind_eq, H7. reflexivity.
Qed.

Lemma ep_config_success (usb_ep bam_pipe : Z)
    (producer disable_wb internal_mem ioc : bool) (st : machine) :
  let d := fst (msm_dbm_find_matching_dbm_ep usb_ep st) in
  let st' := snd (ep_config usb_ep bam_pipe producer disable_wb internal_mem
                            ioc st) in
  dbm_num_eps st = DBM_1_5_NUM_EP ->
  0 <= d ->
  (d =? 7) && producer = false ->
  fst (ep_config usb_ep bam_pipe producer disable_wb internal_mem ioc st) = d /\
  trace st' =
    trace st ++ ep_config_events st d usb_ep producer disable_wb ioc /\
  regs st' (DBM_EP_CFG d) =
    cfg_enable_word (regs st (DBM_EP_CFG d)) producer disable_wb usb_ep /\
  ep_num_mapping st' = ep_num_mapping st /\
  dbm_num_eps st' = dbm_num_eps st /\
  mem_fault st' = mem_fault st.
Proof.
  intros d st' Hnum Hd Hlast.
  destruct (find_matching_found st usb_ep Hd) as [Hlt _].
  fold d in Hlt. rewrite Hnum in Hlt. unfold DBM_1_5_NUM_EP in Hlt.
  subst st'. unfold ep_config. rewrite bind_eq. fold d.
  replace (d <? 0) with false by (symmetry; apply Z.ltb_ge; exact Hd).
  rewrite Hlast.
  assert (Hsnd : snd (msm_dbm_find_matching_dbm_ep usb_ep st) = st)
    by reflexivity.
  rewrite Hsnd.
  rewrite bind_eq, dbm_ep_soft_reset_run
    by (rewrite Hnum; unfold DBM_1_5_NUM_EP; pose proof (u8_le d Hd); lia).
  rewrite (u8_small d) by lia.
  cbn [fst snd].
  repeat (rewrite bind_eq, write_reg_field_run; cbn [fst snd]).
  unfold ret. cbn [fst snd regs trace ep_num_mapping dbm_num_eps mem_fault].
  assert (Hsr : (DBM_EP_CFG d =? DBM_SOFT_RESET) = false)
    by (apply Z.eqb_neq; unfold DBM_EP_CFG, DBM_SOFT_RESET; lia).
  assert (Hdc : (DBM_EP_CFG d =? DBM_DBG_CNFG) = false)
    by (apply Z.eqb_neq; unfold DBM_EP_CFG, DBM_DBG_CNFG; lia).
  assert (Hds : (DBM_DBG_CNFG =? DBM_SOFT_RESET) = false) by reflexivity.
  rewrite write_reg_field_run.
  cbn [fst snd regs trace ep_num_mapping dbm_num_eps mem_fault].
  rewrite ?Z.eqb_refl, ?Hsr, ?Hdc, ?Hds, <- !app_assoc.
  repeat split; reflexivity.
Qed.

Lemma store_ep_num_mapping_run (idx val : Z) (st : machine) :
  index_in_bounds idx = true ->
  store_ep_num_mapping idx val st =
  (tt, Machine (regs st) (dbm_num_eps st)
               (list_set (ep_num_mapping st) (Z.to_nat idx) val)
               (mem_fault st) (trace st ++ [EvMapStore idx val])).
Proof.
  intros Hin. unfold store_ep_num_mapping. now rewrite Hin.
Qed.

Lemma store_ep_num_mapping_eq (idx val : Z) (st : machine) :
  store_ep_num_mapping idx val st =
  (tt, Machine (regs st) (dbm_num_eps st)
               (if index_in_bounds idx
                then list_set (ep_num_mapping st) (Z.to_nat idx) val
                else ep_num_mapping st)
               (mem_fault st || negb (index_in_bounds idx))
               (trace st ++ [EvMapStore idx val])).
Proof.
  unfold store_ep_num_mapping.
  destruct (index_in_bounds idx); cbn [negb];
    now rewrite ?orb_false_r, ?orb_true_r.
Qed.

Lemma ep_unconfig_not_found (usb_ep : Z) (st : machine) :
  fst (msm_dbm_find_matching_dbm_ep usb_ep st) < 0 ->
  ep_unconfig usb_ep st = (- ENODEV, log (EvErr MsgInvalidUsbEp) st).
Proof.
  intros Hneg. unfold ep_unconfig. rewrite bind_eq.
  apply Z.ltb_lt in Hneg. rewrite Hneg. reflexivity.
Qed.

Lemma ep_unconfig_success (usb_ep : Z) (st : machine) :
  let d := fst (msm_dbm_find_matching_dbm_ep usb_ep st) in
  let st' := snd (ep_unconfig usb_ep st) in
  dbm_num_eps st = DBM_1_5_NUM_EP ->
  0 <= d ->
  fst (ep_unconfig usb_ep st) = 0 /\
  trace st' = trace st ++ ep_unconfig_events st d /\
  regs st' (DBM_EP_CFG d) = Z.land (regs st (DBM_EP_CFG d)) (not32 0x1) /\
  ep_num_mapping st' = list_set (ep_num_mapping st) (Z.to_nat d) 0 /\
  dbm_num_eps st' = dbm_num_eps st /\
  mem_fault st' = mem_fault st.
Proof.
  intros d st' Hnum Hd.
  destruct (find_matching_found st usb_ep Hd) as [Hlt _].
  fold d in Hlt. rewrite Hnum in Hlt. unfold DBM_1_5_NUM_EP in Hlt.
  subst st'. unfold ep_unconfig. rewrite bind_eq. fold d.
  replace (d <? 0) with false by (symmetry; apply Z.ltb_ge; exact Hd).
  assert (Hsnd : snd (msm_dbm_find_matching_dbm_ep usb_ep st) = st)
    by reflexivity.
  rewrite Hsnd, (u8_small d) by lia.
  assert (Hin : index_in_bounds d = true)
    by (unfold index_in_bounds, DBM_1_5_NUM_EP; lia).
  repeat rewrite bind_eq.
  rewrite (store_ep_num_mapping_run d 0 st Hin).
  unfold msm_dbm_read_reg, msm_dbm_write_reg, ioread32, iowrite32, udelay, log.
  repeat rewrite bind_eq. unfold ret.
  cbn [fst snd regs trace ep_num_mapping dbm_num_eps mem_fault].
  rewrite (dbm_ep_soft_reset_run d true), write_reg_field_run
    by (cbn [dbm_num_eps]; rewrite Hnum; unfold DBM_1_5_NUM_EP; lia).
  cbn [fst snd regs trace ep_num_mapping dbm_num_eps mem_fault].
  rewrite (dbm_ep_soft_reset_run d false), write_reg_field_run
    by (cbn [dbm_num_eps]; rewrite Hnum; unfold DBM_1_5_NUM_EP; lia).
  unfold ret.
  cbn [fst snd regs trace ep_num_mapping dbm_num_eps mem_fault].
  assert (Hsr : (DBM_EP_CFG d =? DBM_SOFT_RESET) = false)
    by (apply Z.eqb_neq; unfold DBM_EP_CFG, DBM_SOFT_RESET; lia).
  assert (Hrs : (DBM_SOFT_RESET =? DBM_EP_CFG d) = false)
    by (apply Z.eqb_neq; unfold DBM_EP_CFG, DBM_SOFT_RESET; lia).
  rewrite ?Z.eqb_refl, ?Hsr, ?Hrs, <- !app_assoc.
  repeat split; reflexivity.
Qed.

Lemma data_fifo_config_run (dep_num addr size dst_pipe_idx : Z) (st : machine) :
  let st' := snd (data_fifo_config dep_num addr size dst_pipe_idx st) in
  0 <= dst_pipe_idx ->
  fst (data_fifo_config dep_num addr size dst_pipe_idx st) = 0 /\
  trace st' =
    trace st ++ data_fifo_config_events st dep_num addr size dst_pipe_idx /\
  ep_num_mapping st' =
    (if index_in_bounds dst_pipe_idx
     then list_set (ep_num_mapping st) (Z.to_nat dst_pipe_idx) dep_num
     else ep_num_mapping st) /\
  dbm_num_eps st' = dbm_num_eps st /\
  mem_fault st' = mem_fault st || negb (index_in_bounds dst_pipe_idx).
Proof.
  intros st' Hidx. subst st'. unfold data_fifo_config.
  assert (Hl : (DBM_DATA_FIFO_SIZE dst_pipe_idx
                =? DBM_DATA_FIFO_LSB dst_pipe_idx) = false)
    by (apply Z.eqb_neq; unfold DBM_DATA_FIFO_SIZE, DBM_DATA_FIFO_LSB; lia).
  assert (Hm : (DBM_DATA_FIFO_SIZE dst_pipe_idx
                =? DBM_DATA_FIFO_MSB dst_pipe_idx) = false)
    by (apply Z.eqb_neq; unfold DBM_DATA_FIFO_SIZE, DBM_DATA_FIFO_MSB; lia).
  repeat rewrite bind_eq.
  rewrite store_ep_num_mapping_eq.
  unfold msm_dbm_write_reg, iowrite32, ret.
  cbn [fst snd regs trace ep_num_mapping dbm_num_eps mem_fault].
  rewrite write_reg_field_run.
  cbn [fst snd regs trace ep_num_mapping dbm_num_eps mem_fault].
  rewrite ?Hl, ?Hm, <- !app_assoc.
  repeat split; reflexivity.
Qed.

End Runs.

(** ** Endpoint configure: the restriction on the last slot *)

Section LastSlot.

Context {masks : dbm_h}.

(** C1 (as amended): on a logical endpoint whose lookup resolves to a slot
    in 0-6, [ep_config] succeeds in either direction and returns that
    slot; on one that resolves to slot 7, [ep_config] with [producer] set
    always fails with -ENODEV after the message of the last-slot check and
    touches no register, and with [producer] clear it always succeeds and
    returns 7. *)
Theorem ep_config_last_slot_direction :
  forall (st : machine) (usb_ep bam_pipe : Z)
         (producer disable_wb internal_mem ioc : bool),
    device_ok st ->
    let d := fst (msm_dbm_find_matching_dbm_ep usb_ep st) in
    let run := ep_config usb_ep bam_pipe producer disable_wb internal_mem ioc in
    (0 <= d <= 6 -> fst (run st) = d) /\
    (d = 7 -> producer = true ->
       fst (run st) = - ENODEV /\ events_of run st = [EvErr MsgLastEpOut]) /\
    (d = 7 -> producer = false -> fst (run st) = 7).
Proof.
  intros st usb_ep bam_pipe producer disable_wb internal_mem ioc [Hnum _] d run.
  subst run. split; [ | split ].
  - intros Hd.
    apply (ep_config_success usb_ep bam_pipe producer disable_wb internal_mem
                             ioc st Hnum); fold d; [ lia | ].
    replace (d =? 7) with false by (symmetry; apply Z.eqb_neq; lia).
    reflexivity.
  - intros H7 Hp. subst producer.
    pose proof (ep_config_last_ep usb_ep bam_pipe disable_wb internal_mem
                                  ioc st H7) as Hrun.
    split.
    + now rewrite Hrun.
    + apply events_of_app. now rewrite Hrun.
  - intros H7 Hp. subst producer.
    pose proof (ep_config_success usb_ep bam_pipe false disable_wb
                                  internal_mem ioc st Hnum) as Hrun.
    cbv zeta in Hrun. fold d in Hrun. rewrite H7 in Hrun.
    apply Hrun; [ lia | reflexivity ].
Qed.

End LastSlot.

Lemma ep_config_last_slot_direction_witness :
  device_ok bound_7_5 /\
  let d := fst (msm_dbm_find_matching_dbm_ep 5 bound_7_5) in
  let run := ep_config (masks := sample_dbm_h) 5 0 true false false true in
  (0 <= d <= 6 -> fst (run bound_7_5) = d) /\
  (d = 7 -> true = true ->
     fst (run bound_7_5) = - ENODEV /\
     events_of run bound_7_5 = [EvErr MsgLastEpOut]) /\
  (d = 7 -> true = false -> fst (run bound_7_5) = 7).
Proof.
  assert (Hok : device_ok bound_7_5) by (split; reflexivity).
  split; [ exact Hok | ].
  exact (ep_config_last_slot_direction (masks := sample_dbm_h) bound_7_5
           5 0 true false false true Hok).
Defined.

(** C1 (as stated) fails: with logical endpoint 5 on slot 7, [ep_config]
    as consumer ([producer] clear) does not fail, it returns 7, and as
    producer it does not return 7, it fails with -ENODEV. *)
Lemma ep_config_last_slot_direction_counterexample :
  ~ (forall (st : machine) (usb_ep bam_pipe : Z)
            (disable_wb internal_mem ioc : bool),
       device_ok st ->
       fst (msm_dbm_find_matching_dbm_ep usb_ep st) = 7 ->
       fst (ep_config (masks := sample_dbm_h) usb_ep bam_pipe false
                      disable_wb internal_mem ioc st) = - ENODEV /\
       fst (ep_config (masks := sample_dbm_h) usb_ep bam_pipe true
                      disable_wb internal_mem ioc st) = 7).
Proof.
  intros H.
  destruct (H bound_7_5 5 0 false false true) as [Hconsumer _].
  - split; reflexivity.
  - reflexivity.
  - vm_compute in Hconsumer. discriminate Hconsumer.
Qed.

(** ** Endpoint configure: what a call that succeeds writes *)

Lemma find_first_bit_from_range (word : Z) (n : nat) :
  forall i, i <= find_first_bit_from word i n <= i + Z.of_nat n.
Proof.
  induction n as [| n IH]; intros i; cbn [find_first_bit_from]; [ lia | ].
  destruct (Z.testbit word i); [ lia | ].
  specialize (IH (i + 1)). lia.
Qed.

Lemma find_first_bit_range (word : Z) :
  0 <= find_first_bit word 32 <= 32.
Proof.
  unfold find_first_bit.
  pose proof (find_first_bit_from_range word (Z.to_nat 32) 0). lia.
Qed.

(** A field write of 1 sets the lowest bit of a mask that has one. *)
Lemma field_word_one_sets_base (r mask : Z) :
  find_first_bit mask 32 < 32 ->
  Z.testbit (field_word r mask 1) (find_first_bit mask 32) = true.
Proof.
  intros Hlt. pose proof (find_first_bit_range mask) as Hr.
  rewrite testbit_field_word by lia.
  rewrite Z.shiftl_spec, Z.sub_diag by lia.
  apply orb_true_r.
Qed.

Section EnableLast.

Context {masks : dbm_h}.

(** A call of [ep_config] that did not fail passed both checks. *)
Lemma ep_config_passed (usb_ep bam_pipe : Z)
    (producer disable_wb internal_mem ioc : bool) (st : machine) :
  0 <= fst (ep_config usb_ep bam_pipe producer disable_wb internal_mem ioc st) ->
  let d := fst (msm_dbm_find_matching_dbm_ep usb_ep st) in
  0 <= d /\ (d =? 7) && producer = false.
Proof.
  intros Hok d.
  destruct (Z.lt_ge_cases d 0) as [Hneg | Hpos].
  - rewrite (ep_config_not_found usb_ep bam_pipe producer disable_wb
                                 internal_mem ioc st Hneg) in Hok.
    cbn in Hok. lia.
  - split; [ exact Hpos | ].
    destruct ((d =? 7) && producer) eqn:Hlast; [ | reflexivity ].
    apply andb_true_iff in Hlast. destruct Hlast as [H7 Hp].
    apply Z.eqb_eq in H7. subst producer.
    rewrite (ep_config_last_ep usb_ep bam_pipe disable_wb internal_mem ioc
                               st H7) in Hok.
    cbn in Hok. lia.
Qed.

(** The three fields of a slot's configuration register exist: the mask
    of each has a set bit. *)
Definition cfg_fields_exist : Prop :=
  find_first_bit ep_cfg_flags_mask 32 < 32 /\
  find_first_bit USB3_EPNUM 32 < 32 /\
  find_first_bit DBM_EN_EP 32 < 32.

(** C7 (as amended): in every [ep_config] call that succeeds, the five
    register writes go to the soft-reset register, the IOC register and
    three times to the slot's configuration register: the flags, the
    endpoint number and the enable field, in this order; the write of the
    enable field ([DBM_EN_EP], value 1) is the last one and its word has
    the enable bit set.  When the flags and the endpoint number fit their
    fields and these do not overlap the enable field, a bit of the enable
    field that was clear before the call is still clear in the words of
    the two earlier writes. *)
Theorem ep_config_enable_last :
  forall (st : machine) (usb_ep bam_pipe : Z)
         (producer disable_wb internal_mem ioc : bool),
    device_ok st ->
    cfg_fields_exist ->
    let run := ep_config usb_ep bam_pipe producer disable_wb internal_mem ioc in
    let d := fst (run st) in
    0 <= d ->
    let cfg := DBM_EP_CFG d in
    let r := regs st cfg in
    let flags_word := cfg_flags_word r producer disable_wb in
    let epnum_word := cfg_epnum_word r producer disable_wb usb_ep in
    let enable_word := cfg_enable_word r producer disable_wb usb_ep in
    (exists w_reset w_ioc,
       writes_of (events_of run st) =
         [ (DBM_SOFT_RESET, w_reset);
           (DBM_DBG_CNFG, w_ioc);
           (cfg, flags_word);
           (cfg, epnum_word);
           (cfg, enable_word) ]) /\
    last (writes_of (events_of run st)) (0, 0) = (cfg, enable_word) /\
    Z.testbit enable_word (find_first_bit DBM_EN_EP 32) = true /\
    (field_fits ep_cfg_flags_mask
                (Z.shiftr (ep_cfg_of producer disable_wb) 8) = true ->
     field_fits USB3_EPNUM usb_ep = true ->
     Z.land ep_cfg_flags_mask DBM_EN_EP = 0 ->
     Z.land USB3_EPNUM DBM_EN_EP = 0 ->
     forall i, 0 <= i < 32 ->
       Z.testbit DBM_EN_EP i = true ->
       Z.testbit r i = false ->
       Z.testbit flags_word i = false /\ Z.testbit epnum_word i = false).
Proof.
  intros st usb_ep bam_pipe producer disable_wb internal_mem ioc [Hnum _]
         [_ [_ Hen]] run d Hd cfg r flags_word epnum_word enable_word.
  destruct (ep_config_passed usb_ep bam_pipe producer disable_wb internal_mem
                             ioc st Hd) as [Hfound Hlast].
  destruct (ep_config_success usb_ep bam_pipe producer disable_wb internal_mem
                              ioc st Hnum Hfound Hlast)
    as [Hret [Htrace _]].
  fold run in Hret, Htrace. fold d in Hret. rewrite <- Hret in Htrace.
  rewrite (events_of_app run st _ Htrace).
  split; [ do 2 eexists; reflexivity | ]. split; [ reflexivity | ].
  split; [ apply field_word_one_sets_base; exact Hen | ].
  intros Hfit_fl Hfit_ep Hdis_fl Hdis_ep i Hi Hbit Hclear.
  rewrite Z.land_comm in Hdis_fl, Hdis_ep.
  assert (Hflags : Z.testbit flags_word i = false).
  { subst flags_word. unfold cfg_flags_word.
    rewrite field_word_bit_outside; try assumption.
    now apply (disjoint_masks_bit DBM_EN_EP ep_cfg_flags_mask). }
  split; [ exact Hflags | ].
  subst epnum_word. unfold cfg_epnum_word.
  rewrite field_word_bit_outside; try assumption.
  now apply (disjoint_masks_bit DBM_EN_EP USB3_EPNUM).
Qed.

End EnableLast.

Lemma ep_config_enable_last_witness :
  device_ok bound_2_3 /\
  cfg_fields_exist (masks := sample_dbm_h) /\
  0 <= fst (ep_config (masks := sample_dbm_h) 3 0 true false false true
                      bound_2_3) /\
  (exists w_reset w_ioc,
     writes_of (events_of (ep_config (masks := sample_dbm_h) 3 0 true false
                                     false true) bound_2_3) =
       [ (0x20C, w_reset); (0x208, w_ioc);
         (0x8, 0x100); (0x8, 0x106); (0x8, 0x107) ]) /\
  last (writes_of (events_of (ep_config (masks := sample_dbm_h) 3 0 true
                                        false false true) bound_2_3)) (0, 0) =
    (0x8, 0x107) /\
  Z.testbit 0x107 0 = true /\
  Z.testbit 0x100 0 = false /\ Z.testbit 0x106 0 = false.
Proof.
  assert (Hok : device_ok bound_2_3) by (split; reflexivity).
  assert (Hfields : cfg_fields_exist (masks := sample_dbm_h))
    by (repeat split).
  assert (Hret : 0 <= fst (ep_config (masks := sample_dbm_h) 3 0 true false
                                     false true bound_2_3))
    by (vm_compute; discriminate).
  destruct (ep_config_enable_last (masks := sample_dbm_h) bound_2_3
              3 0 true false false true Hok Hfields Hret)
    as [Hwrites [Hlast [Hset Hguard]]].
  split; [ exact Hok | ]. split; [ exact Hfields | ].
  split; [ exact Hret | ]. split; [ exact Hwrites | ].
  split; [ exact Hlast | ]. split; [ exact Hset | ].
  exact (Hguard eq_refl eq_refl eq_refl eq_refl 0 ltac:(lia) eq_refl eq_refl).
Defined.

(** C7 (as stated) fails in its guarantee: slot 2 is configured for
    logical endpoint 3 and enabled, logical endpoint 4 is bound to it and
    [ep_config(4, ...)] is called.  The flags write already carries the
    enable bit, with the endpoint number 3 of the earlier configuration
    still in the register, before the endpoint number 4 is written. *)
Lemma ep_config_enable_last_counterexample :
  let st := snd (data_fifo_config (masks := sample_dbm_h) 4 0x2000 512 2
                   configured_2_3) in
  let run := ep_config (masks := sample_dbm_h) 4 0 false true false false in
  let ws := writes_of (events_of run st) in
  fst (run st) = 2 /\
  ws = [ (0x20C, 0); (0x208, 0); (0x8, 0x207); (0x8, 0x209); (0x8, 0x209) ] /\
  Z.land (Z.shiftr 0x207 1) 0x1F = 3 /\
  ~ (forall w, In (DBM_EP_CFG 2, w) (removelast ws) -> Z.testbit w 0 = false).
Proof.
  cbv zeta. split; [ reflexivity | ]. split; [ reflexivity | ].
  split; [ reflexivity | ].
  intros H. specialize (H 0x207).
  assert (Hbit : Z.testbit 0x207 0 = false).
  { apply H. vm_compute. right. right. left. reflexivity. }
  vm_compute in Hbit. discriminate Hbit.
Qed.

(** ** No partial failure *)

Lemma count_configured_from_ge (st : machine) (n : nat) :
  forall i count, count <= count_configured_from st i n count.
Proof.
  induction n as [| n IH]; intros i count; cbn [count_configured_from];
    [ lia | ].
  destruct (load_ep_num_mapping st i =? 0).
  - apply IH.
  - specialize (IH (i + 1) (count + 1)). lia.
Qed.

Section AllOrNothing.

Context {masks : dbm_h}.

Lemma event_buffer_config_invalid (addr_lo addr_hi size : Z) (st : machine) :
  size < 0 ->
  event_buffer_config addr_lo addr_hi size st =
  (- EINVAL, log (EvErr MsgInvalidSize) st).
Proof.
  intros Hneg. unfold event_buffer_config.
  apply Z.ltb_lt in Hneg. now rewrite Hneg.
Qed.

Lemma event_buffer_config_run (addr_lo addr_hi size : Z) (st : machine) :
  0 <= size ->
  fst (event_buffer_config addr_lo addr_hi size st) = 0 /\
  trace (snd (event_buffer_config addr_lo addr_hi size st)) =
    trace st ++
    [ EvIoWrite DBM_GEVNTADR_LSB addr_lo;
      EvIoWrite DBM_GEVNTADR_MSB addr_hi;
      EvIoRead DBM_GEVNTSIZ;
      EvIoWrite DBM_GEVNTSIZ
        (field_word (regs st DBM_GEVNTSIZ) DBM_GEVNTSIZ_MASK size) ].
Proof.
  intros Hsize. unfold event_buffer_config.
  replace (size <? 0) with false by (symmetry; apply Z.ltb_ge; exact Hsize).
  repeat rewrite bind_eq.
  unfold msm_dbm_write_reg, iowrite32, ret.
  cbn [fst snd regs trace ep_num_mapping dbm_num_eps mem_fault].
  rewrite write_reg_field_run.
  cbn [fst snd regs trace ep_num_mapping dbm_num_eps mem_fault].
  rewrite <- !app_assoc. split; reflexivity.
Qed.

(** Without a bound on the slot index, the word of the size write is the
    field write over what the size register holds when it is read. *)
Lemma data_fifo_config_trace (dep_num addr size dst_pipe_idx : Z) (st : machine) :
  fst (data_fifo_config dep_num addr size dst_pipe_idx st) = 0 /\
  exists w,
    trace (snd (data_fifo_config dep_num addr size dst_pipe_idx st)) =
    trace st ++
    [ EvMapStore dst_pipe_idx dep_num;
      EvIoWrite (DBM_DATA_FIFO_LSB dst_pipe_idx) (lower_32_bits addr);
      EvIoWrite (DBM_DATA_FIFO_MSB dst_pipe_idx) (upper_32_bits addr);
      EvIoRead (DBM_DATA_FIFO_SIZE dst_pipe_idx);
      EvIoWrite (DBM_DATA_FIFO_SIZE dst_pipe_idx) w ].
Proof.
  unfold data_fifo_config.
  repeat rewrite bind_eq.
  rewrite store_ep_num_mapping_eq.
  unfold msm_dbm_write_reg, iowrite32, ret.
  cbn [fst snd regs trace ep_num_mapping dbm_num_eps mem_fault].
  rewrite write_reg_field_run.
  cbn [fst snd regs trace ep_num_mapping dbm_num_eps mem_fault].
  split; [ reflexivity | ].
  eexists. rewrite <- !app_assoc. reflexivity.
Qed.

Lemma run_call_outcome (c : call) (st : machine) :
  dbm_num_eps st = DBM_1_5_NUM_EP -> outcome c st.
Proof.
  intros Hnum.
  destruct c as [reset | usb_ep bam_pipe producer disable_wb internal_mem ioc
                 | usb_ep | | addr_lo addr_hi size
                 | dep_num addr size dst_pipe_idx | speed | ];
    cbn [run_call].
  - (* soft_reset *)
    apply Completed with
      (evs := [EvIoRead DBM_SOFT_RESET;
               EvIoWrite DBM_SOFT_RESET
                 (field_word (regs st DBM_SOFT_RESET) DBM_SFT_RST_MASK
                             (Z.b2z reset))]);
      cbn [run_call]; unfold soft_reset;
      rewrite ?bind_eq, ?write_reg_field_run; cbn; solve [ lia | reflexivity ].
  - (* ep_config *)
    set (d := fst (msm_dbm_find_matching_dbm_ep usb_ep st)).
    destruct (Z.lt_ge_cases d 0) as [Hneg | Hpos].
    + apply Failed with (m := MsgInvalidUsbEp); cbn [run_call];
        rewrite (ep_config_not_found usb_ep bam_pipe producer disable_wb
                                     internal_mem ioc st Hneg);
        cbn; solve [ lia | reflexivity ].
    + destruct ((d =? 7) && producer) eqn:Hlast.
      * apply andb_true_iff in Hlast. destruct Hlast as [H7 Hp].
        apply Z.eqb_eq in H7. subst producer.
        apply Failed with (m := MsgLastEpOut); cbn [run_call];
          rewrite (ep_config_last_ep usb_ep bam_pipe disable_wb internal_mem
                                     ioc st H7);
          cbn; solve [ lia | reflexivity ].
      * destruct (ep_config_success usb_ep bam_pipe producer disable_wb
                                    internal_mem ioc st Hnum Hpos Hlast)
          as [Hret [Htrace _]].
        apply Completed with
          (evs := ep_config_events st d usb_ep producer disable_wb ioc);
          cbn [run_call]; [ rewrite Hret; exact Hpos | exact Htrace
                          | reflexivity ].
  - (* ep_unconfig *)
    set (d := fst (msm_dbm_find_matching_dbm_ep usb_ep st)).
    destruct (Z.lt_ge_cases d 0) as [Hneg | Hpos].
    + apply Failed with (m := MsgInvalidUsbEp); cbn [run_call];
        rewrite (ep_unconfig_not_found usb_ep st Hneg);
        cbn; solve [ lia | reflexivity ].
    + destruct (ep_unconfig_success usb_ep st Hnum Hpos)
        as [Hret [Htrace _]].
      apply Completed with (evs := ep_unconfig_events st d);
        cbn [run_call]; [ rewrite Hret; lia | exact Htrace | reflexivity ].
  - (* get_num_of_eps_configured *)
    apply Completed with (evs := []); cbn [run_call].
    + cbn [get_num_of_eps_configured fst].
      apply count_configured_from_ge.
    + cbn. now rewrite app_nil_r.
    + reflexivity.
  - (* event_buffer_config *)
    destruct (Z.lt_ge_cases size 0) as [Hneg | Hpos].
    + apply Failed with (m := MsgInvalidSize); cbn [run_call];
        rewrite (event_buffer_config_invalid addr_lo addr_hi size st Hneg);
        cbn; solve [ lia | reflexivity ].
    + destruct (event_buffer_config_run addr_lo addr_hi size st Hpos)
        as [Hret Htrace].
      eapply Completed; cbn [run_call];
        [ rewrite Hret; lia | exact Htrace | reflexivity ].
  - (* data_fifo_config *)
    destruct (data_fifo_config_trace dep_num addr size dst_pipe_idx st)
      as [Hret [w Htrace]].
    eapply Completed; cbn [run_call];
      [ rewrite Hret; lia | exact Htrace | reflexivity ].
  - (* set_speed *)
    apply Completed with (evs := [EvIoWrite DBM_GEN_CFG (Z.b2z speed)]);
      cbn [run_call]; cbn; solve [ lia | reflexivity ].
  - (* enable *)
    apply Completed with
      (evs := [EvIoWrite DBM_DATA_FIFO_ADDR_EN 0x000000FF;
               EvIoWrite DBM_DATA_FIFO_SIZE_EN 0x000000FF]);
      cbn [run_call]; cbn; try solve [ lia | reflexivity ].
    now rewrite <- app_assoc.
Qed.

(** C8: every entry point either fails before it touches a register (its
    only event is the error message; registers and mapping table are as
    before) or returns a non-negative value after all of its register
    writes; [event_buffer_config] with a negative size fails with -EINVAL,
    and [ep_config] fails with -ENODEV when the lookup fails or the
    last-slot check refuses. *)
Theorem entry_points_all_or_nothing :
  forall (c : call) (st : machine),
    device_ok st ->
    let r := fst (run_call c st) in
    let st' := snd (run_call c st) in
    let evs := events_of (run_call c) st in
    (r < 0 ->
       (exists m, evs = [EvErr m]) /\
       writes_of evs = [] /\
       regs st' = regs st /\
       ep_num_mapping st' = ep_num_mapping st) /\
    (0 <= r -> length (writes_of evs) = full_writes c) /\
    (forall addr_lo addr_hi size,
       c = CallEventBufferConfig addr_lo addr_hi size ->
       size < 0 -> r = - EINVAL) /\
    (forall usb_ep bam_pipe producer disable_wb internal_mem ioc,
       c = CallEpConfig usb_ep bam_pipe producer disable_wb internal_mem ioc ->
       let d := fst (msm_dbm_find_matching_dbm_ep usb_ep st) in
       d < 0 \/ (d = 7 /\ producer = true) ->
       r = - ENODEV).
Proof.
  intros c st [Hnum _] r st' evs. subst r st' evs.
  split; [ | split; [ | split ] ].
  - intros Hneg.
    destruct (run_call_outcome c st Hnum) as [m _ Hst | evs Hpos _ _];
      [ | lia ].
    assert (Hevs : events_of (run_call c) st = [EvErr m])
      by (apply events_of_app; now rewrite Hst).
    rewrite Hevs, Hst. repeat split; try reflexivity. now exists m.
  - intros Hpos.
    destruct (run_call_outcome c st Hnum) as [m Hneg _ | evs _ Htrace Hlen];
      [ lia | ].
    now rewrite (events_of_app (run_call c) st evs Htrace).
  - intros addr_lo addr_hi size -> Hneg. cbn [run_call].
    now rewrite (event_buffer_config_invalid addr_lo addr_hi size st Hneg).
  - intros usb_ep bam_pipe producer disable_wb internal_mem ioc -> d
           [Hneg | [H7 Hp]]; cbn [run_call].
    + now rewrite (ep_config_not_found usb_ep bam_pipe producer disable_wb
                                       internal_mem ioc st Hneg).
    + subst producer.
      now rewrite (ep_config_last_ep usb_ep bam_pipe disable_wb internal_mem
                                     ioc st H7).
Qed.

End AllOrNothing.

Lemma entry_points_all_or_nothing_witness :
  let c := CallEventBufferConfig 0x10000000 0 (-1) in
  let st := msm_dbm_probe (fun _ => 0) in
  device_ok st /\
  fst (run_call (masks := sample_dbm_h) c st) = - EINVAL /\
  writes_of (events_of (run_call (masks := sample_dbm_h) c) st) = [].
Proof.
  assert (Hok : device_ok (msm_dbm_probe (fun _ => 0))) by (split; reflexivity).
  pose proof (entry_points_all_or_nothing (masks := sample_dbm_h)
                (CallEventBufferConfig 0x10000000 0 (-1))
                (msm_dbm_probe (fun _ => 0)) Hok) as [Hfail [_ [Hsize _]]].
  split; [ exact Hok | ]. split.
  - apply (Hsize 0x10000000 0 (-1)); [ reflexivity | lia ].
  - apply Hfail. vm_compute. reflexivity.
Defined.

(** ** Logical endpoint number 0 *)

Section EndpointZero.

Context {masks : dbm_h}.

(** C9: the lookup of logical endpoint number 0 returns the first slot
    whose entry is 0 (unassigned) whenever there is one, so [ep_unconfig]
    of 0 succeeds and [ep_config] of 0 goes past the not-found check: it
    returns that slot, or refuses it by the last-slot check; neither
    prints the not-found message.  On a device just probed, number 0
    resolves to slot 0 and both calls succeed. *)
Theorem lookup_of_endpoint_zero :
  (forall (window : Z -> Z) (bam_pipe : Z)
          (producer disable_wb internal_mem ioc : bool),
      let st := msm_dbm_probe window in
      fst (msm_dbm_find_matching_dbm_ep 0 st) = 0 /\
      fst (ep_config 0 bam_pipe producer disable_wb internal_mem ioc st) = 0 /\
      fst (ep_unconfig 0 st) = 0) /\
  (forall st : machine,
      device_ok st ->
      (exists j, 0 <= j < DBM_1_5_NUM_EP /\ load_ep_num_mapping st j = 0) ->
      let s := fst (msm_dbm_find_matching_dbm_ep 0 st) in
      0 <= s < DBM_1_5_NUM_EP /\
      load_ep_num_mapping st s = 0 /\
      (forall j, 0 <= j < s -> load_ep_num_mapping st j <> 0) /\
      fst (ep_unconfig 0 st) = 0 /\
      ~ In (EvErr MsgInvalidUsbEp) (events_of (ep_unconfig 0) st) /\
      forall (bam_pipe : Z) (producer disable_wb internal_mem ioc : bool),
        let run := ep_config 0 bam_pipe producer disable_wb internal_mem ioc in
        fst (run st) = (if (s =? 7) && producer then - ENODEV else s) /\
        ~ In (EvErr MsgInvalidUsbEp) (events_of run st)).
Proof.
  assert (Hgen : forall st : machine,
      device_ok st ->
      (exists j, 0 <= j < DBM_1_5_NUM_EP /\ load_ep_num_mapping st j = 0) ->
      let s := fst (msm_dbm_find_matching_dbm_ep 0 st) in
      0 <= s < DBM_1_5_NUM_EP /\
      load_ep_num_mapping st s = 0 /\
      (forall j, 0 <= j < s -> load_ep_num_mapping st j <> 0) /\
      fst (ep_unconfig 0 st) = 0 /\
      ~ In (EvErr MsgInvalidUsbEp) (events_of (ep_unconfig 0) st) /\
      forall (bam_pipe : Z) (producer disable_wb internal_mem ioc : bool),
        let run := ep_config 0 bam_pipe producer disable_wb internal_mem ioc in
        fst (run st) = (if (s =? 7) && producer then - ENODEV else s) /\
        ~ In (EvErr MsgInvalidUsbEp) (events_of run st)).
  { intros st [Hnum _] [j [Hj Hzero]] s.
    assert (Hs : 0 <= s).
    { destruct (Z.lt_ge_cases s 0) as [Hneg | Hpos]; [ | exact Hpos ].
      destruct (find_matching_not_found st 0 Hneg) as [_ Hall].
      exfalso. apply (Hall j); [ rewrite Hnum; exact Hj | exact Hzero ]. }
    destruct (find_matching_found st 0 Hs) as [Hlt [Hload Hbefore]].
    fold s in Hlt, Hload, Hbefore. rewrite Hnum in Hlt.
    destruct (ep_unconfig_success 0 st Hnum Hs) as [Hret [Htrace _]].
    fold s in Htrace.
    split; [ lia | ]. split; [ exact Hload | ]. split; [ exact Hbefore | ].
    split; [ exact Hret | ]. split.
    - rewrite (events_of_app (ep_unconfig 0) st _ Htrace).
      cbn. intuition discriminate.
    - intros bam_pipe producer disable_wb internal_mem ioc run. subst run.
      destruct ((s =? 7) && producer) eqn:Hlast.
      + apply andb_true_iff in Hlast. destruct Hlast as [H7 Hp].
        apply Z.eqb_eq in H7. subst producer.
        pose proof (ep_config_last_ep 0 bam_pipe disable_wb internal_mem ioc
                                      st H7) as Hrun.
        split; [ now rewrite Hrun | ].
        assert (Hevs : events_of (ep_config 0 bam_pipe true disable_wb
                                            internal_mem ioc) st
                       = [EvErr MsgLastEpOut])
          by (apply events_of_app; now rewrite Hrun).
        rewrite Hevs. cbn. intuition discriminate.
      + destruct (ep_config_success 0 bam_pipe producer disable_wb
                                    internal_mem ioc st Hnum Hs Hlast)
          as [Hr [Ht _]].
        fold s in Hr, Ht. split; [ exact Hr | ].
        rewrite (events_of_app _ st _ Ht).
        cbn. intuition discriminate. }
  split; [ | exact Hgen ].
  intros window bam_pipe producer disable_wb internal_mem ioc st.
  assert (Hok : device_ok st) by (split; reflexivity).
  assert (Hz : exists j, 0 <= j < DBM_1_5_NUM_EP /\ load_ep_num_mapping st j = 0)
    by (exists 0; split; [ unfold DBM_1_5_NUM_EP; lia | reflexivity ]).
  destruct (Hgen st Hok Hz) as [_ [_ [_ [Hun [_ Hcfg]]]]].
  assert (Hfind : fst (msm_dbm_find_matching_dbm_ep 0 st) = 0) by reflexivity.
  split; [ exact Hfind | ]. split; [ | exact Hun ].
  destruct (Hcfg bam_pipe producer disable_wb internal_mem ioc) as [Hr _].
  rewrite Hfind in Hr. exact Hr.
Qed.

End EndpointZero.

Lemma lookup_of_endpoint_zero_witness :
  device_ok bound_2_3 /\
  (exists j, 0 <= j < DBM_1_5_NUM_EP /\ load_ep_num_mapping bound_2_3 j = 0) /\
  fst (msm_dbm_find_matching_dbm_ep 0 bound_2_3) = 0 /\
  fst (ep_unconfig (masks := sample_dbm_h) 0 bound_2_3) = 0 /\
  fst (ep_config (masks := sample_dbm_h) 0 0 true false false false
                 bound_2_3) = 0.
Proof.
  assert (Hok : device_ok bound_2_3) by (split; reflexivity).
  assert (Hz : exists j, 0 <= j < DBM_1_5_NUM_EP /\
                         load_ep_num_mapping bound_2_3 j = 0)
    by (exists 1; split; [ unfold DBM_1_5_NUM_EP; lia | reflexivity ]).
  destruct (proj2 (lookup_of_endpoint_zero (masks := sample_dbm_h))
              bound_2_3 Hok Hz) as [_ [_ [_ [Hun [_ Hcfg]]]]].
  split; [ exact Hok | ]. split; [ exact Hz | ].
  split; [ reflexivity | ]. split; [ exact Hun | ].
  exact (proj1 (Hcfg 0 true false false false)).
Defined.

(** ** Data FIFO configuration *)

Section DataFifo.

Context {masks : dbm_h}.

Lemma data_fifo_config_state (dep_num addr size dst_pipe_idx : Z) (st : machine) :
  let st' := snd (data_fifo_config dep_num addr size dst_pipe_idx st) in
  ep_num_mapping st' =
    (if index_in_bounds dst_pipe_idx
     then list_set (ep_num_mapping st) (Z.to_nat dst_pipe_idx) dep_num
     else ep_num_mapping st) /\
  dbm_num_eps st' = dbm_num_eps st /\
  mem_fault st' = mem_fault st || negb (index_in_bounds dst_pipe_idx).
Proof.
  cbv zeta. unfold data_fifo_config.
  repeat rewrite bind_eq.
  rewrite store_ep_num_mapping_eq.
  unfold msm_dbm_write_reg, iowrite32, ret.
  cbn [fst snd regs trace ep_num_mapping dbm_num_eps mem_fault].
  rewrite write_reg_field_run.
  cbn [fst snd regs trace ep_num_mapping dbm_num_eps mem_fault].
  repeat split; reflexivity.
Qed.

(** C4 (as amended): [data_fifo_config] first records the logical endpoint
    number in the mapping table at the destination slot, and only then
    writes the low and the high 32-bit half of the address and the masked
    size field into that slot's FIFO registers; it returns 0. *)
Theorem data_fifo_config_order :
  forall (st : machine) (dep_num addr size dst_pipe_idx : Z),
    0 <= dst_pipe_idx ->
    let run := data_fifo_config dep_num addr size dst_pipe_idx in
    fst (run st) = 0 /\
    events_of run st =
      [ EvMapStore dst_pipe_idx dep_num;
        EvIoWrite (DBM_DATA_FIFO_LSB dst_pipe_idx) (lower_32_bits addr);
        EvIoWrite (DBM_DATA_FIFO_MSB dst_pipe_idx) (upper_32_bits addr);
        EvIoRead (DBM_DATA_FIFO_SIZE dst_pipe_idx);
        EvIoWrite (DBM_DATA_FIFO_SIZE dst_pipe_idx)
          (field_word (regs st (DBM_DATA_FIFO_SIZE dst_pipe_idx))
                      DBM_DATA_FIFO_SIZE_MASK size) ] /\
    store_before_writes (events_of run st).
Proof.
  intros st dep_num addr size dst_pipe_idx Hidx run. subst run.
  destruct (data_fifo_config_run dep_num addr size dst_pipe_idx st Hidx)
    as [Hret [Htrace _]].
  rewrite (events_of_app _ st _ Htrace).
  split; [ exact Hret | ]. split; [ reflexivity | ].
  intros i j [idx [val Hi]] [offset [w Hj]].
  unfold data_fifo_config_events in Hi, Hj.
  destruct i as [| i].
  - destruct j as [| j]; [ discriminate Hj | lia ].
  - exfalso. do 4 (destruct i as [| i]; [ discriminate Hi | ]).
    cbn in Hi. destruct i; discriminate Hi.
Qed.

(** C10: [data_fifo_config] checks nothing and returns 0 on every input;
    it stores at the index it was given, which is inside the 8-entry table
    exactly when [0 <= dst_pipe_idx < 8]: then the entry is updated, and
    for every [dst_pipe_idx >= 8] the store is outside the table. *)
Theorem data_fifo_config_unchecked :
  forall (st : machine) (dep_num addr size dst_pipe_idx : Z),
    let run := data_fifo_config dep_num addr size dst_pipe_idx in
    let st' := snd (run st) in
    fst (run st) = 0 /\
    In (EvMapStore dst_pipe_idx dep_num) (events_of run st) /\
    mem_fault st' = mem_fault st || negb (index_in_bounds dst_pipe_idx) /\
    (0 <= dst_pipe_idx < 8 ->
       mem_fault st' = mem_fault st /\
       ep_num_mapping st' =
         list_set (ep_num_mapping st) (Z.to_nat dst_pipe_idx) dep_num) /\
    (8 <= dst_pipe_idx ->
       mem_fault st' = true /\ ep_num_mapping st' = ep_num_mapping st).
Proof.
  intros st dep_num addr size dst_pipe_idx run st'. subst run st'.
  destruct (data_fifo_config_trace dep_num addr size dst_pipe_idx st)
    as [Hret [w Htrace]].
  destruct (data_fifo_config_state dep_num addr size dst_pipe_idx st)
    as [Hmap [_ Hfault]].
  rewrite (events_of_app _ st _ Htrace).
  split; [ exact Hret | ]. split; [ now left | ].
  split; [ exact Hfault | ]. split; intros Hidx.
  - assert (Hin : index_in_bounds dst_pipe_idx = true)
      by (unfold index_in_bounds, DBM_1_5_NUM_EP; lia).
    rewrite Hin in Hmap, Hfault. cbn [negb] in Hfault.
    rewrite orb_false_r in Hfault. split; assumption.
  - assert (Hout : index_in_bounds dst_pipe_idx = false)
      by (unfold index_in_bounds, DBM_1_5_NUM_EP; lia).
    rewrite Hout in Hmap, Hfault. cbn [negb] in Hfault.
    rewrite orb_true_r in Hfault. split; assumption.
Qed.

End DataFifo.

Lemma data_fifo_config_order_witness :
  0 <= 2 /\
  let st := msm_dbm_probe (fun _ => 0) in
  let run := data_fifo_config (masks := sample_dbm_h) 3 0x100000000 4096 2 in
  fst (run st) = 0 /\
  events_of run st =
    [ EvMapStore 2 3; EvIoWrite 0x110 0; EvIoWrite 0x114 1;
      EvIoRead 0x88; EvIoWrite 0x88 4096 ] /\
  store_before_writes (events_of run st).
Proof.
  split; [ lia | ].
  exact (data_fifo_config_order (masks := sample_dbm_h)
           (msm_dbm_probe (fun _ => 0)) 3 0x100000000 4096 2 ltac:(lia)).
Defined.

(** C4 (as stated) fails: in
    [data_fifo_config(3, 0x100000000, 4096, 2)] the store into the mapping
    table is the first event, before the three register writes. *)
Lemma data_fifo_config_order_counterexample :
  let st := msm_dbm_probe (fun _ => 0) in
  let run := data_fifo_config (masks := sample_dbm_h) 3 0x100000000 4096 2 in
  position is_map_store (events_of run st) = Some 0%nat /\
  position is_io_write (events_of run st) = Some 1%nat /\
  ~ writes_before_store (events_of run st).
Proof.
  cbv zeta. split; [ reflexivity | ]. split; [ reflexivity | ].
  intros H.
  assert (Hlt : (1 < 0)%nat); [ | lia ].
  apply H.
  - exists 2, 3. reflexivity.
  - exists 0x110, 0. reflexivity.
Qed.

Lemma data_fifo_config_unchecked_witness :
  let st := msm_dbm_probe (fun _ => 0) in
  let run := data_fifo_config (masks := sample_dbm_h) 9 0x2000 512 8 in
  fst (run st) = 0 /\ 8 <= 8 /\
  mem_fault (snd (run st)) = true /\
  ep_num_mapping (snd (run st)) = ep_num_mapping st.
Proof.
  destruct (data_fifo_config_unchecked (masks := sample_dbm_h)
              (msm_dbm_probe (fun _ => 0)) 9 0x2000 512 8)
    as [Hret [_ [_ [_ Hout]]]].
  split; [ exact Hret | ]. split; [ lia | ].
  apply Hout. lia.
Defined.

(** ** The mapping table: one slot per logical endpoint *)

Lemma list_set_length (l : list Z) (i : nat) (v : Z) :
  length (list_set l i v) = length l.
Proof.
  revert i. induction l as [| h t IH]; intros i; [ reflexivity | ].
  destruct i as [| i]; cbn; [ reflexivity | now rewrite IH ].
Qed.

(** Overwriting an entry with [x] adds no occurrence of another number. *)
Lemma occurrences_list_set_other (l : list Z) (i : nat) (v x : Z) :
  v <> x -> (occurrences v (list_set l i x) <= occurrences v l)%nat.
Proof.
  intros Hne. revert i. induction l as [| h t IH]; intros i; [ cbn; lia | ].
  destruct i as [| i]; cbn [list_set occurrences].
  - replace (x =? v) with false by (symmetry; apply Z.eqb_neq; lia).
    destruct (h =? v); lia.
  - specialize (IH i). destruct (h =? v); lia.
Qed.

(** Overwriting an entry with [x] leaves at most one occurrence of [x]
    more than clearing that entry does. *)
Lemma occurrences_list_set_same (l : list Z) (i : nat) (x : Z) :
  x <> 0 ->
  (occurrences x (list_set l i x) <= S (occurrences x (list_set l i 0)))%nat.
Proof.
  intros Hne. revert i. induction l as [| h t IH]; intros i; [ cbn; lia | ].
  destruct i as [| i]; cbn [list_set occurrences].
  - rewrite Z.eqb_refl.
    replace (0 =? x) with false by (symmetry; apply Z.eqb_neq; lia).
    lia.
  - specialize (IH i). destruct (h =? x); lia.
Qed.

Lemma mapping_unique_clear (l : list Z) (i : nat) :
  mapping_unique l -> mapping_unique (list_set l i 0).
Proof.
  intros Huniq v Hv.
  pose proof (occurrences_list_set_other l i v 0 Hv).
  specialize (Huniq v Hv). lia.
Qed.

Lemma mapping_unique_bind (l : list Z) (i : nat) (x : Z) :
  mapping_unique l ->
  x = 0 \/ occurrences x (list_set l i 0) = O ->
  mapping_unique (list_set l i x).
Proof.
  intros Huniq [-> | Hfree]; [ now apply mapping_unique_clear | ].
  intros v Hv. destruct (Z.eq_dec v x) as [-> | Hne].
  - pose proof (occurrences_list_set_same l i x Hv). lia.
  - pose proof (occurrences_list_set_other l i v x Hne).
    specialize (Huniq v Hv). lia.
Qed.

Lemma mapping_unique_zeros (n : nat) : mapping_unique (repeat 0 n).
Proof.
  intros v Hv. induction n as [| n IH]; cbn [repeat occurrences]; [ lia | ].
  replace (0 =? v) with false by (symmetry; apply Z.eqb_neq; lia).
  exact IH.
Qed.

Section MappingTable.

Context {masks : dbm_h}.

(** What a call does to the device context: the slot count stays, and the
    table changes only by the store of [data_fifo_config] and by the
    clearing store of [ep_unconfig]. *)
Lemma run_call_context (c : call) (st : machine) :
  dbm_num_eps st = DBM_1_5_NUM_EP ->
  let st' := snd (run_call c st) in
  dbm_num_eps st' = dbm_num_eps st /\
  match c with
  | CallDataFifoConfig dep_num _ _ dst_pipe_idx =>
      ep_num_mapping st' =
        (if index_in_bounds dst_pipe_idx
         then list_set (ep_num_mapping st) (Z.to_nat dst_pipe_idx) dep_num
         else ep_num_mapping st)
  | CallEpUnconfig _ =>
      ep_num_mapping st' = ep_num_mapping st \/
      exists i, ep_num_mapping st' = list_set (ep_num_mapping st) i 0
  | _ => ep_num_mapping st' = ep_num_mapping st
  end.
Proof.
  intros Hnum.
  destruct c as [reset | usb_ep bam_pipe producer disable_wb internal_mem ioc
                 | usb_ep | | addr_lo addr_hi size
                 | dep_num addr size dst_pipe_idx | speed | ];
    cbn [run_call]; cbv zeta.
  - unfold soft_reset. rewrite bind_eq, write_reg_field_run. now cbn.
  - destruct (run_call_outcome
                (CallEpConfig usb_ep bam_pipe producer disable_wb internal_mem
                              ioc) st Hnum) as [m _ Hst | evs Hpos _ _];
      cbn [run_call] in *.
    + now rewrite Hst.
    + destruct (ep_config_passed usb_ep bam_pipe producer disable_wb
                                 internal_mem ioc st Hpos) as [Hd Hlast].
      destruct (ep_config_success usb_ep bam_pipe producer disable_wb
                                  internal_mem ioc st Hnum Hd Hlast)
        as [_ [_ [_ [Hmap [Hn _]]]]].
      now split.
  - set (d := fst (msm_dbm_find_matching_dbm_ep usb_ep st)).
    destruct (Z.lt_ge_cases d 0) as [Hneg | Hpos].
    + rewrite (ep_unconfig_not_found usb_ep st Hneg). cbn. now split; [ | left ].
    + destruct (ep_unconfig_success usb_ep st Hnum Hpos)
        as [_ [_ [_ [Hmap [Hn _]]]]].
      split; [ exact Hn | right ]. now exists (Z.to_nat d).
  - now cbn.
  - destruct (Z.lt_ge_cases size 0) as [Hneg | Hpos].
    + now rewrite (event_buffer_config_invalid addr_lo addr_hi size st Hneg).
    + unfold event_buffer_config.
      replace (size <? 0) with false by (symmetry; apply Z.ltb_ge; exact Hpos).
      repeat rewrite bind_eq. rewrite write_reg_field_run. now cbn.
  - destruct (data_fifo_config_state dep_num addr size dst_pipe_idx st)
      as [Hmap [Hn _]].
    now split.
  - now cbn.
  - now cbn.
Qed.

(** One guarded call keeps the table free of duplicates. *)
Lemma run_call_keeps_unique (c : call) (st : machine) :
  device_ok st ->
  mapping_unique (ep_num_mapping st) ->
  call_guard st c ->
  device_ok (snd (run_call c st)) /\
  mapping_unique (ep_num_mapping (snd (run_call c st))).
Proof.
  intros [Hnum Hlen] Huniq Hguard.
  destruct (run_call_context c st Hnum) as [Hn Hmap].
  unfold device_ok. rewrite Hn.
  destruct c as [reset | usb_ep bam_pipe producer disable_wb internal_mem ioc
                 | usb_ep | | addr_lo addr_hi size
                 | dep_num addr size dst_pipe_idx | speed | ];
    try (rewrite Hmap; now repeat split).
  - destruct Hmap as [Hmap | [i Hmap]]; rewrite Hmap.
    + now repeat split.
    + rewrite list_set_length. repeat split; try assumption.
      now apply mapping_unique_clear.
  - cbn [call_guard] in Hguard. destruct Hguard as [Hidx Hfree].
    assert (Hin : index_in_bounds dst_pipe_idx = true)
      by (unfold index_in_bounds; lia).
    rewrite Hin in Hmap. rewrite Hmap, list_set_length.
    repeat split; try assumption.
    now apply mapping_unique_bind.
Qed.

(** C3 (as amended): from the all-zero table of a probed device, every
    sequence of entry-point calls in which each [data_fifo_config] binds
    to a slot 0-7 a number that is 0 or held by no other slot leaves a
    table in which each nonzero logical endpoint number appears at most
    once; each such call preserves this, [data_fifo_config] under that
    condition and the other entry points always. *)
Theorem guarded_calls_keep_mapping_unique :
  (forall (st : machine) (c : call),
      device_ok st ->
      mapping_unique (ep_num_mapping st) ->
      call_guard st c ->
      mapping_unique (ep_num_mapping (snd (run_call c st)))) /\
  (forall (window : Z -> Z) (cs : list call),
      calls_guarded cs (msm_dbm_probe window) ->
      mapping_unique (ep_num_mapping (run_calls cs (msm_dbm_probe window)))).
Proof.
  split.
  - intros st c Hok Huniq Hguard.
    now apply run_call_keeps_unique.
  - intros window cs.
    assert (Hok : device_ok (msm_dbm_probe window)) by (split; reflexivity).
    assert (Huniq : mapping_unique (ep_num_mapping (msm_dbm_probe window)))
      by apply mapping_unique_zeros.
    revert Hok Huniq. generalize (msm_dbm_probe window) as st.
    induction cs as [| c cs IH]; intros st Hok Huniq Hguard;
      cbn [run_calls]; [ exact Huniq | ].
    destruct Hguard as [Hc Hcs].
    destruct (run_call_keeps_unique c st Hok Huniq Hc) as [Hok' Huniq'].
    now apply IH.
Qed.

End MappingTable.

Lemma guarded_calls_keep_mapping_unique_witness :
  let cs := [ CallDataFifoConfig 3 0x100000000 4096 2;
              CallEpConfig 3 0 true false false true;
              CallEpUnconfig 3;
              CallDataFifoConfig 3 0x100000000 4096 1 ] in
  calls_guarded (masks := sample_dbm_h) cs (msm_dbm_probe (fun _ => 0)) /\
  mapping_unique
    (ep_num_mapping
       (run_calls (masks := sample_dbm_h) cs (msm_dbm_probe (fun _ => 0)))).
Proof.
  cbv zeta.
  assert (Hguard : calls_guarded (masks := sample_dbm_h)
                     [ CallDataFifoConfig 3 0x100000000 4096 2;
                       CallEpConfig 3 0 true false false true;
                       CallEpUnconfig 3;
                       CallDataFifoConfig 3 0x100000000 4096 1 ]
                     (msm_dbm_probe (fun _ => 0))).
  { cbn [calls_guarded call_guard]. unfold DBM_1_5_NUM_EP.
    repeat split; try lia; right; reflexivity. }
  split; [ exact Hguard | ].
  exact (proj2 (guarded_calls_keep_mapping_unique (masks := sample_dbm_h))
               (fun _ => 0) _ Hguard).
Defined.

(** C3 (as stated) fails: two [data_fifo_config] calls that bind logical
    endpoint 3 to slot 0 and to slot 1 leave the number 3 in two entries of
    the table. *)
Lemma mapping_unique_counterexample :
  let st := run_calls (masks := sample_dbm_h)
              [ CallDataFifoConfig 3 0x1000 512 0;
                CallDataFifoConfig 3 0x2000 512 1 ]
              (msm_dbm_probe (fun _ => 0)) in
  ep_num_mapping st = [3; 3; 0; 0; 0; 0; 0; 0] /\
  ~ mapping_unique (ep_num_mapping st).
Proof.
  cbv zeta. split; [ reflexivity | ].
  intros H. specialize (H 3 ltac:(lia)).
  vm_compute in H. lia.
Qed.

(** ** Unconfigure, bind again, configure *)

Lemma nth_list_set_same (l : list Z) (i : nat) (v d : Z) :
  (i < length l)%nat -> nth i (list_set l i v) d = v.
Proof.
  revert i. induction l as [| h t IH]; intros i Hi; cbn in Hi; [ lia | ].
  destruct i as [| i]; cbn [list_set nth]; [ reflexivity | ].
  apply IH. lia.
Qed.

Lemma nth_list_set_other (l : list Z) (i j : nat) (v d : Z) :
  i <> j -> nth j (list_set l i v) d = nth j l d.
Proof.
  revert i j. induction l as [| h t IH]; intros i j Hne; [ reflexivity | ].
  destruct i as [| i], j as [| j]; cbn [list_set nth];
    try reflexivity; try lia.
  apply IH. lia.
Qed.

Lemma find_first_bit_from_clear_below (word : Z) (n : nat) :
  forall i j,
    i <= j < find_first_bit_from word i n -> Z.testbit word j = false.
Proof.
  induction n as [| n IH]; intros i j Hj; cbn [find_first_bit_from] in Hj;
    [ lia | ].
  destruct (Z.testbit word i) eqn:Hi; [ lia | ].
  destruct (Z.eq_dec j i) as [-> | Hne]; [ exact Hi | ].
  apply (IH (i + 1)). lia.
Qed.

Lemma find_first_bit_clear_below (mask j : Z) :
  0 <= j < find_first_bit mask 32 -> Z.testbit mask j = false.
Proof.
  unfold find_first_bit. apply find_first_bit_from_clear_below.
Qed.

Section RoundTrip.

Context {masks : dbm_h}.

(** The layout of a slot's configuration register that [ep_config] is
    written for: the three flags are 32-bit masks without a common bit,
    the lowest bit of their field is bit 8 (the shift in [ep_cfg >> 8]),
    the flags, the endpoint number and the enable field do not overlap,
    and 1 fits the enable field. *)
Definition ep_cfg_layout : bool :=
  (0 <=? DBM_PRODUCER) && (DBM_PRODUCER <? 2 ^ 32) &&
  (0 <=? DBM_DISABLE_WB) && (DBM_DISABLE_WB <? 2 ^ 32) &&
  (0 <=? DBM_INT_RAM_ACC) && (DBM_INT_RAM_ACC <? 2 ^ 32) &&
  (Z.land DBM_PRODUCER DBM_DISABLE_WB =? 0) &&
  (Z.land DBM_PRODUCER DBM_INT_RAM_ACC =? 0) &&
  (Z.land DBM_DISABLE_WB DBM_INT_RAM_ACC =? 0) &&
  (find_first_bit ep_cfg_flags_mask 32 =? 8) &&
  (Z.land ep_cfg_flags_mask USB3_EPNUM =? 0) &&
  (Z.land ep_cfg_flags_mask DBM_EN_EP =? 0) &&
  (Z.land USB3_EPNUM DBM_EN_EP =? 0) &&
  field_fits DBM_EN_EP 1.

(** With the flags field based at bit 8, the field write of [ep_cfg >> 8]
    puts the bits of [ep_cfg] itself into the field. *)
Lemma flags_field_bit (ep_cfg i : Z) :
  find_first_bit ep_cfg_flags_mask 32 = 8 ->
  0 <= i -> Z.testbit ep_cfg_flags_mask i = true ->
  Z.testbit (Z.shiftl (Z.shiftr ep_cfg 8)
                      (find_first_bit ep_cfg_flags_mask 32)) i =
  Z.testbit ep_cfg i.
Proof.
  intros Hbase Hi Hbit.
  assert (H8 : 8 <= i).
  { destruct (Z.lt_ge_cases i 8) as [Hlt | Hge]; [ | exact Hge ].
    rewrite (find_first_bit_clear_below ep_cfg_flags_mask i) in Hbit
      by (rewrite Hbase; lia).
    discriminate Hbit. }
  rewrite Hbase, Z.shiftl_spec, Z.shiftr_spec by lia.
  f_equal. lia.
Qed.

(** C2 (as amended): for a logical endpoint bound to a slot, [ep_unconfig]
    clears the slot's entry, and [ep_unconfig], then [data_fifo_config]
    binding the endpoint to that slot again, then [ep_config] bring it
    back to a configured state, unless the slot is 7 and [producer] is
    set (then [ep_config] refuses): [ep_config] returns the slot, the
    entry of the mapping table holds the endpoint number again, the enable
    bit of the slot's configuration register is set, its endpoint-number
    field holds the number and each flag is set exactly when it was
    requested: [DBM_PRODUCER] when [producer], [DBM_DISABLE_WB] when
    [disable_wb], [DBM_INT_RAM_ACC] never.  This is for the register layout
    [ep_cfg_layout] (flags field based at bit 8, fields disjoint) and an
    endpoint number that fits its field. *)
Theorem unconfig_rebind_config_round_trip :
  forall (st : machine) (usb_ep bam_pipe addr size : Z)
         (producer disable_wb internal_mem ioc : bool),
    device_ok st ->
    let s := fst (msm_dbm_find_matching_dbm_ep usb_ep st) in
    0 <= s ->
    (s =? 7) && producer = false ->
    ep_cfg_layout = true ->
    field_fits USB3_EPNUM usb_ep = true ->
    let st1 := snd (ep_unconfig usb_ep st) in
    let st2 := snd (data_fifo_config usb_ep addr size s st1) in
    let r := ep_config usb_ep bam_pipe producer disable_wb internal_mem ioc
                       st2 in
    let w := regs (snd r) (DBM_EP_CFG s) in
    load_ep_num_mapping st1 s = 0 /\
    fst r = s /\
    load_ep_num_mapping (snd r) s = usb_ep /\
    Z.testbit w (find_first_bit DBM_EN_EP 32) = true /\
    Z.land w DBM_PRODUCER = (if producer then DBM_PRODUCER else 0) /\
    Z.land w DBM_DISABLE_WB = (if disable_wb then DBM_DISABLE_WB else 0) /\
    Z.land w DBM_INT_RAM_ACC = 0 /\
    forall i, 0 <= i < 32 ->
      (Z.testbit DBM_EN_EP i = true ->
         Z.testbit w i =
         Z.testbit (Z.shiftl 1 (find_first_bit DBM_EN_EP 32)) i) /\
      (Z.testbit USB3_EPNUM i = true ->
         Z.testbit w i =
         Z.testbit (Z.shiftl usb_ep (find_first_bit USB3_EPNUM 32)) i) /\
      (Z.testbit ep_cfg_flags_mask i = true ->
         Z.testbit w i = Z.testbit (ep_cfg_of producer disable_wb) i).
Proof.
  intros st usb_ep bam_pipe addr size producer disable_wb internal_mem ioc
         [Hnum Hlen] s Hs Hlast Hlayout Hfit_ep st1 st2 r w.
  unfold ep_cfg_layout in Hlayout.
  repeat (apply andb_true_iff in Hlayout;
          let H := fresh "Hl" in destruct Hlayout as [Hlayout H]).
  rename Hl into Hfit_en, Hl0 into Hdis_en, Hl1 into Hdis_fn,
         Hl2 into Hdis_fe, Hl3 into Hbase, Hl4 into Hdis_di,
         Hl5 into Hdis_pi, Hl6 into Hdis_pd, Hl7 into Hi_hi,
         Hl8 into Hi_lo, Hl9 into Hd_hi, Hl10 into Hd_lo,
         Hl11 into Hp_hi, Hlayout into Hp_lo.
  apply Z.eqb_eq in Hdis_en, Hdis_fn, Hdis_fe, Hbase, Hdis_di, Hdis_pi,
                    Hdis_pd.
  apply Z.ltb_lt in Hi_hi, Hd_hi, Hp_hi.
  apply Z.leb_le in Hi_lo, Hd_lo, Hp_lo.
  destruct (find_matching_found st usb_ep Hs) as [Hlt [Hload Hbefore]].
  fold s in Hlt, Hload, Hbefore. rewrite Hnum in Hlt.
  assert (Hs8 : s < 8) by exact Hlt.
  assert (Hin : index_in_bounds s = true)
    by (unfold index_in_bounds, DBM_1_5_NUM_EP; lia).
  assert (Hnat : (Z.to_nat s < length (ep_num_mapping st))%nat)
    by (rewrite Hlen; unfold DBM_1_5_NUM_EP; lia).
  (* after ep_unconfig *)
  destruct (ep_unconfig_success usb_ep st Hnum Hs)
    as [_ [_ [_ [Hmap1 [Hnum1 _]]]]].
  fold s in Hmap1. fold st1 in Hmap1, Hnum1.
  (* after data_fifo_config *)
  destruct (data_fifo_config_state usb_ep addr size s st1)
    as [Hmap2 [Hnum2 _]].
  fold st2 in Hmap2, Hnum2. rewrite Hin in Hmap2.
  assert (Hload2 : load_ep_num_mapping st2 s = usb_ep).
  { unfold load_ep_num_mapping. rewrite Hmap2.
    apply nth_list_set_same. now rewrite Hmap1, list_set_length. }
  assert (Hfind2 : fst (msm_dbm_find_matching_dbm_ep usb_ep st2) = s).
  { apply find_matching_first.
    - rewrite Hnum2, Hnum1, Hnum. lia.
    - exact Hload2.
    - intros j Hj. unfold load_ep_num_mapping.
      rewrite Hmap2, Hmap1, !nth_list_set_other by lia.
      now apply Hbefore. }
  (* ep_config on the slot bound again *)
  assert (Hnum2' : dbm_num_eps st2 = DBM_1_5_NUM_EP)
    by (now rewrite Hnum2, Hnum1).
  pose proof (ep_config_success usb_ep bam_pipe producer disable_wb
                                internal_mem ioc st2 Hnum2') as Hcfg.
  cbv zeta in Hcfg. rewrite Hfind2 in Hcfg.
  destruct (Hcfg Hs Hlast) as [Hret [_ [Hw [Hmap3 _]]]].
  fold r in Hret, Hw, Hmap3. fold w in Hw.
  (* the bits of the configuration register *)
  assert (Hbits : forall i, 0 <= i < 32 ->
      (Z.testbit DBM_EN_EP i = true ->
         Z.testbit w i =
         Z.testbit (Z.shiftl 1 (find_first_bit DBM_EN_EP 32)) i) /\
      (Z.testbit USB3_EPNUM i = true ->
         Z.testbit w i =
         Z.testbit (Z.shiftl usb_ep (find_first_bit USB3_EPNUM 32)) i) /\
      (Z.testbit ep_cfg_flags_mask i = true ->
         Z.testbit w i = Z.testbit (ep_cfg_of producer disable_wb) i)).
  { rewrite Hw. unfold cfg_enable_word, cfg_epnum_word, cfg_flags_word.
    intros i Hi. split; [ | split ].
    - intros Hen. now apply field_word_bit_inside.
    - intros Hep.
      rewrite field_word_bit_outside; try assumption.
      + now apply field_word_bit_inside.
      + now apply (disjoint_masks_bit USB3_EPNUM DBM_EN_EP).
    - intros Hfl.
      rewrite field_word_bit_outside; try assumption.
      + rewrite field_word_bit_outside; try assumption.
        * rewrite field_word_bit_inside by assumption.
          apply flags_field_bit; [ exact Hbase | lia | exact Hfl ].
        * now apply (disjoint_masks_bit ep_cfg_flags_mask USB3_EPNUM).
      + now apply (disjoint_masks_bit ep_cfg_flags_mask DBM_EN_EP). }
  assert (Hhigh : forall i, 32 <= i -> Z.testbit w i = false).
  { intros i Hi. rewrite Hw. unfold cfg_enable_word.
    unfold field_word, not32, shl32, u32.
    now rewrite Z.lor_spec, Z.land_spec, !Z.mod_pow2_bits_high, andb_false_r
      by lia. }
  (* a flag's bits of the register are its bits of the composed word *)
  assert (Hflag : forall flag,
      0 <= flag < 2 ^ 32 ->
      Z.land flag ep_cfg_flags_mask = flag ->
      Z.land w flag = Z.land (ep_cfg_of producer disable_wb) flag).
  { intros flag Hrange Hsub. apply Z.bits_inj'. intros i Hi.
    rewrite !Z.land_spec.
    destruct (Z.testbit flag i) eqn:Hf; [ | now rewrite !andb_false_r ].
    rewrite !andb_true_r.
    assert (Hi32 : i < 32).
    { destruct (Z.lt_ge_cases i 32) as [Hlt32 | Hge32]; [ exact Hlt32 | ].
      rewrite (testbit_small flag 32 i) in Hf by lia. discriminate Hf. }
    assert (Hfl : Z.testbit ep_cfg_flags_mask i = true).
    { assert (Hb : Z.testbit (Z.land flag ep_cfg_flags_mask) i = true)
        by (now rewrite Hsub).
      rewrite Z.land_spec, Hf in Hb. exact Hb. }
    now apply (Hbits i (conj Hi Hi32)). }
  assert (Hsub_p : Z.land DBM_PRODUCER ep_cfg_flags_mask = DBM_PRODUCER).
  { unfold ep_cfg_flags_mask.
    now rewrite !Z.land_lor_distr_r, Z.land_diag, Hdis_pd, Hdis_pi,
                !Z.lor_0_r. }
  assert (Hsub_d : Z.land DBM_DISABLE_WB ep_cfg_flags_mask = DBM_DISABLE_WB).
  { unfold ep_cfg_flags_mask.
    rewrite !Z.land_lor_distr_r, Z.land_diag, Hdis_di.
    now rewrite (Z.land_comm DBM_DISABLE_WB DBM_PRODUCER), Hdis_pd, Z.lor_0_r. }
  assert (Hsub_i : Z.land DBM_INT_RAM_ACC ep_cfg_flags_mask = DBM_INT_RAM_ACC).
  { unfold ep_cfg_flags_mask.
    rewrite !Z.land_lor_distr_r, Z.land_diag.
    rewrite (Z.land_comm DBM_INT_RAM_ACC DBM_PRODUCER), Hdis_pi.
    now rewrite (Z.land_comm DBM_INT_RAM_ACC DBM_DISABLE_WB), Hdis_di. }
  split.
  { unfold load_ep_num_mapping. rewrite Hmap1.
    now apply nth_list_set_same. }
  split; [ exact Hret | ].
  split.
  { unfold load_ep_num_mapping. rewrite Hmap3. exact Hload2. }
  split.
  { rewrite Hw. unfold cfg_enable_word. apply field_word_one_sets_base.
    unfold field_fits in Hfit_en. apply andb_true_iff in Hfit_en.
    destruct Hfit_en as [Hen_base _]. now apply Z.ltb_lt in Hen_base. }
  split.
  { rewrite (Hflag DBM_PRODUCER (conj Hp_lo Hp_hi) Hsub_p).
    unfold ep_cfg_of. rewrite Z.lor_0_r, Z.land_lor_distr_l.
    destruct producer, disable_wb;
      rewrite ?Z.land_diag, ?Z.land_0_l, ?Z.lor_0_r;
      rewrite ?(Z.land_comm DBM_DISABLE_WB DBM_PRODUCER), ?Hdis_pd;
      now rewrite ?Z.lor_0_r. }
  split.
  { rewrite (Hflag DBM_DISABLE_WB (conj Hd_lo Hd_hi) Hsub_d).
    unfold ep_cfg_of. rewrite Z.lor_0_r, Z.land_lor_distr_l.
    destruct producer, disable_wb;
      rewrite ?Z.land_diag, ?Z.land_0_l, ?Hdis_pd;
      now rewrite ?Z.lor_0_r, ?Z.lor_0_l. }
  split.
  { rewrite (Hflag DBM_INT_RAM_ACC (conj Hi_lo Hi_hi) Hsub_i).
    unfold ep_cfg_of. rewrite Z.lor_0_r, Z.land_lor_distr_l.
    destruct producer, disable_wb;
      rewrite ?Z.land_0_l, ?Hdis_pi, ?Hdis_di;
      now rewrite ?Z.lor_0_r. }
  exact Hbits.
Qed.

End RoundTrip.

Lemma unconfig_rebind_config_round_trip_witness :
  let st := configured_2_3 in
  let st1 := snd (ep_unconfig (masks := sample_dbm_h) 3 st) in
  let st2 := snd (data_fifo_config (masks := sample_dbm_h)
                    3 0x100000000 4096 2 st1) in
  let r := ep_config (masks := sample_dbm_h) 3 0 true false false true st2 in
  let w := regs (snd r) (DBM_EP_CFG 2) in
  device_ok st /\
  fst (msm_dbm_find_matching_dbm_ep 3 st) = 2 /\
  ep_cfg_layout (masks := sample_dbm_h) = true /\
  field_fits 0x3E 3 = true /\
  load_ep_num_mapping st1 2 = 0 /\
  fst r = 2 /\
  load_ep_num_mapping (snd r) 2 = 3 /\
  Z.testbit w 0 = true /\
  Z.land w 0x100 = 0x100 /\
  Z.land w 0x200 = 0 /\
  Z.land w 0x400 = 0.
Proof.
  cbv zeta.
  assert (Hok : device_ok configured_2_3) by (split; reflexivity).
  assert (Hs : 0 <= fst (msm_dbm_find_matching_dbm_ep 3 configured_2_3))
    by (vm_compute; discriminate).
  destruct (unconfig_rebind_config_round_trip (masks := sample_dbm_h)
              configured_2_3 3 0 0x100000000 4096 true false false true
              Hok Hs eq_refl eq_refl eq_refl)
    as [Hcleared [Hret [Hmap [Hen [Hp [Hd [Hi _]]]]]]].
  split; [ exact Hok | ]. split; [ reflexivity | ].
  split; [ reflexivity | ]. split; [ reflexivity | ].
  split; [ exact Hcleared | ]. split; [ exact Hret | ].
  split; [ exact Hmap | ]. split; [ exact Hen | ].
  split; [ exact Hp | ]. split; [ exact Hd | exact Hi ].
Defined.

(** C2 (as stated) fails: logical endpoint 3 is configured on slot 2 (the
    entry holds 3, the enable bit is set); after [ep_unconfig(3)] the
    lookup of [ep_config(3, ...)] finds no slot, the call fails with
    -ENODEV, the entry of slot 2 stays 0 and the enable bit stays clear. *)
Lemma unconfig_config_round_trip_counterexample :
  let st := configured_2_3 in
  let st1 := snd (ep_unconfig (masks := sample_dbm_h) 3 st) in
  let r := ep_config (masks := sample_dbm_h) 3 0 true false false true st1 in
  (load_ep_num_mapping st 2 = 3 /\
   Z.testbit (regs st (DBM_EP_CFG 2)) 0 = true) /\
  fst r = - ENODEV /\
  load_ep_num_mapping (snd r) 2 <> 3 /\
  Z.testbit (regs (snd r) (DBM_EP_CFG 2)) 0 <> true.
Proof.
  cbv zeta. split; [ split; reflexivity | ].
  split; [ reflexivity | ].
  split; vm_compute; discriminate.
Qed.

(** ** A run of the driver *)

(** Binding logical endpoint 3 to slot 2 and configuring it as producer:
    the lookup resolves to slot 2, the slot's configuration register ends
    with the endpoint number 3 in bits 1-5, the producer flag and the
    enable bit, and one endpoint is counted as configured. *)
Example bind_then_configure :
  let st1 := snd (data_fifo_config (masks := sample_dbm_h)
                    3 0x100000000 4096 2 (msm_dbm_probe (fun _ => 0))) in
  let r := ep_config (masks := sample_dbm_h) 3 0 true false false true st1 in
  fst r = 2 /\
  regs (snd r) (DBM_EP_CFG 2) = 0x107 /\
  Z.land (Z.shiftr (regs (snd r) (DBM_EP_CFG 2)) 1) 0x1F = 3 /\
  fst (get_num_of_eps_configured (snd r)) = 1.
Proof.
  cbv zeta. repeat split; reflexivity.
Qed.

(** * Further properties of the driver *)

(** ** One-bit fields of a slot *)

Lemma testbit_slot_bit (d i : Z) :
  0 <= d -> 0 <= i -> Z.testbit (Z.shiftl 1 d) i = (i =? d).
Proof.
  intros Hd Hi. rewrite Z.shiftl_spec by assumption.
  destruct (Z.eqb_spec i d) as [-> | Hne].
  - now rewrite Z.sub_diag.
  - destruct (Z.lt_ge_cases i d) as [Hlt | Hge].
    + apply Z.testbit_neg_r. lia.
    + apply (testbit_small 1 1); lia.
Qed.

(** [mask & 1 << d] is the bit of slot [d] when the mask has it. *)
Lemma slot_mask (mask d : Z) :
  0 <= d -> Z.testbit mask d = true ->
  Z.land mask (Z.shiftl 1 d) = Z.shiftl (Z.ones 1) d.
Proof.
  intros Hd Hset. change (Z.ones 1) with 1.
  apply Z.bits_inj'. intros i Hi.
  rewrite Z.land_spec, testbit_slot_bit by assumption.
  destruct (Z.eqb_spec i d) as [-> | Hne].
  - now rewrite Hset.
  - apply andb_false_r.
Qed.

Lemma find_first_bit_contiguous (s w : Z) :
  0 <= s -> 0 < w -> s + w <= 32 ->
  find_first_bit (Z.shiftl (Z.ones w) s) 32 = s.
Proof.
  intros Hs Hw Hsw. unfold find_first_bit. apply find_first_bit_from_lowest.
  - lia.
  - rewrite testbit_contiguous by lia. apply andb_true_iff. lia.
  - intros j Hj. rewrite testbit_contiguous by lia.
    apply andb_false_iff. left. lia.
Qed.

(** A field write of 0 or 1 through the bit of slot [d] gives that bit
    the value and keeps the other 31 bits. *)
Lemma slot_field_word_bit (r mask d : Z) (b : bool) (i : Z) :
  0 <= d < 32 -> Z.testbit mask d = true -> 0 <= i < 32 ->
  Z.testbit (field_word r (Z.land mask (Z.shiftl 1 d)) (Z.b2z b)) i =
  if i =? d then b else Z.testbit r i.
Proof.
  intros Hd Hset Hi. rewrite slot_mask by first [ lia | exact Hset ].
  assert (Hfit : field_fits (Z.shiftl (Z.ones 1) d) (Z.b2z b) = true)
    by (apply field_fits_contiguous; try lia; destruct b; cbn; lia).
  assert (Hbase : find_first_bit (Z.shiftl (Z.ones 1) d) 32 = d)
    by (apply find_first_bit_contiguous; lia).
  destruct (Z.eqb_spec i d) as [-> | Hne].
  - rewrite field_word_bit_inside, Hbase, Z.shiftl_spec, Z.sub_diag by
      (try lia; rewrite testbit_contiguous by lia; apply andb_true_iff; lia).
    now destruct b.
  - apply field_word_bit_outside; try assumption.
    rewrite testbit_contiguous by lia. apply andb_false_iff. lia.
Qed.

(** ** The registers after an entry point *)

Section Registers.

Context {masks : dbm_h}.

Lemma ep_config_regs (usb_ep bam_pipe : Z)
    (producer disable_wb internal_mem ioc : bool) (st : machine) :
  let d := fst (msm_dbm_find_matching_dbm_ep usb_ep st) in
  let st' := snd (ep_config usb_ep bam_pipe producer disable_wb internal_mem
                            ioc st) in
  dbm_num_eps st = DBM_1_5_NUM_EP ->
  0 <= d ->
  (d =? 7) && producer = false ->
  forall o,
    regs st' o =
    if o =? DBM_EP_CFG d then
      cfg_enable_word (regs st (DBM_EP_CFG d)) producer disable_wb usb_ep
    else if o =? DBM_DBG_CNFG then
      field_word (regs st DBM_DBG_CNFG)
                 (Z.land DBM_ENABLE_IOC_MASK (Z.shiftl 1 d))
                 (Z.b2z ioc)
    else if o =? DBM_SOFT_RESET then
      field_word (regs st DBM_SOFT_RESET)
                 (Z.land DBM_SFT_RST_EPS_MASK (Z.shiftl 1 d)) (Z.b2z false)
    else regs st o.
Proof.
  intros d st' Hnum Hd Hlast o.
  destruct (find_matching_found st usb_ep Hd) as [Hlt _].
  fold d in Hlt. rewrite Hnum in Hlt. unfold DBM_1_5_NUM_EP in Hlt.
  subst st'. unfold ep_config. rewrite bind_eq. fold d.
  replace (d <? 0) with false by (symmetry; apply Z.ltb_ge; exact Hd).
  rewrite Hlast.
  assert (Hsnd : snd (msm_dbm_find_matching_dbm_ep usb_ep st) = st)
    by reflexivity.
  rewrite Hsnd.
  rewrite bind_eq, dbm_ep_soft_reset_run
    by (rewrite Hnum; unfold DBM_1_5_NUM_EP; pose proof (u8_le d Hd); lia).
  rewrite (u8_small d) by lia.
  cbn [fst snd].
  repeat (rewrite bind_eq, write_reg_field_run; cbn [fst snd]).
  unfold ret. cbn [fst snd regs trace ep_num_mapping dbm_num_eps mem_fault].
  assert (Hsr : (DBM_EP_CFG d =? DBM_SOFT_RESET) = false)
    by (apply Z.eqb_neq; unfold DBM_EP_CFG, DBM_SOFT_RESET; lia).
  assert (Hdc : (DBM_EP_CFG d =? DBM_DBG_CNFG) = false)
    by (apply Z.eqb_neq; unfold DBM_EP_CFG, DBM_DBG_CNFG; lia).
  assert (Hds : (DBM_DBG_CNFG =? DBM_SOFT_RESET) = false) by reflexivity.
  rewrite write_reg_field_run.
  cbn [fst snd regs trace ep_num_mapping dbm_num_eps mem_fault].
  rewrite ?Z.eqb_refl, ?Hsr, ?Hdc, ?Hds.
  destruct (o =? DBM_EP_CFG d); [ reflexivity | ].
  destruct (o =? DBM_DBG_CNFG); [ now destruct ioc | ].
  reflexivity.
Qed.

Lemma ep_unconfig_regs (usb_ep : Z) (st : machine) :
  let d := fst (msm_dbm_find_matching_dbm_ep usb_ep st) in
  let st' := snd (ep_unconfig usb_ep st) in
  let rst := Z.land DBM_SFT_RST_EPS_MASK (Z.shiftl 1 d) in
  dbm_num_eps st = DBM_1_5_NUM_EP ->
  0 <= d ->
  forall o,
    regs st' o =
    if o =? DBM_SOFT_RESET then
      field_word (field_word (regs st DBM_SOFT_RESET) rst (Z.b2z true))
                 rst (Z.b2z false)
    else if o =? DBM_EP_CFG d then
      Z.land (regs st (DBM_EP_CFG d)) (not32 0x1)
    else regs st o.
Proof.
  intros d st' rst Hnum Hd o. subst rst.
  destruct (find_matching_found st usb_ep Hd) as [Hlt _].
  fold d in Hlt. rewrite Hnum in Hlt. unfold DBM_1_5_NUM_EP in Hlt.
  subst st'. unfold ep_unconfig. rewrite bind_eq. fold d.
  replace (d <? 0) with false by (symmetry; apply Z.ltb_ge; exact Hd).
  assert (Hsnd : snd (msm_dbm_find_matching_dbm_ep usb_ep st) = st)
    by reflexivity.
  rewrite Hsnd, (u8_small d) by lia.
  assert (Hin : index_in_bounds d = true)
    by (unfold index_in_bounds, DBM_1_5_NUM_EP; lia).
  repeat rewrite bind_eq.
  rewrite (store_ep_num_mapping_run d 0 st Hin).
  unfold msm_dbm_read_reg, msm_dbm_write_reg, ioread32, iowrite32, udelay, log.
  repeat rewrite bind_eq. unfold ret.
  cbn [fst snd regs trace ep_num_mapping dbm_num_eps mem_fault].
  rewrite (dbm_ep_soft_reset_run d true), write_reg_field_run
    by (cbn [dbm_num_eps]; rewrite Hnum; unfold DBM_1_5_NUM_EP; lia).
  cbn [fst snd regs trace ep_num_mapping dbm_num_eps mem_fault].
  rewrite (dbm_ep_soft_reset_run d false), write_reg_field_run
    by (cbn [dbm_num_eps]; rewrite Hnum; unfold DBM_1_5_NUM_EP; lia).
  cbn [fst snd regs trace ep_num_mapping dbm_num_eps mem_fault].
  assert (Hrs : (DBM_SOFT_RESET =? DBM_EP_CFG d) = false)
    by (apply Z.eqb_neq; unfold DBM_EP_CFG, DBM_SOFT_RESET; lia).
  rewrite ?Z.eqb_refl, ?Hrs.
  destruct (o =? DBM_SOFT_RESET); reflexivity.
Qed.

Lemma data_fifo_config_regs (dep_num addr size dst_pipe_idx : Z) (st : machine) :
  let st' := snd (data_fifo_config dep_num addr size dst_pipe_idx st) in
  0 <= dst_pipe_idx ->
  forall o,
    regs st' o =
    if o =? DBM_DATA_FIFO_SIZE dst_pipe_idx then
      field_word (regs st (DBM_DATA_FIFO_SIZE dst_pipe_idx))
                 DBM_DATA_FIFO_SIZE_MASK size
    else if o =? DBM_DATA_FIFO_MSB dst_pipe_idx then upper_32_bits addr
    else if o =? DBM_DATA_FIFO_LSB dst_pipe_idx then lower_32_bits addr
    else regs st o.
Proof.
  intros st' Hidx o. subst st'. unfold data_fifo_config.
  assert (Hl : (DBM_DATA_FIFO_SIZE dst_pipe_idx
                =? DBM_DATA_FIFO_LSB dst_pipe_idx) = false)
    by (apply Z.eqb_neq; unfold DBM_DATA_FIFO_SIZE, DBM_DATA_FIFO_LSB; lia).
  assert (Hm : (DBM_DATA_FIFO_SIZE dst_pipe_idx
                =? DBM_DATA_FIFO_MSB dst_pipe_idx) = false)
    by (apply Z.eqb_neq; unfold DBM_DATA_FIFO_SIZE, DBM_DATA_FIFO_MSB; lia).
  repeat rewrite bind_eq.
  rewrite store_ep_num_mapping_eq.
  unfold msm_dbm_write_reg, iowrite32, ret.
  cbn [fst snd regs trace ep_num_mapping dbm_num_eps mem_fault].
  rewrite write_reg_field_run.
  cbn [fst snd regs trace ep_num_mapping dbm_num_eps mem_fault].
  rewrite ?Hl, ?Hm.
  reflexivity.
Qed.

Lemma event_buffer_config_regs (addr_lo addr_hi size : Z) (st : machine) :
  let st' := snd (event_buffer_config addr_lo addr_hi size st) in
  0 <= size ->
  (forall o,
     regs st' o =
     if o =? DBM_GEVNTSIZ then
       field_word (regs st DBM_GEVNTSIZ) DBM_GEVNTSIZ_MASK size
     else if o =? DBM_GEVNTADR_MSB then addr_hi
     else if o =? DBM_GEVNTADR_LSB then addr_lo
     else regs st o) /\
  ep_num_mapping st' = ep_num_mapping st /\
  dbm_num_eps st' = dbm_num_eps st /\
  mem_fault st' = mem_fault st.
Proof.
  intros st' Hsize. subst st'. unfold event_buffer_config.
  replace (size <? 0) with false by (symmetry; apply Z.ltb_ge; exact Hsize).
  repeat rewrite bind_eq.
  unfold msm_dbm_write_reg, iowrite32, ret.
  cbn [fst snd regs trace ep_num_mapping dbm_num_eps mem_fault].
  rewrite write_reg_field_run.
  cbn [fst snd regs trace ep_num_mapping dbm_num_eps mem_fault].
  repeat split; reflexivity.
Qed.

End Registers.

(** ** The lookup and the count over the mapping table *)

(** The number of nonzero entries of a table. *)
Fixpoint count_nonzero (l : list Z) : Z :=
  match l with
  | [] => 0
  | x :: l' => (if x =? 0 then 0 else 1) + count_nonzero l'
  end.

Lemma count_nonzero_bounds (l : list Z) :
  0 <= count_nonzero l <= Z.of_nat (length l).
Proof.
  induction l as [| x l IH]; cbn [count_nonzero length]; [ lia | ].
  destruct (x =? 0); lia.
Qed.

(** The counting loop over the entries that follow a prefix of the table. *)
Lemma count_configured_from_list (st : machine) (rest : list Z) :
  forall (pre : list Z) (count : Z),
    ep_num_mapping st = pre ++ rest ->
    count_configured_from st (Z.of_nat (length pre)) (length rest) count =
    count + count_nonzero rest.
Proof.
  induction rest as [| x rest IH]; intros pre count Hmap;
    cbn [count_configured_from length count_nonzero]; [ lia | ].
  assert (Hload : load_ep_num_mapping st (Z.of_nat (length pre)) = x).
  { unfold load_ep_num_mapping.
    rewrite Nat2Z.id, Hmap, app_nth2, Nat.sub_diag by lia. reflexivity. }
  rewrite Hload.
  replace (Z.of_nat (length pre) + 1) with (Z.of_nat (length (pre ++ [x])))
    by (rewrite length_app; cbn [length]; lia).
  rewrite IH by (rewrite <- app_assoc; exact Hmap).
  destruct (x =? 0); lia.
Qed.

Lemma get_num_run (st : machine) :
  device_ok st ->
  get_num_of_eps_configured st = (count_nonzero (ep_num_mapping st), st).
Proof.
  intros [Hnum Hlen]. unfold get_num_of_eps_configured.
  rewrite Hnum, <- Hlen.
  pose proof (count_configured_from_list st (ep_num_mapping st) [] 0 eq_refl)
    as Hcount.
  change (Z.of_nat (length (@nil Z))) with 0 in Hcount.
  now rewrite Hcount.
Qed.

Lemma count_nonzero_list_set (l : list Z) (i : nat) (v : Z) :
  (i < length l)%nat ->
  count_nonzero (list_set l i v) =
  count_nonzero l - (if nth i l 0 =? 0 then 0 else 1)
                  + (if v =? 0 then 0 else 1).
Proof.
  revert i. induction l as [| h t IH]; intros i Hi; cbn [length] in Hi;
    [ lia | ].
  destruct i as [| i]; cbn [list_set count_nonzero nth].
  - lia.
  - rewrite IH by lia. lia.
Qed.

Lemma occurrences_list_set_clear (l : list Z) (i : nat) (v : Z) :
  (i < length l)%nat -> nth i l 0 = v -> v <> 0 ->
  S (occurrences v (list_set l i 0)) = occurrences v l.
Proof.
  revert i. induction l as [| h t IH]; intros i Hi Hnth Hv;
    cbn [length] in Hi; [ lia | ].
  destruct i as [| i]; cbn [list_set occurrences nth] in *.
  - subst h. rewrite Z.eqb_refl.
    replace (0 =? v) with false by (symmetry; apply Z.eqb_neq; lia).
    reflexivity.
  - specialize (IH i ltac:(lia) Hnth Hv). destruct (h =? v); lia.
Qed.

Lemma occurrences_zero_nth (l : list Z) (v : Z) :
  occurrences v l = O ->
  forall j, (j < length l)%nat -> nth j l 0 <> v.
Proof.
  induction l as [| h t IH]; intros Hocc j Hj; cbn [length] in Hj; [ lia | ].
  cbn [occurrences] in Hocc.
  destruct (Z.eqb_spec h v) as [Heq | Hne]; [ discriminate Hocc | ].
  destruct j as [| j]; cbn [nth]; [ exact Hne | ].
  apply IH; [ exact Hocc | lia ].
Qed.

(** X1: on a probed device the lookup changes nothing and returns either
    -ENODEV, and then no entry of the table holds the number, or the index
    (0-7) of the first entry that holds it. *)
Theorem lookup_first_match :
  forall (st : machine) (usb_ep : Z),
    device_ok st ->
    let r := fst (msm_dbm_find_matching_dbm_ep usb_ep st) in
    snd (msm_dbm_find_matching_dbm_ep usb_ep st) = st /\
    ((r = - ENODEV /\ ~ In usb_ep (ep_num_mapping st)) \/
     (0 <= r < DBM_1_5_NUM_EP /\
      nth (Z.to_nat r) (ep_num_mapping st) 0 = usb_ep /\
      forall j, (j < Z.to_nat r)%nat ->
                nth j (ep_num_mapping st) 0 <> usb_ep)).
Proof.
  intros st usb_ep [Hnum Hlen] r. split; [ reflexivity | ].
  destruct (Z.lt_ge_cases r 0) as [Hneg | Hpos].
  - left. destruct (find_matching_not_found st usb_ep Hneg) as [Hr Hall].
    split; [ exact Hr | ]. intros Hin.
    destruct (In_nth _ _ 0 Hin) as [n [Hn Hnth]].
    apply (Hall (Z.of_nat n)).
    + rewrite Hnum. rewrite Hlen in Hn. lia.
    + unfold load_ep_num_mapping. now rewrite Nat2Z.id.
  - right. destruct (find_matching_found st usb_ep Hpos)
      as [Hlt [Hload Hbefore]].
    fold r in Hlt, Hload, Hbefore. rewrite Hnum in Hlt.
    split; [ lia | ]. split; [ exact Hload | ].
    intros j Hj. specialize (Hbefore (Z.of_nat j) ltac:(lia)).
    unfold load_ep_num_mapping in Hbefore. now rewrite Nat2Z.id in Hbefore.
Qed.

Lemma lookup_first_match_witness :
  device_ok bound_2_3 /\
  let r := fst (msm_dbm_find_matching_dbm_ep 3 bound_2_3) in
  snd (msm_dbm_find_matching_dbm_ep 3 bound_2_3) = bound_2_3 /\
  ((r = - ENODEV /\ ~ In 3 (ep_num_mapping bound_2_3)) \/
   (0 <= r < DBM_1_5_NUM_EP /\
    nth (Z.to_nat r) (ep_num_mapping bound_2_3) 0 = 3 /\
    forall j, (j < Z.to_nat r)%nat ->
              nth j (ep_num_mapping bound_2_3) 0 <> 3)).
Proof.
  assert (Hok : device_ok bound_2_3) by (split; reflexivity).
  split; [ exact Hok | ].
  exact (lookup_first_match bound_2_3 3 Hok).
Defined.

(** X2: on a probed device [get_num_of_eps_configured] returns the number
    of nonzero entries of the mapping table, a value from 0 to 8, and
    changes nothing. *)
Theorem get_num_counts_nonzero :
  forall st : machine,
    device_ok st ->
    get_num_of_eps_configured st = (count_nonzero (ep_num_mapping st), st) /\
    0 <= fst (get_num_of_eps_configured st) <= DBM_1_5_NUM_EP.
Proof.
  intros st Hok. rewrite (get_num_run st Hok). split; [ reflexivity | ].
  destruct Hok as [_ Hlen]. cbn [fst].
  pose proof (count_nonzero_bounds (ep_num_mapping st)) as Hb.
  rewrite Hlen in Hb. unfold DBM_1_5_NUM_EP in *. lia.
Qed.

Lemma get_num_counts_nonzero_witness :
  device_ok bound_2_3 /\
  get_num_of_eps_configured bound_2_3 = (1, bound_2_3) /\
  0 <= fst (get_num_of_eps_configured bound_2_3) <= DBM_1_5_NUM_EP.
Proof.
  assert (Hok : device_ok bound_2_3) by (split; reflexivity).
  split; [ exact Hok | ].
  exact (get_num_counts_nonzero bound_2_3 Hok).
Defined.

(** ** Binding and unbinding *)

Section Bindings.

Context {masks : dbm_h}.

Lemma data_fifo_config_device_ok (dep_num addr size dst_pipe_idx : Z)
    (st : machine) :
  device_ok st ->
  device_ok (snd (data_fifo_config dep_num addr size dst_pipe_idx st)).
Proof.
  intros [Hnum Hlen].
  destruct (data_fifo_config_state dep_num addr size dst_pipe_idx st)
    as [Hmap [Hn _]].
  split; [ now rewrite Hn | ]. rewrite Hmap.
  destruct (index_in_bounds dst_pipe_idx); now rewrite ?list_set_length.
Qed.

Lemma ep_unconfig_device_ok (usb_ep : Z) (st : machine) :
  device_ok st ->
  0 <= fst (msm_dbm_find_matching_dbm_ep usb_ep st) ->
  device_ok (snd (ep_unconfig usb_ep st)).
Proof.
  intros [Hnum Hlen] Hd.
  destruct (ep_unconfig_success usb_ep st Hnum Hd)
    as [_ [_ [_ [Hmap [Hn _]]]]].
  split; [ now rewrite Hn | ]. now rewrite Hmap, list_set_length.
Qed.

(** X3: binding with [data_fifo_config] to a slot 0-7 changes the count of
    configured endpoints by what the slot's entry changes: one less if the
    entry was nonzero, one more if the number bound is nonzero (so binding
    a nonzero number to an unassigned slot adds one, and binding over an
    assigned slot leaves the count). *)
Theorem data_fifo_config_count :
  forall (st : machine) (dep_num addr size dst_pipe_idx : Z),
    device_ok st ->
    0 <= dst_pipe_idx < DBM_1_5_NUM_EP ->
    let st' := snd (data_fifo_config dep_num addr size dst_pipe_idx st) in
    fst (get_num_of_eps_configured st') =
    fst (get_num_of_eps_configured st)
    - (if load_ep_num_mapping st dst_pipe_idx =? 0 then 0 else 1)
    + (if dep_num =? 0 then 0 else 1).
Proof.
  intros st dep_num addr size dst_pipe_idx Hok Hidx st'.
  pose proof (data_fifo_config_device_ok dep_num addr size dst_pipe_idx st Hok)
    as Hok'.
  fold st' in Hok'.
  rewrite (get_num_run st' Hok'), (get_num_run st Hok). cbn [fst].
  destruct (data_fifo_config_state dep_num addr size dst_pipe_idx st)
    as [Hmap _].
  fold st' in Hmap.
  assert (Hin : index_in_bounds dst_pipe_idx = true)
    by (unfold index_in_bounds; lia).
  rewrite Hin in Hmap. rewrite Hmap.
  destruct Hok as [_ Hlen].
  apply count_nonzero_list_set.
  rewrite Hlen. unfold DBM_1_5_NUM_EP in *. lia.
Qed.

(** X4: a successful [ep_unconfig] of a nonzero logical endpoint number
    lowers the count of configured endpoints by one; [ep_unconfig] of
    number 0 (which resolves to an unassigned slot) leaves it. *)
Theorem ep_unconfig_count :
  forall (st : machine) (usb_ep : Z),
    device_ok st ->
    0 <= fst (msm_dbm_find_matching_dbm_ep usb_ep st) ->
    let st' := snd (ep_unconfig usb_ep st) in
    fst (get_num_of_eps_configured st') =
    fst (get_num_of_eps_configured st) - (if usb_ep =? 0 then 0 else 1).
Proof.
  intros st usb_ep Hok Hd st'.
  pose proof (ep_unconfig_device_ok usb_ep st Hok Hd) as Hok'.
  fold st' in Hok'.
  rewrite (get_num_run st' Hok'), (get_num_run st Hok). cbn [fst].
  destruct Hok as [Hnum Hlen].
  destruct (ep_unconfig_success usb_ep st Hnum Hd) as [_ [_ [_ [Hmap _]]]].
  fold st' in Hmap. rewrite Hmap.
  destruct (find_matching_found st usb_ep Hd) as [Hlt [Hload _]].
  rewrite Hnum in Hlt.
  rewrite count_nonzero_list_set
    by (rewrite Hlen; unfold DBM_1_5_NUM_EP in *; lia).
  unfold load_ep_num_mapping in Hload. rewrite Hload. cbn. lia.
Qed.

(** X5: after [data_fifo_config] bound a number to a slot 0-7, the lookup
    of that number resolves to this slot, unless an earlier slot already
    held the number: then the lookup still resolves to the earlier slot
    and the new binding is shadowed.  In the first case [ep_config] of the
    number returns the slot, the last-slot check permitting. *)
Theorem bind_then_lookup :
  forall (st : machine) (dep_num addr size dst_pipe_idx : Z),
    device_ok st ->
    0 <= dst_pipe_idx < DBM_1_5_NUM_EP ->
    let st' := snd (data_fifo_config dep_num addr size dst_pipe_idx st) in
    let before := fst (msm_dbm_find_matching_dbm_ep dep_num st) in
    (before < 0 \/ dst_pipe_idx <= before ->
       fst (msm_dbm_find_matching_dbm_ep dep_num st') = dst_pipe_idx /\
       forall (bam_pipe : Z) (producer disable_wb internal_mem ioc : bool),
         (dst_pipe_idx =? 7) && producer = false ->
         fst (ep_config dep_num bam_pipe producer disable_wb internal_mem ioc
                        st') = dst_pipe_idx) /\
    (0 <= before < dst_pipe_idx ->
       fst (msm_dbm_find_matching_dbm_ep dep_num st') = before).
Proof.
  intros st dep_num addr size dst_pipe_idx Hok Hidx st' before.
  pose proof (data_fifo_config_device_ok dep_num addr size dst_pipe_idx st Hok)
    as [Hnum' Hlen'].
  fold st' in Hnum', Hlen'.
  destruct Hok as [Hnum Hlen].
  destruct (data_fifo_config_state dep_num addr size dst_pipe_idx st)
    as [Hmap _].
  fold st' in Hmap.
  assert (Hin : index_in_bounds dst_pipe_idx = true)
    by (unfold index_in_bounds; lia).
  rewrite Hin in Hmap.
  assert (Hat : load_ep_num_mapping st' dst_pipe_idx = dep_num).
  { unfold load_ep_num_mapping. rewrite Hmap. apply nth_list_set_same.
    rewrite Hlen. unfold DBM_1_5_NUM_EP in *. lia. }
  assert (Hother : forall j, 0 <= j -> j <> dst_pipe_idx ->
                     load_ep_num_mapping st' j = load_ep_num_mapping st j).
  { intros j Hj Hne. unfold load_ep_num_mapping. rewrite Hmap.
    apply nth_list_set_other. lia. }
  split.
  - intros Hfree.
    assert (Hfind : fst (msm_dbm_find_matching_dbm_ep dep_num st')
                    = dst_pipe_idx).
    { apply find_matching_first.
      - rewrite Hnum'. exact Hidx.
      - exact Hat.
      - intros j Hj. rewrite Hother by lia.
        destruct Hfree as [Hneg | Hge].
        + destruct (find_matching_not_found st dep_num Hneg) as [_ Hall].
          apply Hall. rewrite Hnum. lia.
        + destruct (Z.lt_ge_cases before 0) as [Hneg | Hpos].
          * destruct (find_matching_not_found st dep_num Hneg) as [_ Hall].
            apply Hall. rewrite Hnum. lia.
          * destruct (find_matching_found st dep_num Hpos) as [_ [_ Hb]].
            apply Hb. fold before. lia. }
    split; [ exact Hfind | ].
    intros bam_pipe producer disable_wb internal_mem ioc Hlast.
    pose proof (ep_config_success dep_num bam_pipe producer disable_wb
                                  internal_mem ioc st' Hnum') as Hcfg.
    cbv zeta in Hcfg. rewrite Hfind in Hcfg.
    apply Hcfg; [ lia | exact Hlast ].
  - intros Hearlier.
    destruct (find_matching_found st dep_num (proj1 Hearlier))
      as [_ [Hload Hb]].
    fold before in Hload, Hb.
    apply find_matching_first.
    + rewrite Hnum'. unfold DBM_1_5_NUM_EP in *. lia.
    + rewrite Hother by lia. exact Hload.
    + intros j Hj. rewrite Hother by lia. now apply Hb.
Qed.

(** X6: when a nonzero logical endpoint number is held by one slot only,
    a successful [ep_unconfig] of it leaves no slot for it: the lookup
    then returns -ENODEV, and a second [ep_unconfig] and any [ep_config]
    of that number fail with -ENODEV, printing the not-found message and
    touching neither register nor table. *)
Theorem unconfig_then_not_found :
  forall (st : machine) (usb_ep : Z),
    device_ok st ->
    usb_ep <> 0 ->
    (occurrences usb_ep (ep_num_mapping st) <= 1)%nat ->
    0 <= fst (msm_dbm_find_matching_dbm_ep usb_ep st) ->
    let st1 := snd (ep_unconfig usb_ep st) in
    fst (msm_dbm_find_matching_dbm_ep usb_ep st1) = - ENODEV /\
    ep_unconfig usb_ep st1 = (- ENODEV, log (EvErr MsgInvalidUsbEp) st1) /\
    forall (bam_pipe : Z) (producer disable_wb internal_mem ioc : bool),
      ep_config usb_ep bam_pipe producer disable_wb internal_mem ioc st1 =
      (- ENODEV, log (EvErr MsgInvalidUsbEp) st1).
Proof.
  intros st usb_ep Hok Hnz Honce Hd st1.
  pose proof (ep_unconfig_device_ok usb_ep st Hok Hd) as [Hnum1 Hlen1].
  fold st1 in Hnum1, Hlen1.
  destruct Hok as [Hnum Hlen].
  destruct (ep_unconfig_success usb_ep st Hnum Hd) as [_ [_ [_ [Hmap _]]]].
  fold st1 in Hmap.
  destruct (find_matching_found st usb_ep Hd) as [Hlt [Hload _]].
  rewrite Hnum in Hlt. unfold load_ep_num_mapping in Hload.
  set (d := fst (msm_dbm_find_matching_dbm_ep usb_ep st)) in *.
  assert (Hd8 : (Z.to_nat d < length (ep_num_mapping st))%nat)
    by (rewrite Hlen; unfold DBM_1_5_NUM_EP in *; lia).
  pose proof (occurrences_list_set_clear (ep_num_mapping st) (Z.to_nat d)
                usb_ep Hd8 Hload Hnz) as Hclear.
  assert (Hnone : occurrences usb_ep (ep_num_mapping st1) = O)
    by (rewrite Hmap; lia).
  assert (Hneg : fst (msm_dbm_find_matching_dbm_ep usb_ep st1) < 0).
  { destruct (Z.lt_ge_cases (fst (msm_dbm_find_matching_dbm_ep usb_ep st1)) 0)
      as [Hneg | Hpos]; [ exact Hneg | exfalso ].
    destruct (find_matching_found st1 usb_ep Hpos) as [Hlt1 [Hload1 _]].
    rewrite Hnum1 in Hlt1.
    apply (occurrences_zero_nth (ep_num_mapping st1) usb_ep Hnone
             (Z.to_nat (fst (msm_dbm_find_matching_dbm_ep usb_ep st1)))).
    - rewrite Hlen1. unfold DBM_1_5_NUM_EP in *. lia.
    - exact Hload1. }
  split; [ exact (proj1 (find_matching_not_found st1 usb_ep Hneg)) | ].
  split; [ now apply ep_unconfig_not_found | ].
  intros bam_pipe producer disable_wb internal_mem ioc.
  now apply ep_config_not_found.
Qed.

End Bindings.

Lemma data_fifo_config_count_witness :
  device_ok bound_2_3 /\ 0 <= 5 < DBM_1_5_NUM_EP /\
  fst (get_num_of_eps_configured
         (snd (data_fifo_config (masks := sample_dbm_h) 9 0x2000 512 5
                 bound_2_3))) = 2.
Proof.
  assert (Hok : device_ok bound_2_3) by (split; reflexivity).
  assert (Hidx : 0 <= 5 < DBM_1_5_NUM_EP) by (unfold DBM_1_5_NUM_EP; lia).
  split; [ exact Hok | ]. split; [ exact Hidx | ].
  exact (data_fifo_config_count (masks := sample_dbm_h) bound_2_3
           9 0x2000 512 5 Hok Hidx).
Defined.

Lemma ep_unconfig_count_witness :
  device_ok configured_2_3 /\
  0 <= fst (msm_dbm_find_matching_dbm_ep 3 configured_2_3) /\
  fst (get_num_of_eps_configured
         (snd (ep_unconfig (masks := sample_dbm_h) 3 configured_2_3))) = 0.
Proof.
  assert (Hok : device_ok configured_2_3) by (split; reflexivity).
  assert (Hd : 0 <= fst (msm_dbm_find_matching_dbm_ep 3 configured_2_3))
    by (vm_compute; discriminate).
  split; [ exact Hok | ]. split; [ exact Hd | ].
  exact (ep_unconfig_count (masks := sample_dbm_h) configured_2_3 3 Hok Hd).
Defined.

Lemma bind_then_lookup_witness :
  device_ok bound_2_3 /\ 0 <= 5 < DBM_1_5_NUM_EP /\
  fst (msm_dbm_find_matching_dbm_ep 9
         (snd (data_fifo_config (masks := sample_dbm_h) 9 0x2000 512 5
                 bound_2_3))) = 5 /\
  fst (msm_dbm_find_matching_dbm_ep 3
         (snd (data_fifo_config (masks := sample_dbm_h) 3 0x2000 512 5
                 bound_2_3))) = 2.
Proof.
  assert (Hok : device_ok bound_2_3) by (split; reflexivity).
  assert (Hidx : 0 <= 5 < DBM_1_5_NUM_EP) by (unfold DBM_1_5_NUM_EP; lia).
  split; [ exact Hok | ]. split; [ exact Hidx | ]. split.
  - apply (proj1 (bind_then_lookup (masks := sample_dbm_h) bound_2_3
                    9 0x2000 512 5 Hok Hidx)).
    left. vm_compute. reflexivity.
  - apply (proj2 (bind_then_lookup (masks := sample_dbm_h) bound_2_3
                    3 0x2000 512 5 Hok Hidx)).
    vm_compute. split; [ discriminate | reflexivity ].
Defined.

Lemma unconfig_then_not_found_witness :
  device_ok configured_2_3 /\
  fst (msm_dbm_find_matching_dbm_ep 3
         (snd (ep_unconfig (masks := sample_dbm_h) 3 configured_2_3)))
  = - ENODEV.
Proof.
  assert (Hok : device_ok configured_2_3) by (split; reflexivity).
  split; [ exact Hok | ].
  apply (unconfig_then_not_found (masks := sample_dbm_h) configured_2_3 3 Hok).
  - lia.
  - vm_compute. lia.
  - vm_compute. discriminate.
Defined.

(** ** Reset bits *)

Lemma testbit_one (i : Z) : 0 <= i -> Z.testbit 1 i = (i =? 0).
Proof.
  intros Hi. exact (testbit_slot_bit 0 i ltac:(lia) Hi).
Qed.

(** The scan for the lowest set bit stops on a set bit when it stops
    before the end. *)
Lemma find_first_bit_from_set (word : Z) (n : nat) :
  forall i,
    find_first_bit_from word i n < i + Z.of_nat n ->
    Z.testbit word (find_first_bit_from word i n) = true.
Proof.
  induction n as [| n IH]; intros i Hlt; cbn [find_first_bit_from] in *;
    [ lia | ].
  destruct (Z.testbit word i) eqn:Hi; [ exact Hi | ].
  apply IH. lia.
Qed.

Lemma find_first_bit_set (mask : Z) :
  find_first_bit mask 32 < 32 ->
  Z.testbit mask (find_first_bit mask 32) = true.
Proof.
  intros Hlt. unfold find_first_bit in *.
  apply find_first_bit_from_set. change (Z.of_nat (Z.to_nat 32)) with 32. lia.
Qed.

Lemma field_fits_base (mask val : Z) :
  field_fits mask val = true -> find_first_bit mask 32 < 32.
Proof.
  unfold field_fits. intros Hfit. apply andb_true_iff in Hfit.
  destruct Hfit as [Hbase _]. now apply Z.ltb_lt in Hbase.
Qed.

Lemma field_fits_zero (mask : Z) :
  find_first_bit mask 32 < 32 -> field_fits mask 0 = true.
Proof.
  intros Hlt. unfold field_fits. apply andb_true_iff. split.
  - now apply Z.ltb_lt.
  - unfold shl32, u32. now rewrite Z.shiftl_0_l.
Qed.

Section ResetBits.

Context {masks : dbm_h}.

(** X7: [dbm_ep_soft_reset] refuses a slot index at or above the slot
    count with -ENODEV, after the message and without a register access;
    for a slot below the count (whose bit the reset mask has) it returns 0
    and makes that slot's bit of the soft-reset register equal to
    [enter_reset], keeping the other bits of that register, every other
    register and the mapping table. *)
Theorem dbm_ep_soft_reset_checked :
  forall (st : machine) (dbm_ep : Z) (enter_reset : bool),
    (dbm_num_eps st <= dbm_ep ->
       dbm_ep_soft_reset dbm_ep enter_reset st =
       (- ENODEV, log (EvErr MsgInvalidDbmEp) st)) /\
    (0 <= dbm_ep < dbm_num_eps st ->
     dbm_num_eps st <= 32 ->
     Z.testbit DBM_SFT_RST_EPS_MASK dbm_ep = true ->
       let st' := snd (dbm_ep_soft_reset dbm_ep enter_reset st) in
       fst (dbm_ep_soft_reset dbm_ep enter_reset st) = 0 /\
       (forall i, 0 <= i < 32 ->
          Z.testbit (regs st' DBM_SOFT_RESET) i =
          if i =? dbm_ep then enter_reset
          else Z.testbit (regs st DBM_SOFT_RESET) i) /\
       (forall o, o <> DBM_SOFT_RESET -> regs st' o = regs st o) /\
       ep_num_mapping st' = ep_num_mapping st).
Proof.
  intros st dbm_ep enter_reset. split.
  - intros Hge. unfold dbm_ep_soft_reset.
    replace (dbm_ep >=? dbm_num_eps st) with true
      by (symmetry; apply Z.geb_le; exact Hge).
    reflexivity.
  - intros Hrange Hnum Hbit st'. subst st'.
    rewrite dbm_ep_soft_reset_run by lia. cbn [fst snd].
    split; [ reflexivity | ]. split; [ | split ].
    + intros i Hi. rewrite write_reg_field_same.
      apply slot_field_word_bit; [ lia | exact Hbit | exact Hi ].
    + intros o Ho. now apply write_reg_field_other.
    + now rewrite write_reg_field_run.
Qed.

(** X8: when 1 fits the field of [DBM_SFT_RST_MASK], [soft_reset] returns
    0 and makes the lowest bit of that field in the soft-reset register
    equal to [reset], keeping the bits outside the mask and every other
    register; asserting and then deasserting the reset leaves the
    registers as deasserting alone does. *)
Theorem soft_reset_bit :
  forall (st : machine) (reset : bool),
    field_fits DBM_SFT_RST_MASK 1 = true ->
    let st' := snd (soft_reset reset st) in
    fst (soft_reset reset st) = 0 /\
    Z.testbit (regs st' DBM_SOFT_RESET)
              (find_first_bit DBM_SFT_RST_MASK 32) = reset /\
    (forall i, 0 <= i < 32 -> Z.testbit DBM_SFT_RST_MASK i = false ->
       Z.testbit (regs st' DBM_SOFT_RESET) i =
       Z.testbit (regs st DBM_SOFT_RESET) i) /\
    (forall o, o <> DBM_SOFT_RESET -> regs st' o = regs st o) /\
    (forall o,
       regs (snd (soft_reset false (snd (soft_reset true st)))) o =
       regs (snd (soft_reset false st)) o).
Proof.
  intros st reset Hfit st'. subst st'.
  pose proof (field_fits_base _ _ Hfit) as Hbase.
  pose proof (find_first_bit_range DBM_SFT_RST_MASK) as Hrange.
  assert (Hrun : forall b s,
             soft_reset b s =
             (0, snd (msm_dbm_write_reg_field DBM_SOFT_RESET DBM_SFT_RST_MASK
                        (Z.b2z b) s)))
    by (intros b s; unfold soft_reset; now rewrite bind_eq).
  assert (Hfitb : field_fits DBM_SFT_RST_MASK (Z.b2z reset) = true)
    by (destruct reset; [ exact Hfit | now apply field_fits_zero ]).
  rewrite !Hrun. cbn [fst snd].
  split; [ reflexivity | ]. split; [ | split; [ | split ] ].
  - rewrite write_reg_field_same.
    rewrite field_word_bit_inside
      by (try lia; now apply find_first_bit_set).
    rewrite Z.shiftl_spec, Z.sub_diag by lia. now destruct reset.
  - intros i Hi Hout. rewrite write_reg_field_same.
    now apply field_word_bit_outside.
  - intros o Ho. now apply write_reg_field_other.
  - intros o. destruct (Z.eq_dec o DBM_SOFT_RESET) as [-> | Hne].
    + rewrite !write_reg_field_same. now apply field_word_twice.
    + now rewrite !write_reg_field_other.
Qed.

(** X9: a successful [ep_unconfig] on slot [d] clears bit 0 of the slot's
    configuration register and keeps its bits 1-31; it leaves the slot's
    bit of the soft-reset register clear (when the reset mask has that
    bit) and keeps the other bits of that register; it changes no other
    register; and it zeroes the slot's entry of the mapping table and no
    other entry. *)
Theorem ep_unconfig_registers :
  forall (st : machine) (usb_ep : Z),
    device_ok st ->
    let d := fst (msm_dbm_find_matching_dbm_ep usb_ep st) in
    0 <= d ->
    let st' := snd (ep_unconfig usb_ep st) in
    (forall i, 0 <= i < 32 ->
       Z.testbit (regs st' (DBM_EP_CFG d)) i =
       if i =? 0 then false else Z.testbit (regs st (DBM_EP_CFG d)) i) /\
    (Z.testbit DBM_SFT_RST_EPS_MASK d = true ->
     forall i, 0 <= i < 32 ->
       Z.testbit (regs st' DBM_SOFT_RESET) i =
       if i =? d then false else Z.testbit (regs st DBM_SOFT_RESET) i) /\
    (forall o, o <> DBM_EP_CFG d -> o <> DBM_SOFT_RESET ->
       regs st' o = regs st o) /\
    load_ep_num_mapping st' d = 0 /\
    (forall j, 0 <= j -> j <> d ->
       load_ep_num_mapping st' j = load_ep_num_mapping st j).
Proof.
  intros st usb_ep [Hnum Hlen] d Hd st'.
  destruct (find_matching_found st usb_ep Hd) as [Hlt _].
  fold d in Hlt. rewrite Hnum in Hlt. unfold DBM_1_5_NUM_EP in Hlt.
  pose proof (ep_unconfig_regs usb_ep st Hnum Hd) as Hregs.
  cbv zeta in Hregs. fold d in Hregs. fold st' in Hregs.
  destruct (ep_unconfig_success usb_ep st Hnum Hd) as [_ [_ [_ [Hmap _]]]].
  fold d in Hmap. fold st' in Hmap.
  assert (Hcs : (DBM_EP_CFG d =? DBM_SOFT_RESET) = false)
    by (apply Z.eqb_neq; unfold DBM_EP_CFG, DBM_SOFT_RESET; lia).
  split; [ | split; [ | split; [ | split ] ] ].
  - intros i Hi. rewrite Hregs, Hcs, Z.eqb_refl.
    rewrite Z.land_spec, testbit_not32, testbit_one by lia.
    destruct (i =? 0); [ apply andb_false_r | apply andb_true_r ].
  - intros Hbit i Hi. rewrite Hregs, Z.eqb_refl.
    rewrite (slot_field_word_bit _ _ d false i) by (lia || assumption).
    destruct (Z.eqb_spec i d) as [Heq | Hne]; [ reflexivity | ].
    rewrite (slot_field_word_bit _ _ d true i) by (lia || assumption).
    destruct (Z.eqb_spec i d); [ contradiction | reflexivity ].
  - intros o Hcfg Hsr. rewrite Hregs.
    apply Z.eqb_neq in Hcfg, Hsr. now rewrite Hcfg, Hsr.
  - unfold load_ep_num_mapping. rewrite Hmap. apply nth_list_set_same.
    rewrite Hlen. unfold DBM_1_5_NUM_EP. lia.
  - intros j Hj Hne. unfold load_ep_num_mapping. rewrite Hmap.
    apply nth_list_set_other. lia.
Qed.

(** X10: a successful [ep_unconfig] on slot [d] stores 0 into the mapping
    table first, then writes the configuration register with the enable
    bit clear, writes the soft-reset register, waits 10 microseconds and
    writes the soft-reset register again, in this order, for every slot;
    when the reset mask has the slot's bit, the write before the delay
    sets the slot's reset bit and the write after it clears that bit. *)
Theorem ep_unconfig_reset_cycle :
  forall (st : machine) (usb_ep : Z),
    device_ok st ->
    let d := fst (msm_dbm_find_matching_dbm_ep usb_ep st) in
    0 <= d ->
    exists cleared asserted deasserted,
      events_of (ep_unconfig usb_ep) st =
        [ EvMapStore d 0;
          EvIoRead (DBM_EP_CFG d);
          EvIoWrite (DBM_EP_CFG d) cleared;
          EvIoRead DBM_SOFT_RESET;
          EvIoWrite DBM_SOFT_RESET asserted;
          EvDelay 10;
          EvIoRead DBM_SOFT_RESET;
          EvIoWrite DBM_SOFT_RESET deasserted ] /\
      Z.testbit cleared 0 = false /\
      (Z.testbit DBM_SFT_RST_EPS_MASK d = true ->
       Z.testbit asserted d = true /\
       Z.testbit deasserted d = false).
Proof.
  intros st usb_ep [Hnum Hlen] d Hd.
  destruct (find_matching_found st usb_ep Hd) as [Hlt _].
  fold d in Hlt. rewrite Hnum in Hlt. unfold DBM_1_5_NUM_EP in Hlt.
  destruct (ep_unconfig_success usb_ep st Hnum Hd) as [_ [Htrace _]].
  fold d in Htrace.
  rewrite (events_of_app _ st _ Htrace). unfold ep_unconfig_events.
  do 3 eexists. split; [ reflexivity | ]. split.
  - rewrite Z.land_spec, testbit_not32 by lia. apply andb_false_r.
  - intros Hbit. split.
    + rewrite (slot_field_word_bit _ _ d true d) by (lia || assumption).
      now rewrite Z.eqb_refl.
    + rewrite (slot_field_word_bit _ _ d false d) by (lia || assumption).
      now rewrite Z.eqb_refl.
Qed.

End ResetBits.

Lemma dbm_ep_soft_reset_checked_witness :
  let st := msm_dbm_probe (fun _ => 0xFFFFFFFF) in
  dbm_ep_soft_reset (masks := sample_dbm_h) 8 true st =
    (- ENODEV, log (EvErr MsgInvalidDbmEp) st) /\
  fst (dbm_ep_soft_reset (masks := sample_dbm_h) 2 false st) = 0 /\
  Z.testbit (regs (snd (dbm_ep_soft_reset (masks := sample_dbm_h) 2 false st))
                  DBM_SOFT_RESET) 2 = false.
Proof.
  cbv zeta.
  destruct (dbm_ep_soft_reset_checked (masks := sample_dbm_h)
              (msm_dbm_probe (fun _ => 0xFFFFFFFF)) 8 true) as [Hout _].
  destruct (dbm_ep_soft_reset_checked (masks := sample_dbm_h)
              (msm_dbm_probe (fun _ => 0xFFFFFFFF)) 2 false) as [_ Hin].
  split; [ apply Hout; cbn [msm_dbm_probe dbm_num_eps];
           unfold DBM_1_5_NUM_EP; lia | ].
  destruct Hin as [Hret [Hbits _]];
    [ cbn [msm_dbm_probe dbm_num_eps]; unfold DBM_1_5_NUM_EP; lia
    | cbn [msm_dbm_probe dbm_num_eps]; unfold DBM_1_5_NUM_EP; lia
    | reflexivity | ].
  split; [ exact Hret | ].
  exact (Hbits 2 ltac:(lia)).
Defined.

Lemma soft_reset_bit_witness :
  field_fits 0x80000000 1 = true /\
  let st := msm_dbm_probe (fun _ => 0x0000000F) in
  fst (soft_reset (masks := sample_dbm_h) true st) = 0 /\
  Z.testbit (regs (snd (soft_reset (masks := sample_dbm_h) true st))
                  DBM_SOFT_RESET) 31 = true.
Proof.
  split; [ reflexivity | ]. cbv zeta.
  destruct (soft_reset_bit (masks := sample_dbm_h)
              (msm_dbm_probe (fun _ => 0x0000000F)) true eq_refl)
    as [Hret [Hbit _]].
  split; [ exact Hret | exact Hbit ].
Defined.

Lemma ep_unconfig_registers_witness :
  device_ok configured_2_3 /\
  0 <= fst (msm_dbm_find_matching_dbm_ep 3 configured_2_3) /\
  let st' := snd (ep_unconfig (masks := sample_dbm_h) 3 configured_2_3) in
  Z.testbit (regs st' (DBM_EP_CFG 2)) 0 = false /\
  Z.testbit (regs st' (DBM_EP_CFG 2)) 8 =
    Z.testbit (regs configured_2_3 (DBM_EP_CFG 2)) 8 /\
  load_ep_num_mapping st' 2 = 0.
Proof.
  assert (Hok : device_ok configured_2_3) by (split; reflexivity).
  assert (Hd : 0 <= fst (msm_dbm_find_matching_dbm_ep 3 configured_2_3))
    by (vm_compute; discriminate).
  split; [ exact Hok | ]. split; [ exact Hd | ]. cbv zeta.
  destruct (ep_unconfig_registers (masks := sample_dbm_h) configured_2_3 3
              Hok Hd) as [Hcfg [_ [_ [Hentry _]]]].
  split; [ exact (Hcfg 0 ltac:(lia)) | ].
  split; [ exact (Hcfg 8 ltac:(lia)) | exact Hentry ].
Defined.

Lemma ep_unconfig_reset_cycle_witness :
  device_ok configured_2_3 /\
  0 <= fst (msm_dbm_find_matching_dbm_ep 3 configured_2_3) /\
  exists cleared asserted deasserted,
    events_of (ep_unconfig (masks := sample_dbm_h) 3) configured_2_3 =
      [ EvMapStore 2 0;
        EvIoRead (DBM_EP_CFG 2);
        EvIoWrite (DBM_EP_CFG 2) cleared;
        EvIoRead DBM_SOFT_RESET;
        EvIoWrite DBM_SOFT_RESET asserted;
        EvDelay 10;
        EvIoRead DBM_SOFT_RESET;
        EvIoWrite DBM_SOFT_RESET deasserted ] /\
    Z.testbit cleared 0 = false /\
    Z.testbit asserted 2 = true /\
    Z.testbit deasserted 2 = false.
Proof.
  assert (Hok : device_ok configured_2_3) by (split; reflexivity).
  assert (Hd : 0 <= fst (msm_dbm_find_matching_dbm_ep 3 configured_2_3))
    by (vm_compute; discriminate).
  split; [ exact Hok | ]. split; [ exact Hd | ].
  destruct (ep_unconfig_reset_cycle (masks := sample_dbm_h) configured_2_3 3
              Hok Hd) as [cleared [asserted [deasserted [Hev [Hc Hbits]]]]].
  exists cleared, asserted, deasserted.
  split; [ exact Hev | ]. split; [ exact Hc | ].
  exact (Hbits eq_refl).
Defined.

(** ** What an entry point leaves alone *)

Lemma lower_upper_32_bits (addr : Z) :
  0 <= addr < 2 ^ 64 ->
  0 <= lower_32_bits addr < 2 ^ 32 /\
  0 <= upper_32_bits addr < 2 ^ 32 /\
  lower_32_bits addr + 2 ^ 32 * upper_32_bits addr = addr.
Proof.
  intros Haddr. unfold lower_32_bits, upper_32_bits, u32.
  rewrite !Z.shiftr_div_pow2, Z.div_div by lia.
  change (2 ^ 16 * 2 ^ 16) with (2 ^ 32).
  assert (Hhi : 0 <= addr / 2 ^ 32 < 2 ^ 32).
  { split; [ apply Z.div_pos; lia | ].
    apply Z.div_lt_upper_bound; [ lia | ].
    change (2 ^ 32 * 2 ^ 32) with (2 ^ 64). lia. }
  rewrite (Z.mod_small (addr / 2 ^ 32)) by exact Hhi.
  pose proof (Z.mod_pos_bound addr (2 ^ 32) ltac:(lia)).
  pose proof (Z.div_mod addr (2 ^ 32) ltac:(lia)).
  lia.
Qed.

Lemma upper_32_bits_div (addr : Z) :
  0 <= addr < 2 ^ 64 -> upper_32_bits addr = addr / 2 ^ 32.
Proof.
  intros Haddr. unfold upper_32_bits, u32.
  rewrite !Z.shiftr_div_pow2, Z.div_div by lia.
  change (2 ^ 16 * 2 ^ 16) with (2 ^ 32).
  apply Z.mod_small. split; [ apply Z.div_pos; lia | ].
  apply Z.div_lt_upper_bound; [ lia | ].
  change (2 ^ 32 * 2 ^ 32) with (2 ^ 64). lia.
Qed.

Section Isolation.

Context {masks : dbm_h}.

(** X11: a successful [ep_config] on slot [d] changes neither the mapping
    table nor any register other than the slot's configuration register,
    the IOC register and the soft-reset register; in particular the
    configuration registers of the other seven slots stay.  It makes the
    slot's bit of the IOC register equal to [ioc] and clears the slot's
    reset bit, keeping the other bits of both registers (for a slot whose
    bit the respective mask has). *)
Theorem ep_config_touches_its_slot_only :
  forall (st : machine) (usb_ep bam_pipe : Z)
         (producer disable_wb internal_mem ioc : bool),
    device_ok st ->
    let run := ep_config usb_ep bam_pipe producer disable_wb internal_mem ioc in
    let d := fst (run st) in
    let st' := snd (run st) in
    0 <= d ->
    ep_num_mapping st' = ep_num_mapping st /\
    mem_fault st' = mem_fault st /\
    (forall o, o <> DBM_EP_CFG d -> o <> DBM_DBG_CNFG -> o <> DBM_SOFT_RESET ->
       regs st' o = regs st o) /\
    (forall j, 0 <= j < DBM_1_5_NUM_EP -> j <> d ->
       regs st' (DBM_EP_CFG j) = regs st (DBM_EP_CFG j)) /\
    (Z.testbit DBM_ENABLE_IOC_MASK d = true ->
     forall i, 0 <= i < 32 ->
       Z.testbit (regs st' DBM_DBG_CNFG) i =
       if i =? d then ioc else Z.testbit (regs st DBM_DBG_CNFG) i) /\
    (Z.testbit DBM_SFT_RST_EPS_MASK d = true ->
     forall i, 0 <= i < 32 ->
       Z.testbit (regs st' DBM_SOFT_RESET) i =
       if i =? d then false else Z.testbit (regs st DBM_SOFT_RESET) i).
Proof.
  intros st usb_ep bam_pipe producer disable_wb internal_mem ioc [Hnum _]
         run d st' Hd.
  destruct (ep_config_passed usb_ep bam_pipe producer disable_wb internal_mem
                             ioc st Hd) as [Hfound Hlast].
  destruct (ep_config_success usb_ep bam_pipe producer disable_wb internal_mem
                              ioc st Hnum Hfound Hlast)
    as [Hret [_ [_ [Hmap [_ Hfault]]]]].
  pose proof (ep_config_regs usb_ep bam_pipe producer disable_wb internal_mem
                             ioc st Hnum Hfound Hlast) as Hregs.
  cbv zeta in Hregs. fold run in Hret, Hmap, Hfault, Hregs.
  fold d in Hret. rewrite <- Hret in Hregs. fold st' in Hmap, Hfault, Hregs.
  destruct (find_matching_found st usb_ep Hfound) as [Hlt _].
  rewrite <- Hret, Hnum in Hlt. unfold DBM_1_5_NUM_EP in Hlt.
  assert (Hdc : (DBM_DBG_CNFG =? DBM_EP_CFG d) = false)
    by (apply Z.eqb_neq; unfold DBM_EP_CFG, DBM_DBG_CNFG; lia).
  assert (Hsc : (DBM_SOFT_RESET =? DBM_EP_CFG d) = false)
    by (apply Z.eqb_neq; unfold DBM_EP_CFG, DBM_SOFT_RESET; lia).
  split; [ exact Hmap | ]. split; [ exact Hfault | ].
  split; [ | split; [ | split ] ].
  - intros o Hcfg Hdbg Hsr. rewrite Hregs.
    apply Z.eqb_neq in Hcfg, Hdbg, Hsr. now rewrite Hcfg, Hdbg, Hsr.
  - intros j Hj Hne. rewrite Hregs.
    replace (DBM_EP_CFG j =? DBM_EP_CFG d) with false
      by (symmetry; apply Z.eqb_neq; unfold DBM_EP_CFG; lia).
    replace (DBM_EP_CFG j =? DBM_DBG_CNFG) with false
      by (symmetry; apply Z.eqb_neq;
          unfold DBM_EP_CFG, DBM_DBG_CNFG, DBM_1_5_NUM_EP in *; lia).
    replace (DBM_EP_CFG j =? DBM_SOFT_RESET) with false
      by (symmetry; apply Z.eqb_neq;
          unfold DBM_EP_CFG, DBM_SOFT_RESET, DBM_1_5_NUM_EP in *; lia).
    reflexivity.
  - intros Hbit i Hi. rewrite Hregs, Hdc, Z.eqb_refl.
    apply slot_field_word_bit; [ lia | exact Hbit | exact Hi ].
  - intros Hbit i Hi. rewrite Hregs, Hsc.
    change (DBM_SOFT_RESET =? DBM_DBG_CNFG) with false.
    rewrite Z.eqb_refl.
    apply slot_field_word_bit; [ lia | exact Hbit | exact Hi ].
Qed.

End Isolation.

Lemma ep_config_touches_its_slot_only_witness :
  device_ok bound_2_3 /\
  0 <= fst (ep_config (masks := sample_dbm_h) 3 0 true false false true
                      bound_2_3) /\
  ep_num_mapping configured_2_3 = ep_num_mapping bound_2_3 /\
  Z.testbit (regs configured_2_3 DBM_DBG_CNFG) 2 = true.
Proof.
  assert (Hok : device_ok bound_2_3) by (split; reflexivity).
  assert (Hd : 0 <= fst (ep_config (masks := sample_dbm_h) 3 0 true false
                                   false true bound_2_3))
    by (vm_compute; discriminate).
  split; [ exact Hok | ]. split; [ exact Hd | ].
  destruct (ep_config_touches_its_slot_only (masks := sample_dbm_h) bound_2_3
              3 0 true false false true Hok Hd) as [Hmap [_ [_ [_ [Hioc _]]]]].
  split; [ exact Hmap | ].
  exact (Hioc eq_refl 2 ltac:(lia)).
Defined.

Section FifoAndEventBuffer.

Context {masks : dbm_h}.

(** X12: [data_fifo_config] on a slot 0-7 with an address below 2^64
    leaves the two halves of the address in the slot's LSB and MSB
    registers (two 32-bit words, the low 32 bits of the address and its
    bits 32-63: low + 2^32 * high is the address) and, for a size that fits
    its field, the size in the size field with the other bits of that
    register kept; it changes no other register: not the FIFO registers of
    another slot, and no configuration register. *)
Theorem data_fifo_config_registers :
  forall (st : machine) (dep_num addr size dst_pipe_idx : Z),
    0 <= dst_pipe_idx < DBM_1_5_NUM_EP ->
    0 <= addr < 2 ^ 64 ->
    let st' := snd (data_fifo_config dep_num addr size dst_pipe_idx st) in
    0 <= regs st' (DBM_DATA_FIFO_LSB dst_pipe_idx) < 2 ^ 32 /\
    0 <= regs st' (DBM_DATA_FIFO_MSB dst_pipe_idx) < 2 ^ 32 /\
    regs st' (DBM_DATA_FIFO_LSB dst_pipe_idx) = addr mod 2 ^ 32 /\
    regs st' (DBM_DATA_FIFO_MSB dst_pipe_idx) = addr / 2 ^ 32 /\
    regs st' (DBM_DATA_FIFO_LSB dst_pipe_idx)
      + 2 ^ 32 * regs st' (DBM_DATA_FIFO_MSB dst_pipe_idx) = addr /\
    (field_fits DBM_DATA_FIFO_SIZE_MASK size = true ->
     forall i, 0 <= i < 32 ->
       Z.testbit (regs st' (DBM_DATA_FIFO_SIZE dst_pipe_idx)) i =
       if Z.testbit DBM_DATA_FIFO_SIZE_MASK i
       then Z.testbit (Z.shiftl size
                         (find_first_bit DBM_DATA_FIFO_SIZE_MASK 32)) i
       else Z.testbit (regs st (DBM_DATA_FIFO_SIZE dst_pipe_idx)) i) /\
    (forall o,
       o <> DBM_DATA_FIFO_LSB dst_pipe_idx ->
       o <> DBM_DATA_FIFO_MSB dst_pipe_idx ->
       o <> DBM_DATA_FIFO_SIZE dst_pipe_idx ->
       regs st' o = regs st o) /\
    (forall j, 0 <= j < DBM_1_5_NUM_EP ->
       regs st' (DBM_EP_CFG j) = regs st (DBM_EP_CFG j) /\
       (j <> dst_pipe_idx ->
          regs st' (DBM_DATA_FIFO_LSB j) = regs st (DBM_DATA_FIFO_LSB j) /\
          regs st' (DBM_DATA_FIFO_MSB j) = regs st (DBM_DATA_FIFO_MSB j) /\
          regs st' (DBM_DATA_FIFO_SIZE j) = regs st (DBM_DATA_FIFO_SIZE j))).
Proof.
  intros st dep_num addr size dst_pipe_idx Hidx Haddr st'.
  pose proof (data_fifo_config_regs dep_num addr size dst_pipe_idx st
                (proj1 Hidx)) as Hregs.
  fold st' in Hregs. unfold DBM_1_5_NUM_EP in *.
  assert (Hother : forall o,
             o <> DBM_DATA_FIFO_LSB dst_pipe_idx ->
             o <> DBM_DATA_FIFO_MSB dst_pipe_idx ->
             o <> DBM_DATA_FIFO_SIZE dst_pipe_idx ->
             regs st' o = regs st o).
  { intros o Hl Hm Hs. rewrite Hregs.
    apply Z.eqb_neq in Hl, Hm, Hs. now rewrite Hl, Hm, Hs. }
  assert (Hlsb : regs st' (DBM_DATA_FIFO_LSB dst_pipe_idx)
                 = lower_32_bits addr).
  { rewrite Hregs.
    replace (DBM_DATA_FIFO_LSB dst_pipe_idx =? DBM_DATA_FIFO_SIZE dst_pipe_idx)
      with false
      by (symmetry; apply Z.eqb_neq;
          unfold DBM_DATA_FIFO_LSB, DBM_DATA_FIFO_SIZE; lia).
    replace (DBM_DATA_FIFO_LSB dst_pipe_idx =? DBM_DATA_FIFO_MSB dst_pipe_idx)
      with false
      by (symmetry; apply Z.eqb_neq;
          unfold DBM_DATA_FIFO_LSB, DBM_DATA_FIFO_MSB; lia).
    now rewrite Z.eqb_refl. }
  assert (Hmsb : regs st' (DBM_DATA_FIFO_MSB dst_pipe_idx)
                 = upper_32_bits addr).
  { rewrite Hregs.
    replace (DBM_DATA_FIFO_MSB dst_pipe_idx =? DBM_DATA_FIFO_SIZE dst_pipe_idx)
      with false
      by (symmetry; apply Z.eqb_neq;
          unfold DBM_DATA_FIFO_MSB, DBM_DATA_FIFO_SIZE; lia).
    now rewrite Z.eqb_refl. }
  destruct (lower_upper_32_bits addr Haddr) as [Hlo [Hhi Hsum]].
  rewrite Hlsb, Hmsb.
  split; [ exact Hlo | ]. split; [ exact Hhi | ].
  split; [ reflexivity | ].
  split; [ exact (upper_32_bits_div addr Haddr) | ].
  split; [ exact Hsum | ].
  split; [ | split ].
  - intros Hfit i Hi. rewrite Hregs, Z.eqb_refl.
    destruct (Z.testbit DBM_DATA_FIFO_SIZE_MASK i) eqn:Hm.
    + now apply field_word_bit_inside.
    + now apply field_word_bit_outside.
  - exact Hother.
  - intros j Hj. split.
    + apply Hother;
        unfold DBM_EP_CFG, DBM_DATA_FIFO_LSB, DBM_DATA_FIFO_MSB,
               DBM_DATA_FIFO_SIZE; lia.
    + intros Hne. repeat split; apply Hother;
        unfold DBM_DATA_FIFO_LSB, DBM_DATA_FIFO_MSB, DBM_DATA_FIFO_SIZE; lia.
Qed.

(** X13: with the slot index unchecked, [data_fifo_config] called with
    [dst_pipe_idx = 32 + 2 * j] puts its size word into the address (LSB)
    register of slot [j]: besides the store outside the table, a slot
    index beyond the table overwrites a FIFO register of a valid slot. *)
Theorem data_fifo_config_index_aliases :
  forall (st : machine) (dep_num addr size j : Z),
    0 <= j < DBM_1_5_NUM_EP ->
    let st' := snd (data_fifo_config dep_num addr size (32 + 2 * j) st) in
    mem_fault st' = true /\
    regs st' (DBM_DATA_FIFO_LSB j) =
      field_word (regs st (DBM_DATA_FIFO_LSB j)) DBM_DATA_FIFO_SIZE_MASK size.
Proof.
  intros st dep_num addr size j Hj st'. unfold DBM_1_5_NUM_EP in Hj.
  destruct (data_fifo_config_state dep_num addr size (32 + 2 * j) st)
    as [_ [_ Hfault]].
  fold st' in Hfault.
  pose proof (data_fifo_config_regs dep_num addr size (32 + 2 * j) st
                ltac:(lia)) as Hregs.
  fold st' in Hregs.
  assert (Halias : DBM_DATA_FIFO_SIZE (32 + 2 * j) = DBM_DATA_FIFO_LSB j)
    by (unfold DBM_DATA_FIFO_SIZE, DBM_DATA_FIFO_LSB; lia).
  split.
  - rewrite Hfault.
    replace (index_in_bounds (32 + 2 * j)) with false
      by (symmetry; unfold index_in_bounds, DBM_1_5_NUM_EP; lia).
    apply orb_true_r.
  - rewrite Hregs, Halias, Z.eqb_refl. reflexivity.
Qed.

(** X14: [event_buffer_config] with a size that is not negative returns 0
    and leaves the two address words in the event-buffer address
    registers as given and, for a size that fits its field, the size in
    the size field with the other bits of that register kept; it changes
    no other register and not the mapping table. *)
Theorem event_buffer_config_registers :
  forall (st : machine) (addr_lo addr_hi size : Z),
    0 <= size ->
    let st' := snd (event_buffer_config addr_lo addr_hi size st) in
    fst (event_buffer_config addr_lo addr_hi size st) = 0 /\
    regs st' DBM_GEVNTADR_LSB = addr_lo /\
    regs st' DBM_GEVNTADR_MSB = addr_hi /\
    (field_fits DBM_GEVNTSIZ_MASK size = true ->
     forall i, 0 <= i < 32 ->
       Z.testbit (regs st' DBM_GEVNTSIZ) i =
       if Z.testbit DBM_GEVNTSIZ_MASK i
       then Z.testbit (Z.shiftl size (find_first_bit DBM_GEVNTSIZ_MASK 32)) i
       else Z.testbit (regs st DBM_GEVNTSIZ) i) /\
    (forall o, o <> DBM_GEVNTADR_LSB -> o <> DBM_GEVNTADR_MSB ->
               o <> DBM_GEVNTSIZ -> regs st' o = regs st o) /\
    ep_num_mapping st' = ep_num_mapping st.
Proof.
  intros st addr_lo addr_hi size Hsize st'.
  destruct (event_buffer_config_run addr_lo addr_hi size st Hsize)
    as [Hret _].
  destruct (event_buffer_config_regs addr_lo addr_hi size st Hsize)
    as [Hregs [Hmap _]].
  fold st' in Hregs, Hmap.
  split; [ exact Hret | ].
  split; [ now rewrite Hregs | ]. split; [ now rewrite Hregs | ].
  split; [ | split; [ | exact Hmap ] ].
  - intros Hfit i Hi. rewrite Hregs, Z.eqb_refl.
    destruct (Z.testbit DBM_GEVNTSIZ_MASK i) eqn:Hm.
    + now apply field_word_bit_inside.
    + now apply field_word_bit_outside.
  - intros o Hl Hm Hs. rewrite Hregs.
    apply Z.eqb_neq in Hl, Hm, Hs. now rewrite Hl, Hm, Hs.
Qed.

End FifoAndEventBuffer.

Lemma data_fifo_config_registers_witness :
  0 <= 2 < DBM_1_5_NUM_EP /\ 0 <= 0x123456789 < 2 ^ 64 /\
  let st' := snd (data_fifo_config (masks := sample_dbm_h)
                    3 0x123456789 4096 2 (msm_dbm_probe (fun _ => 0))) in
  regs st' (DBM_DATA_FIFO_LSB 2) = 0x23456789 /\
  regs st' (DBM_DATA_FIFO_MSB 2) = 0x1 /\
  regs st' (DBM_DATA_FIFO_LSB 2) + 2 ^ 32 * regs st' (DBM_DATA_FIFO_MSB 2)
  = 0x123456789.
Proof.
  assert (Hidx : 0 <= 2 < DBM_1_5_NUM_EP) by (unfold DBM_1_5_NUM_EP; lia).
  assert (Haddr : 0 <= 0x123456789 < 2 ^ 64) by lia.
  split; [ exact Hidx | ]. split; [ exact Haddr | ].
  destruct (data_fifo_config_registers (masks := sample_dbm_h)
              (msm_dbm_probe (fun _ => 0)) 3 0x123456789 4096 2
              Hidx Haddr) as [_ [_ [Hlo [Hhi [Hsum _]]]]].
  split; [ exact Hlo | ]. split; [ exact Hhi | exact Hsum ].
Defined.

Lemma data_fifo_config_index_aliases_witness :
  0 <= 0 < DBM_1_5_NUM_EP /\
  let st' := snd (data_fifo_config (masks := sample_dbm_h)
                    4 0x2000 512 32 bound_2_3) in
  mem_fault st' = true /\ regs st' (DBM_DATA_FIFO_LSB 0) = 512.
Proof.
  assert (Hj : 0 <= 0 < DBM_1_5_NUM_EP) by (unfold DBM_1_5_NUM_EP; lia).
  split; [ exact Hj | ].
  exact (data_fifo_config_index_aliases (masks := sample_dbm_h) bound_2_3
           4 0x2000 512 0 Hj).
Defined.

Lemma event_buffer_config_registers_witness :
  0 <= 4096 /\
  let st' := snd (event_buffer_config (masks := sample_dbm_h)
                    0x80001000 0x1 4096 (msm_dbm_probe (fun _ => 0))) in
  regs st' DBM_GEVNTADR_LSB = 0x80001000 /\
  regs st' DBM_GEVNTADR_MSB = 0x1.
Proof.
  split; [ lia | ].
  destruct (event_buffer_config_registers (masks := sample_dbm_h)
              (msm_dbm_probe (fun _ => 0)) 0x80001000 0x1 4096 ltac:(lia))
    as [_ [Hlo [Hhi _]]].
  split; [ exact Hlo | exact Hhi ].
Defined.

(** ** Memory safety of the mapping table *)

(** A call whose slot index, where it takes one, lies in the table. *)
Definition call_in_bounds (c : call) : Prop :=
  match c with
  | CallDataFifoConfig _ _ _ dst_pipe_idx =>
      0 <= dst_pipe_idx < DBM_1_5_NUM_EP
  | _ => True
  end.

Section MemorySafety.

Context {masks : dbm_h}.

Lemma run_call_mem_fault (c : call) (st : machine) :
  dbm_num_eps st = DBM_1_5_NUM_EP ->
  call_in_bounds c ->
  mem_fault (snd (run_call c st)) = mem_fault st.
Proof.
  intros Hnum Hin.
  destruct c as [reset | usb_ep bam_pipe producer disable_wb internal_mem ioc
                 | usb_ep | | addr_lo addr_hi size
                 | dep_num addr size dst_pipe_idx | speed | ];
    cbn [run_call].
  - unfold soft_reset. rewrite bind_eq, write_reg_field_run. now cbn.
  - destruct (run_call_outcome
                (CallEpConfig usb_ep bam_pipe producer disable_wb internal_mem
                              ioc) st Hnum) as [m _ Hst | evs Hpos _ _];
      cbn [run_call] in *.
    + now rewrite Hst.
    + destruct (ep_config_passed usb_ep bam_pipe producer disable_wb
                                 internal_mem ioc st Hpos) as [Hd Hlast].
      now destruct (ep_config_success usb_ep bam_pipe producer disable_wb
                                      internal_mem ioc st Hnum Hd Hlast)
        as [_ [_ [_ [_ [_ Hfault]]]]].
  - destruct (Z.lt_ge_cases (fst (msm_dbm_find_matching_dbm_ep usb_ep st)) 0)
      as [Hneg | Hpos].
    + now rewrite (ep_unconfig_not_found usb_ep st Hneg).
    + now destruct (ep_unconfig_success usb_ep st Hnum Hpos)
        as [_ [_ [_ [_ [_ Hfault]]]]].
  - reflexivity.
  - destruct (Z.lt_ge_cases size 0) as [Hneg | Hpos].
    + now rewrite (event_buffer_config_invalid addr_lo addr_hi size st Hneg).
    + now destruct (event_buffer_config_regs addr_lo addr_hi size st Hpos)
        as [_ [_ [_ Hfault]]].
  - destruct (data_fifo_config_state dep_num addr size dst_pipe_idx st)
      as [_ [_ Hfault]].
    rewrite Hfault. cbn [call_in_bounds] in Hin.
    replace (index_in_bounds dst_pipe_idx) with true
      by (symmetry; unfold index_in_bounds; lia).
    apply orb_false_r.
  - reflexivity.
  - reflexivity.
Qed.

Lemma run_call_device_ok (c : call) (st : machine) :
  device_ok st -> device_ok (snd (run_call c st)).
Proof.
  intros [Hnum Hlen].
  destruct (run_call_context c st Hnum) as [Hn Hmap].
  split; [ now rewrite Hn | ].
  destruct c; try (now rewrite Hmap).
  - destruct Hmap as [Hmap | [i Hmap]]; rewrite Hmap;
      now rewrite ?list_set_length.
  - rewrite Hmap. destruct (index_in_bounds dst_pipe_idx);
      now rewrite ?list_set_length.
Qed.

Lemma run_calls_device_ok (cs : list call) :
  forall st : machine, device_ok st -> device_ok (run_calls cs st).
Proof.
  induction cs as [| c cs IH]; intros st Hok; cbn [run_calls];
    [ exact Hok | ].
  apply IH. now apply run_call_device_ok.
Qed.

(** X15: from a probed device, no sequence of entry-point calls changes
    the slot count or the size of the mapping table, and when every
    [data_fifo_config] in it has [0 <= dst_pipe_idx < 8] no store goes
    outside the table: the lookups, [ep_config] and [ep_unconfig] index
    the table only inside it, whatever their arguments. *)
Theorem in_bounds_calls_never_fault :
  forall (window : Z -> Z) (cs : list call),
    let st := run_calls cs (msm_dbm_probe window) in
    device_ok st /\
    (Forall call_in_bounds cs -> mem_fault st = false).
Proof.
  intros window cs st. subst st.
  assert (Hok : device_ok (msm_dbm_probe window)) by (split; reflexivity).
  split; [ now apply run_calls_device_ok | ].
  assert (Hfault : mem_fault (msm_dbm_probe window) = false) by reflexivity.
  revert Hok Hfault. generalize (msm_dbm_probe window) as st0.
  induction cs as [| c cs IH]; intros st0 Hok Hfault Hall; cbn [run_calls];
    [ exact Hfault | ].
  inversion Hall as [| c' cs' Hc Hcs]; subst.
  apply IH; [ now apply run_call_device_ok | | exact Hcs ].
  now rewrite (run_call_mem_fault c st0 (proj1 Hok) Hc).
Qed.

End MemorySafety.

Lemma in_bounds_calls_never_fault_witness :
  let cs := [ CallDataFifoConfig 3 0x100000000 4096 2;
              CallEpConfig 3 0 true false false true;
              CallEpUnconfig 7;
              CallEventBufferConfig 0x1000 0 (-1);
              CallEpUnconfig 3 ] in
  Forall call_in_bounds cs /\
  mem_fault (run_calls (masks := sample_dbm_h) cs (msm_dbm_probe (fun _ => 0)))
  = false.
Proof.
  cbv zeta.
  assert (Hall : Forall call_in_bounds
                   [ CallDataFifoConfig 3 0x100000000 4096 2;
                     CallEpConfig 3 0 true false false true;
                     CallEpUnconfig 7;
                     CallEventBufferConfig 0x1000 0 (-1);
                     CallEpUnconfig 3 ]).
  { repeat constructor; unfold DBM_1_5_NUM_EP; lia. }
  split; [ exact Hall | ].
  exact (proj2 (in_bounds_calls_never_fault (masks := sample_dbm_h)
                  (fun _ => 0) _) Hall).
Defined.

(** ** Configuring twice *)

Lemma field_word_high (r mask val i : Z) :
  32 <= i -> Z.testbit (field_word r mask val) i = false.
Proof.
  intros Hi. unfold field_word, not32, shl32, u32.
  now rewrite Z.lor_spec, Z.land_spec, !Z.mod_pow2_bits_high, andb_false_r
    by lia.
Qed.

Lemma field_word_bit (r mask val i : Z) :
  0 <= i < 32 -> field_fits mask val = true ->
  Z.testbit (field_word r mask val) i =
  if Z.testbit mask i
  then Z.testbit (Z.shiftl val (find_first_bit mask 32)) i
  else Z.testbit r i.
Proof.
  intros Hi Hfit. destruct (Z.testbit mask i) eqn:Hm.
  - now apply field_word_bit_inside.
  - now apply field_word_bit_outside.
Qed.

Lemma find_matching_from_same_table (st1 st2 : machine) (usb_ep : Z) (n : nat) :
  ep_num_mapping st1 = ep_num_mapping st2 ->
  forall i, find_matching_from st1 usb_ep i n = find_matching_from st2 usb_ep i n.
Proof.
  intros Hmap. induction n as [| n IH]; intros i; cbn [find_matching_from];
    [ reflexivity | ].
  unfold load_ep_num_mapping. rewrite Hmap, IH. reflexivity.
Qed.

Section Twice.

Context {masks : dbm_h}.

(** The word [ep_config] leaves in a configuration register that held
    [r], bit by bit: the enable field, else the endpoint-number field,
    else the flags field, else the bit of [r]. *)
Lemma cfg_enable_word_bit (r : Z) (producer disable_wb : bool) (usb_ep i : Z) :
  0 <= i < 32 ->
  field_fits ep_cfg_flags_mask (Z.shiftr (ep_cfg_of producer disable_wb) 8)
    = true ->
  field_fits USB3_EPNUM usb_ep = true ->
  field_fits DBM_EN_EP 1 = true ->
  Z.testbit (cfg_enable_word r producer disable_wb usb_ep) i =
  if Z.testbit DBM_EN_EP i
  then Z.testbit (Z.shiftl 1 (find_first_bit DBM_EN_EP 32)) i
  else if Z.testbit USB3_EPNUM i
  then Z.testbit (Z.shiftl usb_ep (find_first_bit USB3_EPNUM 32)) i
  else if Z.testbit ep_cfg_flags_mask i
  then Z.testbit (Z.shiftl (Z.shiftr (ep_cfg_of producer disable_wb) 8)
                           (find_first_bit ep_cfg_flags_mask 32)) i
  else Z.testbit r i.
Proof.
  intros Hi Hfl Hep Hen.
  unfold cfg_enable_word, cfg_epnum_word, cfg_flags_word.
  now rewrite !field_word_bit by assumption.
Qed.

Lemma cfg_enable_word_twice (r : Z) (producer disable_wb : bool) (usb_ep : Z) :
  field_fits ep_cfg_flags_mask (Z.shiftr (ep_cfg_of producer disable_wb) 8)
    = true ->
  field_fits USB3_EPNUM usb_ep = true ->
  field_fits DBM_EN_EP 1 = true ->
  cfg_enable_word (cfg_enable_word r producer disable_wb usb_ep)
                  producer disable_wb usb_ep
  = cfg_enable_word r producer disable_wb usb_ep.
Proof.
  intros Hfl Hep Hen. apply Z.bits_inj'. intros i Hi.
  destruct (Z.lt_ge_cases i 32) as [Hlow | Hhigh].
  - rewrite (cfg_enable_word_bit (cfg_enable_word r producer disable_wb usb_ep))
      by (try lia; assumption).
    rewrite (cfg_enable_word_bit r) by (try lia; assumption).
    destruct (Z.testbit DBM_EN_EP i); [ reflexivity | ].
    destruct (Z.testbit USB3_EPNUM i); [ reflexivity | ].
    destruct (Z.testbit ep_cfg_flags_mask i); reflexivity.
  - unfold cfg_enable_word at 1 3. now rewrite !field_word_high.
Qed.

(** X16: configuring twice is configuring once.  When the flags, the
    endpoint number and 1 fit their fields, a second [ep_config] with the
    same arguments after a successful one returns the same slot and leaves
    the slot's configuration register and the mapping table as the first
    call left them. *)
Theorem ep_config_twice :
  forall (st : machine) (usb_ep bam_pipe : Z)
         (producer disable_wb internal_mem ioc : bool),
    device_ok st ->
    field_fits ep_cfg_flags_mask (Z.shiftr (ep_cfg_of producer disable_wb) 8)
      = true ->
    field_fits USB3_EPNUM usb_ep = true ->
    field_fits DBM_EN_EP 1 = true ->
    let run := ep_config usb_ep bam_pipe producer disable_wb internal_mem ioc in
    let d := fst (run st) in
    0 <= d ->
    let st1 := snd (run st) in
    fst (run st1) = d /\
    regs (snd (run st1)) (DBM_EP_CFG d) = regs st1 (DBM_EP_CFG d) /\
    ep_num_mapping (snd (run st1)) = ep_num_mapping st1.
Proof.
  intros st usb_ep bam_pipe producer disable_wb internal_mem ioc [Hnum _]
         Hfl Hep Hen run d Hd st1.
  destruct (ep_config_passed usb_ep bam_pipe producer disable_wb internal_mem
                             ioc st Hd) as [Hfound Hlast].
  destruct (ep_config_success usb_ep bam_pipe producer disable_wb internal_mem
                              ioc st Hnum Hfound Hlast)
    as [Hret [_ [Hw [Hmap [Hn _]]]]].
  fold run in Hret, Hw, Hmap, Hn. fold d in Hret.
  fold st1 in Hw, Hmap, Hn.
  assert (Hfind1 : fst (msm_dbm_find_matching_dbm_ep usb_ep st1)
                   = fst (msm_dbm_find_matching_dbm_ep usb_ep st)).
  { cbn [msm_dbm_find_matching_dbm_ep fst]. rewrite Hn.
    now apply find_matching_from_same_table. }
  assert (Hnum1 : dbm_num_eps st1 = DBM_1_5_NUM_EP) by (now rewrite Hn).
  pose proof (ep_config_success usb_ep bam_pipe producer disable_wb
                                internal_mem ioc st1 Hnum1) as Hsecond.
  cbv zeta in Hsecond. rewrite Hfind1 in Hsecond.
  destruct (Hsecond Hfound Hlast) as [Hret2 [_ [Hw2 [Hmap2 _]]]].
  fold run in Hret2, Hw2, Hmap2.
  rewrite <- Hret in Hret2, Hw2, Hw.
  split; [ exact Hret2 | ]. split; [ | exact Hmap2 ].
  rewrite Hw2, Hw. now apply cfg_enable_word_twice.
Qed.

End Twice.

Lemma ep_config_twice_witness :
  device_ok bound_2_3 /\
  0 <= fst (ep_config (masks := sample_dbm_h) 3 0 true false false true
                      bound_2_3) /\
  fst (ep_config (masks := sample_dbm_h) 3 0 true false false true
                 configured_2_3) = 2 /\
  regs (snd (ep_config (masks := sample_dbm_h) 3 0 true false false true
                       configured_2_3)) (DBM_EP_CFG 2)
  = regs configured_2_3 (DBM_EP_CFG 2).
Proof.
  assert (Hok : device_ok bound_2_3) by (split; reflexivity).
  assert (Hd : 0 <= fst (ep_config (masks := sample_dbm_h) 3 0 true false
                                   false true bound_2_3))
    by (vm_compute; discriminate).
  split; [ exact Hok | ]. split; [ exact Hd | ].
  destruct (ep_config_twice (masks := sample_dbm_h) bound_2_3
              3 0 true false false true Hok eq_refl eq_refl eq_refl Hd)
    as [Hret [Hreg _]].
  split; [ exact Hret | exact Hreg ].
Defined.

(** ** A device just probed *)

Section FreshDevice.

Context {masks : dbm_h}.

(** X17: on a device just probed the mapping table is empty: no endpoint
    is counted as configured, the lookup of every nonzero logical endpoint
    number returns -ENODEV, and [ep_config] and [ep_unconfig] of such a
    number fail with -ENODEV after the not-found message, without touching
    a register; an endpoint has to be bound by [data_fifo_config] first. *)
Theorem probed_device_has_no_binding :
  forall (window : Z -> Z) (usb_ep : Z),
    usb_ep <> 0 ->
    let st := msm_dbm_probe window in
    fst (get_num_of_eps_configured st) = 0 /\
    fst (msm_dbm_find_matching_dbm_ep usb_ep st) = - ENODEV /\
    ep_unconfig usb_ep st = (- ENODEV, log (EvErr MsgInvalidUsbEp) st) /\
    forall (bam_pipe : Z) (producer disable_wb internal_mem ioc : bool),
      ep_config usb_ep bam_pipe producer disable_wb internal_mem ioc st =
      (- ENODEV, log (EvErr MsgInvalidUsbEp) st).
Proof.
  intros window usb_ep Hnz st.
  assert (Hneg : fst (msm_dbm_find_matching_dbm_ep usb_ep st) < 0).
  { destruct (Z.lt_ge_cases (fst (msm_dbm_find_matching_dbm_ep usb_ep st)) 0)
      as [Hneg | Hpos]; [ exact Hneg | exfalso ].
    destruct (find_matching_found st usb_ep Hpos) as [_ [Hload _]].
    unfold load_ep_num_mapping in Hload. cbn [st msm_dbm_probe ep_num_mapping]
      in Hload.
    rewrite nth_repeat in Hload. congruence. }
  split; [ reflexivity | ].
  split; [ exact (proj1 (find_matching_not_found st usb_ep Hneg)) | ].
  split; [ now apply ep_unconfig_not_found | ].
  intros bam_pipe producer disable_wb internal_mem ioc.
  now apply ep_config_not_found.
Qed.

End FreshDevice.

Lemma probed_device_has_no_binding_witness :
  3 <> 0 /\
  ep_config (masks := sample_dbm_h) 3 0 true false false true
            (msm_dbm_probe (fun _ => 0)) =
  (- ENODEV, log (EvErr MsgInvalidUsbEp) (msm_dbm_probe (fun _ => 0))).
Proof.
  assert (Hnz : 3 <> 0) by lia.
  split; [ exact Hnz | ].
  destruct (probed_device_has_no_binding (masks := sample_dbm_h)
              (fun _ => 0) 3 Hnz) as [_ [_ [_ Hcfg]]].
  exact (Hcfg 0 true false false true).
Defined.
